(** * walnut-cli: the Debug Adapter Protocol server (src/soldb/dap_server.py)

    A shallow embedding of [WalnutDAPServer]: the Content-Length transport
    ([_send], [_read]), the outgoing sequence counter ([_event], [_response]),
    every request handler and the dispatch loop [run].

    Conventions.
    - A Python [int] is a [Z]; a [bytes] value is a [list ascii], one
      [ascii] per byte; a Python [str] is a [string], one [ascii] per code
      point, for the code points below 256.
    - Sizes are those of a 64-bit CPython 3.11: [sys.maxsize] is 2^63 - 1
      and [int] reads at most 4300 digits from a str.  Memory is taken to
      suffice for the data that is there; a buffer that is asked for
      beyond it may be refused ([Memory]).
    - A value that came from, or goes to, JSON is a [json]; a Python dict
      with string keys is an association list in insertion order.
    - The handlers run in the monad [M]: explicit passing of the server
      object (together with the process's stdin and stdout) and Python
      exceptions as the outcome [Raise].
    - The collaborators the module imports ([EVMDebugger],
      [AutoDeployDebugger], their tracer and the [json] library) are
      variables of the section [Server]. *)

From stdpp Require Import gmap strings list.
From Stdlib Require Import ZArith Ascii String DecimalString HexadecimalString DecimalPos DecimalZ Lia.

Set Warnings "-register-all".
Local Open Scope string_scope.
Local Open Scope list_scope.
Local Open Scope Z_scope.

(** ** Python values *)

(** Values exchanged as JSON.  Floating point numbers are not represented. *)
Inductive json : Type :=
| JNull
| JBool (b : bool)
| JInt (z : Z)
| JStr (s : string)
| JArr (l : list json)
| JObj (d : list (string * json)).

(** A dict with [str] keys, in insertion order. *)
Abbreviation dict := (list (string * json)).

(** A raised exception: its class and [str(e)]. *)
Inductive pyexn : Type := PyExn (cls : string) (msg : string).

Definition str_exn (e : pyexn) : string := let 'PyExn _ m := e in m.

Fixpoint dict_get (k : string) (d : dict) : option json :=
  match d with
  | [] => None
  | (k', v) :: d' => if String.eqb k k' then Some v else dict_get k d'
  end.

(** [d[k] = v]: an existing key keeps its position. *)
Fixpoint dict_set (k : string) (v : json) (d : dict) : dict :=
  match d with
  | [] => [(k, v)]
  | (k', v') :: d' =>
      if String.eqb k k' then (k, v) :: d' else (k', v') :: dict_set k v d'
  end.

(** [d.get(k)] and [d.get(k, default)] on a dict. *)
Definition get (k : string) (d : dict) : json := default JNull (dict_get k d).
Definition get_or (k : string) (dflt : json) (d : dict) : json :=
  default dflt (dict_get k d).

(** Truth value of a JSON-born Python value. *)
Definition truthy (v : json) : bool :=
  match v with
  | JNull => false
  | JBool b => b
  | JInt z => negb (z =? 0)
  | JStr s => negb (String.eqb s "")
  | JArr l => match l with [] => false | _ => true end
  | JObj d => match d with [] => false | _ => true end
  end.

(** [a or b] *)
Definition py_or (a b : json) : json := if truthy a then a else b.

Definition type_name (v : json) : string :=
  match v with
  | JNull => "NoneType" | JBool _ => "bool" | JInt _ => "int"
  | JStr _ => "str" | JArr _ => "list" | JObj _ => "dict"
  end.

Definition AttributeError (v : json) (attr : string) : pyexn :=
  PyExn "AttributeError"
        ("'" +:+ type_name v +:+ "' object has no attribute '" +:+ attr +:+ "'").

(** [str(n)] for an int. *)
Definition str_Z (z : Z) : string := DecimalString.NilZero.string_of_int (Z.to_int z).
Definition str_nat (n : nat) : string := str_Z (Z.of_nat n).

(** [hex(n)] *)
Definition hex (z : Z) : string :=
  let digits := HexadecimalString.NilZero.string_of_uint
                  (N.to_hex_uint (Z.to_N (Z.abs z))) in
  if z <? 0 then "-0x" +:+ digits else "0x" +:+ digits.

(** [sys.maxsize], the largest [Py_ssize_t]: 2^63 - 1. *)
Definition sys_maxsize : Z := 9223372036854775807.

(** Whether an int fits [Py_ssize_t]. *)
Definition fits_ssize_t (i : Z) : bool :=
  (- sys_maxsize - 1 <=? i) && (i <=? sys_maxsize).

(** [l[i]] with Python's negative indices; [None] stands for IndexError. *)
Definition py_index {A : Type} (l : list A) (i : Z) : option A :=
  let n := Z.of_nat (List.length l) in
  if 0 <=? i then l !! Z.to_nat i
  else if - n <=? i then l !! Z.to_nat (i + n)
  else None.

Definition IndexError : pyexn := PyExn "IndexError" "list index out of range".

(** The IndexError of [l[i]] for an index [i] outside the list [l].  An
    index that does not fit [Py_ssize_t] is outside every list, and is
    refused before the list is looked at. *)
Definition index_error (i : Z) : pyexn :=
  if fits_ssize_t i then IndexError
  else PyExn "IndexError" "cannot fit 'int' into an index-sized integer".

(** *** Text *)

Definition is_space (c : ascii) : bool :=
  let n := nat_of_ascii c in
  ((9 <=? n) && (n <=? 13) || (n =? 32))%nat.

Definition is_digit (c : ascii) : bool :=
  let n := nat_of_ascii c in ((48 <=? n) && (n <=? 57))%nat.

Definition digit_val (c : ascii) : Z := Z.of_nat (nat_of_ascii c) - 48.

Fixpoint lstrip (b : list ascii) : list ascii :=
  match b with
  | c :: b' => if is_space c then lstrip b' else b
  | [] => []
  end.

(** [b.strip()] *)
Definition strip (b : list ascii) : list ascii :=
  rev (lstrip (rev (lstrip b))).

Definition lower_char (c : ascii) : ascii :=
  let n := nat_of_ascii c in
  if ((65 <=? n) && (n <=? 90))%nat then ascii_of_nat (n + 32) else c.

(** [b.lower()] *)
Definition lower (b : list ascii) : list ascii := map lower_char b.

(** [b.partition(sep)] for a one-byte separator: the parts before and after
    the first occurrence; without one, everything and the empty string. *)
Fixpoint partition (sep : ascii) (b : list ascii) : list ascii * list ascii :=
  match b with
  | [] => ([], [])
  | c :: b' =>
      if Ascii.eqb c sep then ([], b')
      else let '(k, v) := partition sep b' in (c :: k, v)
  end.

(** *** Integer literals

    [PyLong_FromString] in base 10, which [int] applies to the bytes of
    its argument. *)

(** The digits of a literal, where single underscores may stand between
    digits: the number of digits, their value and what follows them.
    [None] for an underscore that follows another one or ends the
    digits. *)
Fixpoint scan_digits (b : list ascii) (prev_underscore : bool) (count : nat) (acc : Z)
  : option (nat * Z * list ascii) :=
  match b with
  | c :: b' =>
      if is_digit c then scan_digits b' false (S count) (10 * acc + digit_val c)
      else if Ascii.eqb c "_"
           then if prev_underscore then None else scan_digits b' true count acc
           else if prev_underscore then None else Some (count, acc, b)
  | [] => if prev_underscore then None else Some (count, acc, [])
  end.

(** What [PyLong_FromString] makes of a text: its value, no literal, or
    a literal of more digits than the conversion admits. *)
Inductive literal : Type :=
| Literal (z : Z)
| Invalid
| TooLong (digits : nat).

(** [sys.int_info.default_max_str_digits] *)
Definition int_max_str_digits : nat := 4300.

(** White space, an optional sign and the digits, which do not start
    with an underscore: whether the sign is a minus, the number of digits,
    their value and what follows them. *)
Definition scan_literal (b : list ascii) : option (bool * nat * Z * list ascii) :=
  let '(negative, b) := match lstrip b with
                        | "+"%char :: b' => (false, b')
                        | "-"%char :: b' => (true, b')
                        | b' => (false, b')
                        end in
  match b with
  | "_"%char :: _ => None
  | _ =>
      match scan_digits b false 0 0 with
      | Some (count, value, rest) => Some (negative, count, value, rest)
      | None => None
      end
  end.

(** The limit [max_digits] on the number of digits is tested once the
    digits are scanned, before what follows them is looked at: there has
    to be a digit, and nothing but white space after the digits. *)
Definition long_from_string (max_digits : option nat) (b : list ascii) : literal :=
  match scan_literal b with
  | None => Invalid
  | Some (negative, count, value, rest) =>
      if match max_digits with
         | Some limit => (limit <? count)%nat
         | None => false
         end
      then TooLong count
      else if (count =? 0)%nat then Invalid
      else match lstrip rest with
           | [] => Literal (if negative : bool then - value else value)
           | _ => Invalid
           end
  end.

(** The text [int] hands to [PyLong_FromString] for a str
    ([_PyUnicode_TransformDecimalAndSpaceToASCII]): an ASCII str as it is;
    in another one the white space above 126 (U+0085 and U+00A0, below
    256) becomes a blank, and the text ends in a question mark at the
    first other character above 126. *)
Fixpoint transform_space (b : list ascii) : list ascii :=
  match b with
  | [] => []
  | c :: b' =>
      let n := nat_of_ascii c in
      if (n <? 127)%nat then c :: transform_space b'
      else if ((n =? 133) || (n =? 160))%nat then " "%char :: transform_space b'
      else ["?"%char]
  end.

Definition is_ascii (c : ascii) : bool := (nat_of_ascii c <? 128)%nat.

Definition int_text (s : string) : list ascii :=
  let b := list_ascii_of_string s in
  if forallb is_ascii b then b else transform_space b.

(** [s.startswith(p)], [s.endswith(p)] and the slice [s[6:-1]]. *)
Definition startswith (p s : string) : bool := String.prefix p s.
Definition endswith (p s : string) : bool :=
  let n := String.length s in
  let m := String.length p in
  (m <=? n)%nat && String.eqb (String.substring (n - m) m s) p.
Definition slice_6_m1 (s : string) : string :=
  String.substring 6 (String.length s - 7) s.

Fixpoint contains_char (c : ascii) (s : string) : bool :=
  match s with
  | EmptyString => false
  | String c' s' => Ascii.eqb c c' || contains_char c s'
  end.

(** [p in s] for two strs. *)
Fixpoint contains (p s : string) : bool :=
  String.prefix p s ||
  match s with
  | EmptyString => false
  | String _ s' => contains p s'
  end.

Definition dquote : ascii := ascii_of_nat 34.
Definition backslash : ascii := ascii_of_nat 92.
Definition chr (c : ascii) : string := String c EmptyString.

Definition hex_digit (n : nat) : ascii :=
  if (n <? 10)%nat then ascii_of_nat (48 + n) else ascii_of_nat (87 + n).

(** The code points below 256 that [repr] of a str shows as they are:
    [str.isprintable].  No control character, no white space but the
    blank, and not the soft hyphen. *)
Definition is_printable (n : nat) : bool :=
  ((32 <=? n) && (n <? 127) || (161 <=? n) && negb (n =? 173))%nat.

(** The bytes that [repr] of a bytes value shows as they are. *)
Definition is_printable_byte (n : nat) : bool := ((32 <=? n) && (n <? 127))%nat.

(** One character of a [repr] inside the quotes [q]. *)
Definition repr_char (shown : nat → bool) (q c : ascii) : string :=
  let n := nat_of_ascii c in
  if Ascii.eqb c backslash then chr backslash +:+ chr backslash
  else if Ascii.eqb c q then chr backslash +:+ chr q
  else if (n =? 9)%nat then chr backslash +:+ "t"
  else if (n =? 10)%nat then chr backslash +:+ "n"
  else if (n =? 13)%nat then chr backslash +:+ "r"
  else if shown n then chr c
  else chr backslash +:+ "x" +:+ chr (hex_digit (n / 16)) +:+ chr (hex_digit (n mod 16)).

Fixpoint repr_chars (shown : nat → bool) (q : ascii) (s : string) : string :=
  match s with
  | EmptyString => ""
  | String c s' => repr_char shown q c +:+ repr_chars shown q s'
  end.

(** The quotes of a [repr]: single ones, unless the text holds a single
    quote and no double quote. *)
Definition repr_quote (s : string) : ascii :=
  if contains_char "'" s && negb (contains_char dquote s) then dquote else "'"%char.

(** [repr(s)] of a str. *)
Definition repr_str (s : string) : string :=
  let q := repr_quote s in
  chr q +:+ repr_chars is_printable q s +:+ chr q.

(** [repr(b)] of a bytes value. *)
Definition repr_bytes (b : list ascii) : string :=
  let s := string_of_list_ascii b in
  let q := repr_quote s in
  "b" +:+ chr q +:+ repr_chars is_printable_byte q s +:+ chr q.

Fixpoint join (sep : string) (l : list string) : string :=
  match l with
  | [] => ""
  | [x] => x
  | x :: l' => x +:+ sep +:+ join sep l'
  end.

(** [repr(v)] and [str(v)] of a JSON-born value. *)
Fixpoint py_repr (v : json) : string :=
  match v with
  | JNull => "None"
  | JBool b => if b then "True" else "False"
  | JInt z => str_Z z
  | JStr s => repr_str s
  | JArr l => "[" +:+ join ", " ((fix go (l : list json) : list string :=
                match l with [] => [] | x :: l' => py_repr x :: go l' end) l) +:+ "]"
  | JObj d => "{" +:+ join ", " ((fix go (d : dict) : list string :=
                match d with
                | [] => []
                | (k, x) :: d' => (repr_str k +:+ ": " +:+ py_repr x) :: go d'
                end) d) +:+ "}"
  end.

Definition py_str (v : json) : string :=
  match v with JStr s => s | _ => py_repr v end.

(** The ValueError of [int] for a text that is no literal: the message
    shows the first 200 characters of the [repr] of the text. *)
Definition invalid_literal (shown : string) : pyexn :=
  PyExn "ValueError"
        ("invalid literal for int() with base 10: " +:+ String.substring 0 200 shown).

(** The ValueError of [int] for a literal of more digits than the limit. *)
Definition too_many_digits (count : nat) : pyexn :=
  PyExn "ValueError"
        ("Exceeds the limit (4300 digits) for integer string conversion: value has "
         +:+ str_nat count
         +:+ " digits; use sys.set_int_max_str_digits() to increase the limit").

(** [int(s)] of a str. *)
Definition int_of_str (s : string) : pyexn + Z :=
  match long_from_string (Some int_max_str_digits) (int_text s) with
  | Literal z => inr z
  | Invalid => inl (invalid_literal (repr_str s))
  | TooLong count => inl (too_many_digits count)
  end.

(** [int(b)] of a bytes value, as the header loop of [_read] applies it
    to the value of a Content-Length line; the message of the ValueError
    shows the first 200 bytes.  The limit on the number of digits is left
    out of this conversion: the header [_send] writes reads back as the
    length of the body however long the body is, and the statements about
    other headers take their literals to be within the limit. *)
Definition int_of_bytes (b : list ascii) : pyexn + Z :=
  match long_from_string None b with
  | Literal z => inr z
  | Invalid => inl (invalid_literal (repr_bytes (take 200 b)))
  | TooLong count => inl (too_many_digits count)
  end.

(** [int(v)] of a JSON-born value. *)
Definition int_of_json (v : json) : pyexn + Z :=
  match v with
  | JInt z => inr z
  | JBool b => inr (if b then 1 else 0)
  | JStr s => int_of_str s
  | _ => inl (PyExn "TypeError"
                ("int() argument must be a string, a bytes-like object or a real number, not '"
                 +:+ type_name v +:+ "'"))
  end.

(** [os.path.basename]: what follows the last slash. *)
Fixpoint basename_from (s acc : string) : string :=
  match s with
  | EmptyString => acc
  | String c s' => if Ascii.eqb c "/" then basename_from s' s' else basename_from s' acc
  end.
Definition basename (s : string) : string := basename_from s s.

(** A key of the server's [breakpoints] dict: a [str], or an [int] ([True]
    and [1] are one key). *)
Inductive hashable : Type := HStr (s : string) | HInt (z : Z).

#[global] Instance hashable_eq_dec : EqDecision hashable.
Proof. solve_decision. Defined.

#[global] Instance hashable_countable : Countable hashable.
Proof.
  refine (inj_countable' (λ h, match h with HStr s => inl s | HInt z => inr z end)
                         (λ x, match x with inl s => HStr s | inr z => HInt z end) _).
  by intros [].
Defined.

(** The key a JSON-born value hashes to; [None] stands for
    TypeError (unhashable type). *)
Definition to_key (v : json) : option hashable :=
  match v with
  | JStr s => Some (HStr s)
  | JInt z => Some (HInt z)
  | JBool b => Some (HInt (if b then 1 else 0))
  | _ => None
  end.

(** ** The collaborators' data (soldb.evm_repl, soldb.auto_deploy) *)

Module EVM.

(** A stack entry: an [int], or another object known by its [str()]. *)
Inductive word : Type := WInt (z : Z) | WOther (text : string).

Record Step : Type := {
  pc : Z;
  op : string;
  stack : list word;
  memory : string;                      (* falsy when empty *)
  storage : list (string * string);     (* falsy when empty *)
}.

Record Trace : Type := { steps : list Step }.

Record FunctionCall : Type := {
  name : string;
  entry_step : Z;
  exit_step : Z;
}.

(** A variable location of the ETHDebug info. *)
Record VarInfo : Type := {
  var_name : string;
  var_type : string;
  location_type : string;
  offset : Z;
}.

(** The [EVMDebugger] object.  An attribute the server probes with
    [hasattr]/[getattr] is an [option]: [None] when the object lacks it.
    [current_trace] is [None] for Python's [None]; a trace object is
    truthy. *)
Record Debugger (Tracer : Type) : Type := {
  contract_address : string;
  function_name : string;
  current_trace : option Trace;
  current_step : Z;
  function_trace : option (list FunctionCall);
  current_function : option FunctionCall;
  breakpoints : option (gset Z);
  tracer : option Tracer;
}.
Arguments contract_address {Tracer} _.
Arguments function_name {Tracer} _.
Arguments current_trace {Tracer} _.
Arguments current_step {Tracer} _.
Arguments function_trace {Tracer} _.
Arguments current_function {Tracer} _.
Arguments breakpoints {Tracer} _.
Arguments tracer {Tracer} _.

Definition set_current_step {T} (i : Z) (d : Debugger T) : Debugger T :=
  {| contract_address := contract_address d; function_name := function_name d;
     current_trace := current_trace d; current_step := i;
     function_trace := function_trace d; current_function := current_function d;
     breakpoints := breakpoints d; tracer := tracer d |}.

Definition set_current_function {T} (f : FunctionCall) (d : Debugger T) : Debugger T :=
  {| contract_address := contract_address d; function_name := function_name d;
     current_trace := current_trace d; current_step := current_step d;
     function_trace := function_trace d; current_function := Some f;
     breakpoints := breakpoints d; tracer := tracer d |}.

Definition set_tracer {T} (t : T) (d : Debugger T) : Debugger T :=
  {| contract_address := contract_address d; function_name := function_name d;
     current_trace := current_trace d; current_step := current_step d;
     function_trace := function_trace d; current_function := current_function d;
     breakpoints := breakpoints d; tracer := Some t |}.

(** What [AutoDeployDebugger(...)] is called with. *)
Record DeployArgs : Type := {
  contract_file : json;
  deploy_rpc_url : json;
  constructor_args : json;
  fork_url : json;
  fork_block : option Z;
  fork_port : Z;
  reuse_fork : bool;
  keep_fork : bool;
  auto_snapshot : bool;
}.

(** The [AutoDeployDebugger] object: the attributes the server reads
    ([debug_dir] and [abi_path] through [str]). *)
Record Session : Type := {
  session_contract_address : json;
  debug_dir : string;
  abi_path : string;
  rpc_url : json;
}.

(** What [EVMDebugger(...)] is called with ([interactive_mode] is always
    [True]). *)
Record DebuggerArgs : Type := {
  arg_contract_address : string;
  arg_rpc_url : json;
  arg_ethdebug_dir : json;
  arg_function_name : json;
  arg_function_args : json;
  arg_abi_path : json;
}.

End EVM.

(** [for x in v]: the items a JSON-born value iterates over. *)
Definition iter_json (v : json) : pyexn + list json :=
  match v with
  | JArr l => inr l
  | JStr s => inr (map (λ c, JStr (chr c)) (list_ascii_of_string s))
  | JObj d => inr (map (λ kv, JStr kv.1) d)
  | _ => inl (PyExn "TypeError" ("'" +:+ type_name v +:+ "' object is not iterable"))
  end.

(** [k in v] for a str [k]. *)
Definition py_in (k : string) (v : json) : pyexn + bool :=
  match v with
  | JObj d => inr (match dict_get k d with Some _ => true | None => false end)
  | JStr s => inr (contains k s)
  | JArr l => inr (existsb (λ x, match x with JStr s => String.eqb s k | _ => false end) l)
  | _ => inl (PyExn "TypeError"
                ("argument of type '" +:+ type_name v +:+ "' is not iterable"))
  end.

(** [v[k]] for a str [k]. *)
Definition subscript (v : json) (k : string) : pyexn + json :=
  match v with
  | JObj d => match dict_get k d with
              | Some x => inr x
              | None => inl (PyExn "KeyError" (repr_str k))
              end
  | JStr _ => inl (PyExn "TypeError" "string indices must be integers, not 'str'")
  | JArr _ => inl (PyExn "TypeError" "list indices must be integers or slices, not str")
  | _ => inl (PyExn "TypeError" ("'" +:+ type_name v +:+ "' object is not subscriptable"))
  end.

(** ** The monad of the handlers *)

(** How running a piece of code ends: it returns, it raises, or the step
    budget of a loop ran out before the loop ended. *)
Inductive outcome (A : Type) : Type :=
| Return (a : A)
| Raise (e : pyexn)
| OutOfFuel.
Arguments Return {A} a.
Arguments Raise {A} e.
Arguments OutOfFuel {A}.

Definition StateExn (St A : Type) : Type := St → outcome A * St.

#[global] Instance StateExn_ret {St} : MRet (StateExn St) :=
  λ A a s, (Return a, s).

#[global] Instance StateExn_bind {St} : MBind (StateExn St) :=
  λ A B f m s,
    match m s with
    | (Return a, s') => f a s'
    | (Raise e, s') => (Raise e, s')
    | (OutOfFuel, s') => (OutOfFuel, s')
    end.

Definition raise {St A} (e : pyexn) : StateExn St A := λ s, (Raise e, s).
Definition out_of_fuel {St A} : StateExn St A := λ s, (OutOfFuel, s).
Definition get_state {St} : StateExn St St := λ s, (Return s, s).
Definition modify {St} (f : St → St) : StateExn St unit := λ s, (Return tt, f s).

(** [try: m  except Exception as e: handler e] *)
Definition try_except {St A} (m : StateExn St A) (handler : pyexn → StateExn St A)
  : StateExn St A :=
  λ s, match m s with
       | (Raise e, s') => handler e s'
       | r => r
       end.

Definition lift_exn {St A} (r : pyexn + A) : StateExn St A :=
  match r with inl e => raise e | inr a => mret a end.

(** [v.get]: only a dict has the method. *)
Definition as_dict {St} (v : json) : StateExn St dict :=
  match v with JObj d => mret d | _ => raise (AttributeError v "get") end.

(** ** The server *)

Definition CR : ascii := ascii_of_nat 13.
Definition LF : ascii := ascii_of_nat 10.
Definition CRLF : list ascii := [CR; LF].

(** [stream.readline()]: the bytes up to and including the first line feed
    (everything, when there is none), and what remains. *)
Fixpoint split_line (b : list ascii) : list ascii * list ascii :=
  match b with
  | [] => ([], [])
  | c :: b' =>
      if Ascii.eqb c LF then ([c], b')
      else let '(l, r) := split_line b' in (c :: l, r)
  end.

(** The [json] library: [json.dumps(msg).encode("utf-8")] and
    [json.loads(body.decode("utf-8"))]. *)
Class JsonLibrary : Type := {
  json_dumps : json → list ascii;
  json_loads : list ascii → pyexn + json;
}.

(** The memory of the process: whether a bytes object of [n] bytes can be
    allocated when a read asks for more than the input holds. *)
Class Memory : Type := {
  can_allocate : Z → bool;
}.

(** The collaborators of soldb, over the types of the tracer of an
    [EVMDebugger] and of its ETHDebug info and parser. *)
Class Soldb (Tracer Info Parser : Type) : Type := {
  (** The constructors [AutoDeployDebugger(...)] and [EVMDebugger(...)]. *)
  AutoDeployDebugger : EVM.DeployArgs → pyexn + EVM.Session;
  EVMDebugger : EVM.DebuggerArgs → pyexn + EVM.Debugger Tracer;

  (** [tracer.load_abi(path)] and [tracer.snapshot_state()]: the tracer
      afterwards (the server ignores whether they raised). *)
  load_abi : Tracer → string → Tracer;
  snapshot_state : Tracer → Tracer;

  (** [debugger._do_interactive()]: the text printed, the exception raised
      if any, and the debugger afterwards. *)
  _do_interactive : EVM.Debugger Tracer → string * option pyexn * EVM.Debugger Tracer;

  (** [debugger.do_break(arg)], [debugger.do_next("")] and
      [debugger.do_nexti("")]: the exception raised if any, and the debugger
      afterwards. *)
  do_break : EVM.Debugger Tracer → string → option pyexn * EVM.Debugger Tracer;
  do_next : EVM.Debugger Tracer → option pyexn * EVM.Debugger Tracer;
  do_nexti : EVM.Debugger Tracer → option pyexn * EVM.Debugger Tracer;

  (** The tracer's attribute [ethdebug_parser], [None] when absent or
      [None], and its attribute [ethdebug_info]: the value, [None] for
      [None], or the message of the AttributeError when the tracer has no
      such attribute.  Then their queries. *)
  ethdebug_parser : Tracer → option Parser;
  ethdebug_info_attr : Tracer → string + option Info;
  get_source_info : Info → Z → option (string * Z);
  offset_to_line_col : Parser → string → Z → Z * Z;
  get_variables_at_pc : Info → Z → list EVM.VarInfo;

  (** The tracer's decoders, through [str]. *)
  decode_value : Tracer → EVM.word → string → string;
  extract_from_memory : Tracer → string → Z → string → string;
  extract_from_storage : Tracer → list (string * string) → Z → string → string;
}.

(** [getattr(tracer, "ethdebug_info", None)] *)
Definition ethdebug_info {Tracer Info Parser : Type} `{!Soldb Tracer Info Parser}
           (t : Tracer) : option Info :=
  match ethdebug_info_attr t with
  | inr info_obj => info_obj
  | inl _ => None
  end.

(** The server object, and with it the two streams of the process.
    [sent] is the list of the messages handed to [_send], oldest first;
    [stdout] is the bytes written. *)
Record WalnutDAPServer (Tracer : Type) : Type := {
  _seq : Z;
  debugger : option (EVM.Debugger Tracer);
  session : option EVM.Session;
  breakpoints : gmap hashable (list json);
  thread_id : Z;
  stdin : list ascii;
  stdout : list ascii;
  sent : list json;
}.
Arguments _seq {Tracer} _.
Arguments debugger {Tracer} _.
Arguments session {Tracer} _.
Arguments breakpoints {Tracer} _.
Arguments thread_id {Tracer} _.
Arguments stdin {Tracer} _.
Arguments stdout {Tracer} _.
Arguments sent {Tracer} _.

Abbreviation Debugger := EVM.Debugger.
Abbreviation M Tracer := (StateExn (WalnutDAPServer Tracer)).

Section Server.

Context {Tracer Info Parser : Type}.
Context `{!JsonLibrary, !Memory, !Soldb Tracer Info Parser}.

Implicit Types (s : WalnutDAPServer Tracer) (d : Debugger Tracer).

(** [WalnutDAPServer()] *)
Definition __init__ (input : list ascii) : WalnutDAPServer Tracer :=
  {| _seq := 1; debugger := None; session := None; breakpoints := ∅;
     thread_id := 1; stdin := input; stdout := []; sent := [] |}.

Definition set_seq (n : Z) s : WalnutDAPServer Tracer :=
  {| _seq := n; debugger := debugger s; session := session s;
     breakpoints := breakpoints s; thread_id := thread_id s;
     stdin := stdin s; stdout := stdout s; sent := sent s |}.

Definition set_debugger d s : WalnutDAPServer Tracer :=
  {| _seq := _seq s; debugger := Some d; session := session s;
     breakpoints := breakpoints s; thread_id := thread_id s;
     stdin := stdin s; stdout := stdout s; sent := sent s |}.

Definition set_session (x : EVM.Session) s : WalnutDAPServer Tracer :=
  {| _seq := _seq s; debugger := debugger s; session := Some x;
     breakpoints := breakpoints s; thread_id := thread_id s;
     stdin := stdin s; stdout := stdout s; sent := sent s |}.

Definition set_breakpoints (b : gmap hashable (list json)) s
  : WalnutDAPServer Tracer :=
  {| _seq := _seq s; debugger := debugger s; session := session s;
     breakpoints := b; thread_id := thread_id s;
     stdin := stdin s; stdout := stdout s; sent := sent s |}.

Definition set_stdin (b : list ascii) s : WalnutDAPServer Tracer :=
  {| _seq := _seq s; debugger := debugger s; session := session s;
     breakpoints := breakpoints s; thread_id := thread_id s;
     stdin := b; stdout := stdout s; sent := sent s |}.

(** [sys.stdout.buffer.write(data)] for the message [msg]. *)
Definition write (data : list ascii) (msg : json) s
  : WalnutDAPServer Tracer :=
  {| _seq := _seq s; debugger := debugger s; session := session s;
     breakpoints := breakpoints s; thread_id := thread_id s;
     stdin := stdin s; stdout := stdout s ++ data; sent := sent s ++ [msg] |}.

(** *** DAP transport helpers *)

(** The bytes [_send] writes for [msg]. *)
Definition frame (msg : json) : list ascii :=
  let body := json_dumps msg in
  let header := list_ascii_of_string ("Content-Length: " +:+ str_nat (List.length body))
                ++ CRLF ++ CRLF in
  header ++ body.

Definition _send (msg : json) : M Tracer unit :=
  modify (write (frame msg) msg).

Definition _event (event : string) (body : json) : M Tracer unit :=
  s ← get_state;
  let evt := JObj [("type", JStr "event");
                   ("seq", JInt (_seq s));
                   ("event", JStr event);
                   ("body", py_or body (JObj []))] in
  modify (set_seq (_seq s + 1));;
  _send evt.

(** [body] is [None] when the caller passes none; [message] likewise. *)
Definition _response (request : dict) (success : bool) (body : option json)
           (message : option string) : M Tracer unit :=
  s ← get_state;
  let resp := [("type", JStr "response");
               ("seq", JInt (_seq s));
               ("request_seq", get "seq" request);
               ("success", JBool success);
               ("command", get "command" request)] in
  let resp := match body with
              | Some b => dict_set "body" b resp
              | None => resp
              end in
  let resp := match message with
              | Some m => if negb (String.eqb m "") && negb success
                          then dict_set "message" (JStr m) resp else resp
              | None => resp
              end in
  modify (set_seq (_seq s + 1));;
  _send (JObj resp).

Definition _send_output (text : string) : M Tracer unit :=
  _event "output" (JObj [("output", JStr text); ("category", JStr "stdout")]).

Definition readline : M Tracer (list ascii) :=
  s ← get_state;
  let '(line, rest) := split_line (stdin s) in
  modify (set_stdin rest);;
  mret line.

(** The largest bytes object: [PY_SSIZE_T_MAX] less the 33 bytes of its
    header. *)
Definition bytes_max : Z := sys_maxsize - 33.

(** [sys.stdin.buffer.read(n)]: [n] bytes, or what is left when the input
    holds fewer; everything that is left for [-1].  A size that does not
    fit [Py_ssize_t] raises OverflowError and another one below [-1]
    ValueError.  A size the input covers is read from it; for a larger
    one the reader first needs a buffer of [n] bytes, which is refused
    with OverflowError beyond [bytes_max] and with MemoryError when the
    memory of the process does not allow it. *)
Definition read (n : Z) : M Tracer (list ascii) :=
  s ← get_state;
  if n <? - sys_maxsize - 1
  then raise (PyExn "OverflowError" "cannot fit 'int' into an index-sized integer")
  else if n <? -1
  then raise (PyExn "ValueError" "read length must be non-negative or -1")
  else if n <? 0 then modify (set_stdin []);; mret (stdin s)
  else if n <=? Z.of_nat (List.length (stdin s))
  then modify (set_stdin (drop (Z.to_nat n) (stdin s)));;
       mret (take (Z.to_nat n) (stdin s))
  else if sys_maxsize <? n
  then raise (PyExn "OverflowError" "cannot fit 'int' into an index-sized integer")
  else if bytes_max <? n
  then raise (PyExn "OverflowError" "byte string is too large")
  else if negb (can_allocate n) then raise (PyExn "MemoryError" "")
  else modify (set_stdin []);; mret (stdin s).

(** The header loop of [_read]; one unit of [fuel] per line read. *)
Fixpoint read_headers (fuel : nat) (content_length : option Z) : M Tracer (option Z) :=
  match fuel with
  | O => out_of_fuel
  | S fuel' =>
      line ← readline;
      if bool_decide (line = []) || bool_decide (line = CRLF)
      then mret content_length
      else
        let '(k, v) := partition ":" line in
        if bool_decide (lower k = list_ascii_of_string "content-length")
        then n ← lift_exn (int_of_bytes (strip v));
             read_headers fuel' (Some n)
        else read_headers fuel' content_length
  end.

(** [_read]: the message, [JNull] for Python's [None]. *)
Definition _read : M Tracer json :=
  s ← get_state;
  content_length ← read_headers (S (List.length (stdin s))) None;
  match content_length with
  | None => mret JNull
  | Some n =>
      body ← read n;
      lift_exn (json_loads body)
  end.

(** *** DAP request handlers *)

(** [self.debugger] where the code goes on to read an attribute of it. *)
Definition the_debugger (attr : string) : M Tracer (Debugger Tracer) :=
  s ← get_state;
  match debugger s with
  | Some d => mret d
  | None => raise (AttributeError JNull attr)
  end.

(** [self.debugger.tracer] *)
Definition the_tracer : M Tracer Tracer :=
  d ← the_debugger "tracer";
  match EVM.tracer d with
  | Some t => mret t
  | None => raise (PyExn "AttributeError"
                     "'EVMDebugger' object has no attribute 'tracer'")
  end.

Definition thread_body (reason : string) : M Tracer json :=
  s ← get_state;
  mret (JObj [("reason", JStr reason); ("threadId", JInt (thread_id s))]).

Definition initialize (request : dict) : M Tracer unit :=
  let caps := JObj [("supportsConfigurationDoneRequest", JBool true);
                    ("supportsSetBreakpointsRequest", JBool true);
                    ("supportsTerminateRequest", JBool true);
                    ("supportsEvaluateForHovers", JBool false);
                    ("supportsStepInTargetsRequest", JBool false);
                    ("supportsStepBack", JBool false);
                    ("supportsDataBreakpoints", JBool false);
                    ("supportsCompletionsRequest", JBool false);
                    ("supportsExceptionInfoRequest", JBool false)] in
  _response request true (Some (JObj [("capabilities", caps)])) None;;
  _event "initialized" JNull.

(** The search loop of [launch] (lines 243-247): the first invocation
    named like the requested function. *)
Definition find_target (function_name : string)
           (function_trace : list EVM.FunctionCall) : option EVM.FunctionCall :=
  List.find (λ func, String.eqb (EVM.name func) function_name) function_trace.

(** The entry step of [launch] (lines 239-264): the step to stop at and
    the debugger with [current_function] set. *)
Definition entry_point d : Z * Debugger Tracer :=
  match EVM.function_trace d with
  | Some (f0 :: rest) =>
      match find_target (EVM.function_name d) (f0 :: rest) with
      | Some target_function =>
          (EVM.entry_step target_function,
           EVM.set_current_function target_function d)
      | None =>
          match rest with
          | f1 :: _ => (EVM.entry_step f1, EVM.set_current_function f1 d)
          | [] => (EVM.entry_step f0, EVM.set_current_function f0 d)
          end
      end
  | _ => (0, d)
  end.

(** The simulation block of [launch] (the inner [try], lines 201-280). *)
Definition simulate : M Tracer unit :=
  try_except
    (d ← the_debugger "contract_address";
     if String.eqb (EVM.contract_address d) ""
     then raise (PyExn "RuntimeError" "No contract address available for simulation")
     else
     if String.eqb (EVM.function_name d) ""
     then raise (PyExn "RuntimeError" "No function name specified for debugging")
     else
     _ ← the_tracer;
     (* with self._capture_output(): self.debugger._do_interactive() *)
     let '(output, raised, d') := _do_interactive d in
     modify (set_debugger d');;
     (if String.eqb output "" then mret tt else _send_output output);;
     match raised with
     | Some e => raise e
     | None =>
         match EVM.current_trace d' with
         | None => raise (PyExn "RuntimeError"
             "Simulation failed to generate trace - check function name and arguments")
         | Some trace =>
             let '(entry_step, d'') := entry_point d' in
             modify (set_debugger (EVM.set_current_step entry_step d''));;
             (* the log line reads steps[entry_step] *)
             if entry_step <? Z.of_nat (List.length (EVM.steps trace))
             then match py_index (EVM.steps trace) entry_step with
                  | Some _ => mret tt
                  | None => raise (index_error entry_step)
                  end
             else mret tt
         end
     end)
    (λ e, raise (PyExn "RuntimeError"
                   ("Failed to generate execution trace: " +:+ str_exn e))).

(** The addressing mode of [launch] (lines 146-166): the contract
    address, the debug-info directory, the ABI path ([None] when
    attaching) and the RPC endpoint. *)
Definition resolve_contract (args : dict) (fork_port : Z)
  : M Tracer (json * json * option string * json) :=
  let contract_file := get "contractFile" args in
  let contract_address := get "contractAddress" args in
  let ethdebug_dir := get "ethdebugDir" args in
  let rpc := get_or "rpc" (JStr "http://localhost:8545") args in
  let constructor_args := get_or "constructorArgs" (JArr []) args in
  let fork_url := get "forkUrl" args in
  let fork_block := get "forkBlock" args in
  let reuse_fork := truthy (get_or "reuseFork" (JBool false) args) in
  let keep_fork := truthy (get_or "keepFork" (JBool false) args) in
  let no_snapshot := truthy (get_or "noSnapshot" (JBool false) args) in
  if truthy contract_file then
    (* Auto deploy + compile *)
    fb ← (if truthy fork_block
          then z ← lift_exn (int_of_json fork_block); mret (Some z)
          else mret None);
    sess ← lift_exn (AutoDeployDebugger
              {| EVM.contract_file := contract_file;
                 EVM.deploy_rpc_url := rpc;
                 EVM.constructor_args := constructor_args;
                 EVM.fork_url := if truthy fork_url then fork_url else JNull;
                 EVM.fork_block := fb;
                 EVM.fork_port := fork_port;
                 EVM.reuse_fork := reuse_fork;
                 EVM.keep_fork := keep_fork;
                 EVM.auto_snapshot := negb no_snapshot |});
    modify (set_session sess);;
    mret (EVM.session_contract_address sess, JStr (EVM.debug_dir sess),
          Some (EVM.abi_path sess), EVM.rpc_url sess)
  else if truthy contract_address && truthy ethdebug_dir then
    mret (contract_address, ethdebug_dir, None, rpc)
  else raise (PyExn "ValueError"
                "Provide contractFile or contractAddress + ethdebugDir").

(** The debugger of [launch] (lines 168-193): create it, load the ABI,
    take the baseline snapshot. *)
Definition create_debugger (args : dict)
           (contract_address ethdebug_dir : json) (abi_path : option string)
           (rpc : json) : M Tracer unit :=
  let no_snapshot := truthy (get_or "noSnapshot" (JBool false) args) in
  let function_signature :=
    py_or (get "function_signature" args) (get "function" args) in
  let function_args :=
    py_or (get "function_args" args) (get_or "functionArgs" (JArr []) args) in
  let abi_json := match abi_path with Some p => JStr p | None => JNull end in
  let abi_path_param := py_or (py_or abi_json (get "abiPath" args)) (JStr "") in
  d ← lift_exn (EVMDebugger
          {| EVM.arg_contract_address := py_str contract_address;
             EVM.arg_rpc_url := rpc;
             EVM.arg_ethdebug_dir := ethdebug_dir;
             EVM.arg_function_name := py_or function_signature (JStr "");
             EVM.arg_function_args := py_or function_args (JArr []);
             EVM.arg_abi_path := abi_path_param |});
  modify (set_debugger d);;
  (* Explicitly load ABI if we have an abi_path *)
  (match abi_path, EVM.tracer d with
   | Some p, Some t =>
       if String.eqb p "" then mret tt
       else modify (set_debugger (EVM.set_tracer (load_abi t p) d))
   | _, _ => mret tt
   end);;
  (* Optional: pre-snapshot baseline *)
  d ← the_debugger "tracer";
  match EVM.tracer d with
  | Some t =>
      if no_snapshot then mret tt
      else modify (set_debugger (EVM.set_tracer (snapshot_state t) d))
  | None => mret tt
  end.

(** The body of the outer [try] of [launch]. *)
Definition launch_try (request args : dict) (fork_port : Z) : M Tracer unit :=
  '(contract_address, ethdebug_dir, abi_path, rpc) ←
    resolve_contract args fork_port;
  create_debugger args contract_address ethdebug_dir abi_path rpc;;
  simulate;;
  _response request true (Some (JObj [])) None;;
  started ← thread_body "started";
  _event "thread" started;;
  (* Stop at function entry point with trace already available *)
  entry ← thread_body "entry";
  _event "stopped" entry.

Definition launch (request : dict) : M Tracer unit :=
  args ← as_dict (py_or (get_or "arguments" (JObj []) request) (JObj []));
  fork_port ← lift_exn (int_of_json (get_or "forkPort" (JInt 8545) args));
  try_except (launch_try request args fork_port)
             (λ e, _response request false None (Some (str_exn e))).

(** The first loop of [setBreakpoints]: separate line and function
    breakpoints. *)
Fixpoint separate (breakpoints lines functions : list json)
  : M Tracer (list json * list json) :=
  match breakpoints with
  | [] => mret (lines, functions)
  | bp :: breakpoints' =>
      has_line ← lift_exn (py_in "line" bp);
      lines ← (if has_line : bool
               then x ← lift_exn (subscript bp "line"); mret (lines ++ [x])
               else mret lines);
      has_name ← lift_exn (py_in "functionName" bp);
      functions ← (if has_name : bool
                   then x ← lift_exn (subscript bp "functionName");
                        mret (functions ++ [x])
                   else mret functions);
      separate breakpoints' lines functions
  end.

(** [self.debugger.do_break(arg)] under [try]: whether it returned. *)
Definition try_do_break (arg : string) : M Tracer bool :=
  d ← the_debugger "do_break";
  let '(raised, d') := do_break d arg in
  modify (set_debugger d');;
  mret (match raised with None => true | Some _ => false end).

Fixpoint register_lines (path : json) (lines verified : list json)
  : M Tracer (list json) :=
  match lines with
  | [] => mret verified
  | line :: lines' =>
      ok ← try_do_break (py_str path +:+ ":" +:+ py_str line);
      register_lines path lines'
        (verified ++ [JObj [("verified", JBool ok); ("line", line)]])
  end.

Fixpoint register_functions (functions verified : list json) : M Tracer (list json) :=
  match functions with
  | [] => mret verified
  | func_name :: functions' =>
      (* the argument of do_break is func_name itself *)
      ok ← try_do_break (py_str func_name);
      register_functions functions'
        (verified ++ [JObj [("verified", JBool ok); ("functionName", func_name)]])
  end.

Definition setBreakpoints (request : dict) : M Tracer unit :=
  args ← as_dict (py_or (get_or "arguments" (JObj []) request) (JObj []));
  src ← as_dict (py_or (get_or "source" (JObj []) args) (JObj []));
  let path := py_or (get "path" src) (JStr "") in
  breakpoints_arg ← lift_exn (iter_json (get_or "breakpoints" (JArr []) args));
  '(lines, functions) ← separate breakpoints_arg [] [];
  key ← match to_key path with
        | Some k => mret k
        | None => raise (PyExn "TypeError"
                           ("unhashable type: '" +:+ type_name path +:+ "'"))
        end;
  s ← get_state;
  modify (set_breakpoints (<[key := lines]> (breakpoints s)));;
  verified ← match debugger s with
             | Some _ =>
                 verified ← register_lines path lines [];
                 register_functions functions verified
             | None => mret []
             end;
  _response request true (Some (JObj [("breakpoints", JArr verified)])) None.

Definition threads (request : dict) : M Tracer unit :=
  s ← get_state;
  _response request true
    (Some (JObj [("threads",
                  JArr [JObj [("id", JInt (thread_id s)); ("name", JStr "main")]])]))
    None.

(** The [while] loop of [continue_]; one unit of [fuel] per test of the
    loop condition. *)
Fixpoint continue_loop (fuel : nat) (trace : EVM.Trace) (bps : gset Z) : M Tracer unit :=
  match fuel with
  | O => out_of_fuel
  | S fuel' =>
      d ← the_debugger "current_step";
      if EVM.current_step d <? Z.of_nat (List.length (EVM.steps trace)) - 1
      then
        let current_step := EVM.current_step d + 1 in
        modify (set_debugger (EVM.set_current_step current_step d));;
        match py_index (EVM.steps trace) current_step with
        | None => raise (index_error current_step)
        | Some step =>
            if bool_decide (EVM.pc step ∈ bps) then mret tt
            else continue_loop fuel' trace bps
        end
      else mret tt
  end.

Definition continue_ (request : dict) : M Tracer unit :=
  s ← get_state;
  match debugger s ≫= (λ d, EVM.current_trace d ≫= (λ trace, Some (d, trace))) with
  | None =>
      _response request true (Some (JObj [])) None;;
      stopped ← thread_body "breakpoint";
      _event "stopped" stopped
  | Some (d, trace) =>
      let bps := default ∅ (EVM.breakpoints d) in
      let start_step := EVM.current_step d in
      continue_loop
        (S (Z.to_nat (Z.of_nat (List.length (EVM.steps trace)) - 1 - start_step)))
        trace bps;;
      _response request true (Some (JObj [("allThreadsContinued", JBool false)])) None;;
      stopped ← thread_body "breakpoint";
      _event "stopped" stopped
  end.

(** [next] and [stepIn], which differ in the step primitive only. *)
Definition step_with (do_step : Debugger Tracer → option pyexn * Debugger Tracer)
           (request : dict) : M Tracer unit :=
  try_except
    (s ← get_state;
     (match debugger s with
      | Some d =>
          let '(raised, d') := do_step d in
          modify (set_debugger d');;
          match raised with Some e => raise e | None => mret tt end
      | None => mret tt
      end);;
     _response request true (Some (JObj [])) None;;
     stopped ← thread_body "step";
     _event "stopped" stopped)
    (λ e, _response request false None (Some (str_exn e))).

Definition next (request : dict) : M Tracer unit := step_with do_next request.
Definition stepIn (request : dict) : M Tracer unit := step_with do_nexti request.
Definition stepOut (request : dict) : M Tracer unit := next request.

Definition or_1 (n : Z) : Z := if n =? 0 then 1 else n.

Definition stackTrace (request : dict) : M Tracer unit :=
  s ← get_state;
  match debugger s ≫= (λ d, EVM.current_trace d ≫= (λ trace, Some (d, trace))) with
  | None => _response request true (Some (JObj [("stackFrames", JArr [])])) None
  | Some (d, trace) =>
      step ← match py_index (EVM.steps trace) (EVM.current_step d) with
             | Some step => mret step
             | None => raise (index_error (EVM.current_step d))
             end;
      let pc := EVM.pc step in
      let label := "pc:" +:+ str_Z pc in
      let name := match EVM.current_function d with
                  | Some f => if String.eqb (EVM.name f) "" then label else EVM.name f
                  | None => label
                  end in
      t ← the_tracer;
      let '(source, line, col) :=
        match ethdebug_info t, ethdebug_parser t with
        | Some info_obj, Some parser =>
            match get_source_info info_obj pc with
            | Some (source_path, offset) =>
                let '(l, c) := offset_to_line_col parser source_path offset in
                (JObj [("name", JStr (basename source_path));
                       ("path", JStr source_path)], l, c)
            | None => (JNull, 0, 0)
            end
        | _, _ => (JNull, 0, 0)
        end in
      let frame := JObj [("id", JInt 1);
                         ("name", JStr name);
                         ("line", JInt (or_1 line));
                         ("column", JInt (or_1 col));
                         ("source", py_or source (JObj []))] in
      _response request true
        (Some (JObj [("stackFrames", JArr [frame]); ("totalFrames", JInt 1)])) None
  end.

Definition scopes (request : dict) : M Tracer unit :=
  let scope name ref :=
    JObj [("name", JStr name); ("variablesReference", JInt ref);
          ("expensive", JBool false)] in
  _response request true
    (Some (JObj [("scopes", JArr [scope "Locals" 1001; scope "Stack" 1002;
                                  scope "Storage" 1003])])) None.

(** [hex(v) if isinstance(v, int) else str(v)] *)
Definition show_word (v : EVM.word) : string :=
  match v with
  | EVM.WInt z => hex z
  | EVM.WOther text => text
  end.

(** The Locals loop of [variables]. *)
Fixpoint locals (t : Tracer) (step : EVM.Step) (vars_here : list EVM.VarInfo)
         (vars_list : list json) : M Tracer (list json) :=
  match vars_here with
  | [] => mret vars_list
  | var :: vars_here' =>
      value ←
        (if String.eqb (EVM.location_type var) "stack"
            && (EVM.offset var <? Z.of_nat (List.length (EVM.stack step)))
         then match py_index (EVM.stack step) (EVM.offset var) with
              | Some raw_value => mret (decode_value t raw_value (EVM.var_type var))
              | None => raise (index_error (EVM.offset var))
              end
         else if String.eqb (EVM.location_type var) "memory"
                 && negb (String.eqb (EVM.memory step) "")
         then mret (extract_from_memory t (EVM.memory step) (EVM.offset var)
                                        (EVM.var_type var))
         else if String.eqb (EVM.location_type var) "storage"
                 && match EVM.storage step with [] => false | _ => true end
         then mret (extract_from_storage t (EVM.storage step) (EVM.offset var)
                                         (EVM.var_type var))
         else mret "None");
      locals t step vars_here'
        (vars_list ++ [JObj [("name", JStr (EVM.var_name var));
                             ("value", JStr value);
                             ("type", JStr (EVM.var_type var));
                             ("variablesReference", JInt 0)]])
  end.

(** The Stack loop of [variables]: [enumerate(step.stack)] from [i]. *)
Fixpoint stack_vars (i : Z) (stack : list EVM.word) : list json :=
  match stack with
  | [] => []
  | v :: stack' =>
      JObj [("name", JStr ("stack[" +:+ str_Z i +:+ "]"));
            ("value", JStr (show_word v));
            ("variablesReference", JInt 0)] :: stack_vars (i + 1) stack'
  end.

Definition is_int (n : Z) (v : json) : bool :=
  match v with
  | JInt z => z =? n
  | JBool b => (if b then 1 else 0) =? n
  | _ => false
  end.

Definition variables (request : dict) : M Tracer unit :=
  args ← as_dict (get_or "arguments" (JObj []) request);
  let ref := get "variablesReference" args in
  s ← get_state;
  match debugger s ≫= (λ d, EVM.current_trace d ≫= (λ trace, Some (d, trace))) with
  | None => _response request true (Some (JObj [("variables", JArr [])])) None
  | Some (d, trace) =>
      step ← match py_index (EVM.steps trace) (EVM.current_step d) with
             | Some step => mret step
             | None => raise (index_error (EVM.current_step d))
             end;
      let pc := EVM.pc step in
      t ← the_tracer;
      info_obj ← match ethdebug_info_attr t with
                 | inr info_obj => mret info_obj
                 | inl message => raise (PyExn "AttributeError" message)
                 end;
      vars_list ←
        (if is_int 1001 ref then
           match info_obj with
           | Some info => locals t step (get_variables_at_pc info pc) []
           | None => mret []
           end
         else if is_int 1002 ref then mret (stack_vars 0 (EVM.stack step))
         else mret []);
      _response request true (Some (JObj [("variables", JArr vars_list)])) None
  end.

Definition evaluate (request : dict) : M Tracer unit :=
  args ← as_dict (get_or "arguments" (JObj []) request);
  let expr := get_or "expression" (JStr "") args in
  try_except
    (s ← get_state;
     result ←
       match expr with
       | JStr expr =>
           match debugger s ≫= (λ d, EVM.current_trace d ≫= (λ trace, Some (d, trace))) with
           | Some (d, trace) =>
               if startswith "stack[" expr && endswith "]" expr then
                 idx ← lift_exn (int_of_str (slice_6_m1 expr));
                 step ← match py_index (EVM.steps trace) (EVM.current_step d) with
                        | Some step => mret step
                        | None => raise (index_error (EVM.current_step d))
                        end;
                 match py_index (EVM.stack step) idx with
                 | Some val => mret (show_word val)
                 | None => raise (index_error idx)
                 end
               else mret "n/a"
           | None => mret "n/a"
           end
       | _ => raise (AttributeError expr "startswith")
       end;
     _response request true
       (Some (JObj [("result", JStr result); ("variablesReference", JInt 0)])) None)
    (λ e, _response request false None (Some (str_exn e))).

(** *** Server loop *)

Definition is_str (c : string) (v : json) : bool :=
  match v with JStr s => String.eqb s c | _ => false end.

(** The command chain of [run] for one request: [false] when the loop
    ends ([break]). *)
Definition dispatch (msg : dict) : M Tracer bool :=
  let cmd := get "command" msg in
  if is_str "initialize" cmd then initialize msg;; mret true
  else if is_str "launch" cmd then launch msg;; mret true
  else if is_str "setBreakpoints" cmd then setBreakpoints msg;; mret true
  else if is_str "configurationDone" cmd
       then _response msg true (Some (JObj [])) None;; mret true
  else if is_str "threads" cmd then threads msg;; mret true
  else if is_str "continue" cmd then continue_ msg;; mret true
  else if is_str "next" cmd then next msg;; mret true
  else if is_str "stepIn" cmd then stepIn msg;; mret true
  else if is_str "stepOut" cmd then stepOut msg;; mret true
  else if is_str "stackTrace" cmd then stackTrace msg;; mret true
  else if is_str "scopes" cmd then scopes msg;; mret true
  else if is_str "variables" cmd then variables msg;; mret true
  else if is_str "evaluate" cmd then evaluate msg;; mret true
  else if is_str "disconnect" cmd || is_str "terminate" cmd
       then _response msg true (Some (JObj [])) None;; mret false
  else _response msg false None (Some ("Unsupported command: " +:+ py_str cmd));;
       mret true.

(** [run]; one unit of [fuel] per message read. *)
Fixpoint run (fuel : nat) : M Tracer unit :=
  match fuel with
  | O => out_of_fuel
  | S fuel' =>
      msg ← _read;
      match msg with
      | JNull => mret tt
      | JObj msg =>
          if negb (is_str "request" (get "type" msg)) then run fuel'
          else
            continue ← dispatch msg;
            if continue : bool then run fuel' else mret tt
      | _ => raise (AttributeError msg "get")
      end
  end.

End Server.

Arguments find_target : simpl never.

(** ** A reference [json] library

    [json.dumps(msg).encode("utf-8")] with the default separators and
    [ensure_ascii], and [json.loads(body.decode("utf-8"))], for the values
    of [json] (no floating point numbers; one character per code point
    below 256: a text that needs more ends in the exception
    [NotRepresented]).  The message of a [JSONDecodeError] is given
    without its position and without the backslash of an escape, the
    message of a [UnicodeDecodeError] as its reason only. *)

Module Json.

Definition hex4 (n : nat) : string :=
  "00" +:+ chr (hex_digit (n / 16)) +:+ chr (hex_digit (n mod 16)).

Definition escape_char (c : ascii) : string :=
  let n := nat_of_ascii c in
  if Ascii.eqb c dquote then chr backslash +:+ chr dquote
  else if Ascii.eqb c backslash then chr backslash +:+ chr backslash
  else if (n =? 10)%nat then chr backslash +:+ "n"
  else if (n =? 13)%nat then chr backslash +:+ "r"
  else if (n =? 9)%nat then chr backslash +:+ "t"
  else if (n =? 12)%nat then chr backslash +:+ "f"
  else if (n =? 8)%nat then chr backslash +:+ "b"
  else if ((n <? 32) || (126 <? n))%nat then chr backslash +:+ "u" +:+ hex4 n
  else chr c.

Fixpoint escape (s : string) : string :=
  match s with
  | EmptyString => ""
  | String c s' => escape_char c +:+ escape s'
  end.

Definition dumps_str (s : string) : string := chr dquote +:+ escape s +:+ chr dquote.

Fixpoint dumps (v : json) : string :=
  match v with
  | JNull => "null"
  | JBool b => if b then "true" else "false"
  | JInt z => str_Z z
  | JStr s => dumps_str s
  | JArr l => "[" +:+ join ", " ((fix go (l : list json) : list string :=
                match l with [] => [] | x :: l' => dumps x :: go l' end) l) +:+ "]"
  | JObj d => "{" +:+ join ", " ((fix go (d : dict) : list string :=
                match d with
                | [] => []
                | (k, x) :: d' => (dumps_str k +:+ ": " +:+ dumps x) :: go d'
                end) d) +:+ "}"
  end.

Definition JSONDecodeError (msg : string) : pyexn := PyExn "JSONDecodeError" msg.

(** The result of a parser: an exception, or a value and the rest of
    the text. *)
Definition parser (A : Type) : Type := pyexn + (A * list ascii).

Definition is_ws (c : ascii) : bool :=
  let n := nat_of_ascii c in
  ((n =? 32) || (n =? 9) || (n =? 10) || (n =? 13))%nat.

Fixpoint skip_ws (b : list ascii) : list ascii :=
  match b with
  | c :: b' => if is_ws c then skip_ws b' else b
  | [] => []
  end.

Definition hex_val (c : ascii) : option nat :=
  let n := nat_of_ascii c in
  if ((48 <=? n) && (n <=? 57))%nat then Some (n - 48)%nat
  else if ((97 <=? n) && (n <=? 102))%nat then Some (n - 87)%nat
  else if ((65 <=? n) && (n <=? 70))%nat then Some (n - 55)%nat
  else None.

(** The four hexadecimal digits after a backslash-u. *)
Definition unescape_u (b : list ascii) : parser ascii :=
  match b with
  | h1 :: h2 :: h3 :: h4 :: b' =>
      match hex_val h1, hex_val h2, hex_val h3, hex_val h4 with
      | Some n1, Some n2, Some n3, Some n4 =>
          if ((n1 =? 0) && (n2 =? 0))%nat
          then inr (ascii_of_nat (16 * n3 + n4), b')
          else inl (PyExn "NotRepresented" "code point above 255")
      | _, _, _, _ => inl (JSONDecodeError "Invalid uXXXX escape")
      end
  | _ => inl (JSONDecodeError "Invalid uXXXX escape")
  end.

(** A string, after its opening quote. *)
Fixpoint parse_string (fuel : nat) (b : list ascii) (acc : string) : parser string :=
  match fuel with
  | O => inl (JSONDecodeError "Unterminated string starting at")
  | S fuel' =>
      match b with
      | [] => inl (JSONDecodeError "Unterminated string starting at")
      | c :: b' =>
          if Ascii.eqb c dquote then inr (acc, b')
          else if Ascii.eqb c backslash then
            match b' with
            | [] => inl (JSONDecodeError "Unterminated string starting at")
            | e :: b'' =>
                let simple (x : ascii) := parse_string fuel' b'' (acc +:+ chr x) in
                if Ascii.eqb e dquote then simple dquote
                else if Ascii.eqb e backslash then simple backslash
                else if Ascii.eqb e "/" then simple "/"%char
                else if Ascii.eqb e "b" then simple (ascii_of_nat 8)
                else if Ascii.eqb e "f" then simple (ascii_of_nat 12)
                else if Ascii.eqb e "n" then simple (ascii_of_nat 10)
                else if Ascii.eqb e "r" then simple (ascii_of_nat 13)
                else if Ascii.eqb e "t" then simple (ascii_of_nat 9)
                else if Ascii.eqb e "u" then
                  match unescape_u b'' with
                  | inr (x, rest) => parse_string fuel' rest (acc +:+ chr x)
                  | inl err => inl err
                  end
                else inl (JSONDecodeError "Invalid escape")
            end
          else if (nat_of_ascii c <? 32)%nat
          then inl (JSONDecodeError "Invalid control character at")
          else parse_string fuel' b' (acc +:+ chr c)
      end
  end.

Fixpoint span_digits (b : list ascii) : list ascii * list ascii :=
  match b with
  | c :: b' => if is_digit c
               then let '(ds, rest) := span_digits b' in (c :: ds, rest)
               else ([], b)
  | [] => ([], [])
  end.

Fixpoint digits_val (ds : list ascii) (acc : Z) : Z :=
  match ds with
  | [] => acc
  | c :: ds' => digits_val ds' (10 * acc + digit_val c)
  end.

(** Whether a fraction or an exponent follows the integer part. *)
Definition is_float_tail (b : list ascii) : bool :=
  match b with
  | c :: d :: b' =>
      (Ascii.eqb c "." && is_digit d)
      || ((Ascii.eqb c "e" || Ascii.eqb c "E")
          && (is_digit d
              || ((Ascii.eqb d "+" || Ascii.eqb d "-")
                  && match b' with d' :: _ => is_digit d' | [] => false end)))
  | _ => false
  end.

(** An integer: an optional minus, then [0] or a digit string without a
    leading zero.  A fraction or an exponent makes a float. *)
Definition parse_number (b : list ascii) : parser json :=
  let '(neg, b1) := match b with
                    | "-"%char :: b' => (true, b')
                    | _ => (false, b)
                    end in
  let '(ds, rest) := match b1 with
                     | "0"%char :: b' => (["0"%char], b')
                     | _ => span_digits b1
                     end in
  match ds with
  | [] => inl (JSONDecodeError "Expecting value")
  | _ =>
      if is_float_tail rest
      then inl (PyExn "NotRepresented" "float")
      else inr (JInt (if neg : bool then - digits_val ds 0 else digits_val ds 0), rest)
  end.

Definition expect (lit : string) (v : json) (b : list ascii) : parser json :=
  let l := list_ascii_of_string lit in
  if bool_decide (take (List.length l) b = l)
  then inr (v, drop (List.length l) b)
  else inl (JSONDecodeError "Expecting value").

Fixpoint parse_value (fuel : nat) (b : list ascii) : parser json :=
  match fuel with
  | O => inl (PyExn "RecursionError" "maximum recursion depth exceeded")
  | S fuel' =>
      match b with
      | [] => inl (JSONDecodeError "Expecting value")
      | c :: b' =>
          if Ascii.eqb c dquote then
            match parse_string (List.length b') b' "" with
            | inr (s, rest) => inr (JStr s, rest)
            | inl e => inl e
            end
          else if Ascii.eqb c "{" then
            match skip_ws b' with
            | "}"%char :: rest => inr (JObj [], rest)
            | b'' => parse_members fuel' b'' []
            end
          else if Ascii.eqb c "[" then
            match skip_ws b' with
            | "]"%char :: rest => inr (JArr [], rest)
            | b'' => parse_elements fuel' b'' []
            end
          else if Ascii.eqb c "n" then expect "null" JNull b
          else if Ascii.eqb c "t" then expect "true" (JBool true) b
          else if Ascii.eqb c "f" then expect "false" (JBool false) b
          else if Ascii.eqb c "N" || Ascii.eqb c "I"
               then match expect "NaN" JNull b, expect "Infinity" JNull b with
                    | inl _, inl _ => inl (JSONDecodeError "Expecting value")
                    | _, _ => inl (PyExn "NotRepresented" "float")
                    end
          else if Ascii.eqb c "-" && bool_decide (take 9 b = list_ascii_of_string "-Infinity")
               then inl (PyExn "NotRepresented" "float")
          else parse_number b
      end
  end

(** The elements of an array, from the start of an element. *)
with parse_elements (fuel : nat) (b : list ascii) (acc : list json) : parser json :=
  match fuel with
  | O => inl (PyExn "RecursionError" "maximum recursion depth exceeded")
  | S fuel' =>
      match parse_value fuel' b with
      | inl e => inl e
      | inr (v, rest) =>
          match skip_ws rest with
          | "]"%char :: rest' => inr (JArr (acc ++ [v]), rest')
          | ","%char :: rest' => parse_elements fuel' (skip_ws rest') (acc ++ [v])
          | _ => inl (JSONDecodeError "Expecting ',' delimiter")
          end
      end
  end

(** The members of an object, from the start of a key. *)
with parse_members (fuel : nat) (b : list ascii) (acc : dict) : parser json :=
  match fuel with
  | O => inl (PyExn "RecursionError" "maximum recursion depth exceeded")
  | S fuel' =>
      match b with
      | c :: b' =>
          if Ascii.eqb c dquote then
            match parse_string (List.length b') b' "" with
            | inl e => inl e
            | inr (k, rest) =>
                match skip_ws rest with
                | ":"%char :: rest' =>
                    match parse_value fuel' (skip_ws rest') with
                    | inl e => inl e
                    | inr (v, rest'') =>
                        match skip_ws rest'' with
                        | "}"%char :: rest3 => inr (JObj (dict_set k v acc), rest3)
                        | ","%char :: rest3 =>
                            parse_members fuel' (skip_ws rest3) (dict_set k v acc)
                        | _ => inl (JSONDecodeError "Expecting ',' delimiter")
                        end
                    end
                | _ => inl (JSONDecodeError "Expecting ':' delimiter")
                end
            end
          else inl (JSONDecodeError
                      "Expecting property name enclosed in double quotes")
      | [] => inl (JSONDecodeError
                     "Expecting property name enclosed in double quotes")
      end
  end.

(** [json.loads] of a str: one value between optional whitespace. *)
Definition loads_text (b : list ascii) : pyexn + json :=
  match parse_value (S (2 * List.length b)) (skip_ws b) with
  | inl e => inl e
  | inr (v, rest) =>
      match skip_ws rest with
      | [] => inr v
      | _ => inl (JSONDecodeError "Extra data")
      end
  end.

Definition UnicodeDecodeError (reason : string) : pyexn :=
  PyExn "UnicodeDecodeError" reason.

Definition in_range (lo hi : nat) (c : ascii) : bool :=
  let n := nat_of_ascii c in ((lo <=? n) && (n <=? hi))%nat.

(** A continuation byte of UTF-8. *)
Definition is_continuation (c : ascii) : bool := in_range 128 191 c.

(** [body.decode("utf-8")]: the code points of the text, where [None]
    stands for a code point above 255, or the UnicodeDecodeError of the
    first byte sequence that is no UTF-8. *)
Fixpoint decode (b : list ascii) : pyexn + list (option ascii) :=
  let continue (c : option ascii) (rest : pyexn + list (option ascii)) :=
    match rest with
    | inr text => inr (c :: text)
    | inl e => inl e
    end in
  let broken (following : list ascii) :=
    match following with
    | [] => inl (UnicodeDecodeError "unexpected end of data")
    | _ => inl (UnicodeDecodeError "invalid continuation byte")
    end in
  match b with
  | [] => inr []
  | c0 :: b1 =>
      let n := nat_of_ascii c0 in
      if (n <? 128)%nat then continue (Some c0) (decode b1)
      else if in_range 194 223 c0 then
        match b1 with
        | c1 :: b2 =>
            if is_continuation c1
            then continue (if (n <? 196)%nat
                           then Some (ascii_of_nat (64 * (n - 192) + (nat_of_ascii c1 - 128)))
                           else None)
                          (decode b2)
            else broken b1
        | [] => broken b1
        end
      else if in_range 224 239 c0 then
        match b1 with
        | c1 :: b2 =>
            if (if (n =? 224)%nat then in_range 160 191 c1
                else if (n =? 237)%nat then in_range 128 159 c1
                else is_continuation c1)
            then match b2 with
                 | c2 :: b3 => if is_continuation c2 then continue None (decode b3)
                               else broken b2
                 | [] => broken b2
                 end
            else broken b1
        | [] => broken b1
        end
      else if in_range 240 244 c0 then
        match b1 with
        | c1 :: b2 =>
            if (if (n =? 240)%nat then in_range 144 191 c1
                else if (n =? 244)%nat then in_range 128 143 c1
                else is_continuation c1)
            then match b2 with
                 | c2 :: b3 =>
                     if is_continuation c2
                     then match b3 with
                          | c3 :: b4 => if is_continuation c3 then continue None (decode b4)
                                        else broken b3
                          | [] => broken b3
                          end
                     else broken b2
                 | [] => broken b2
                 end
            else broken b1
        | [] => broken b1
        end
      else inl (UnicodeDecodeError "invalid start byte")
  end.

(** The text, when all its code points are below 256. *)
Fixpoint narrow (text : list (option ascii)) : option (list ascii) :=
  match text with
  | [] => Some []
  | Some c :: text' => cons c <$> narrow text'
  | None :: _ => None
  end.

(** [json.loads(body.decode("utf-8"))] *)
Definition loads (b : list ascii) : pyexn + json :=
  match decode b with
  | inl e => inl e
  | inr text =>
      match narrow text with
      | Some text => loads_text text
      | None => inl (PyExn "NotRepresented" "code point above 255")
      end
  end.

#[global] Instance library : JsonLibrary := {|
  json_dumps v := list_ascii_of_string (dumps v);
  json_loads := loads;
|}.

End Json.

(** ** A sample session

    Collaborators for the scenarios of the specification: a contract at
    [0xA] whose trace has 50 steps, step [k] at program counter [170 + k],
    and the invocations [dispatcher] (entry 0) and [transfer] (entry 12);
    the breakpoint resolver knows line 7 of [/src/Token.sol] and the
    function [transfer]. *)

Module Demo.

Definition step (k : Z) : EVM.Step :=
  {| EVM.pc := 170 + k; EVM.op := "JUMPDEST";
     EVM.stack := [EVM.WInt 1; EVM.WInt 2; EVM.WInt 300];
     EVM.memory := ""; EVM.storage := [] |}.

Definition trace : EVM.Trace := {| EVM.steps := map step (seqZ 0 50) |}.

Definition dispatcher : EVM.FunctionCall :=
  {| EVM.name := "dispatcher"; EVM.entry_step := 0; EVM.exit_step := 49 |}.
Definition transfer : EVM.FunctionCall :=
  {| EVM.name := "transfer"; EVM.entry_step := 12; EVM.exit_step := 40 |}.

Definition new_debugger (args : EVM.DebuggerArgs) : Debugger unit :=
  {| EVM.contract_address := EVM.arg_contract_address args;
     EVM.function_name := py_str (EVM.arg_function_name args);
     EVM.current_trace := None;
     EVM.current_step := 0;
     EVM.function_trace := None;
     EVM.current_function := None;
     EVM.breakpoints := Some ∅;
     EVM.tracer := Some tt |}.

Definition simulated (d : Debugger unit) : Debugger unit :=
  {| EVM.contract_address := EVM.contract_address d;
     EVM.function_name := EVM.function_name d;
     EVM.current_trace := Some trace;
     EVM.current_step := 0;
     EVM.function_trace := Some [dispatcher; transfer];
     EVM.current_function := None;
     EVM.breakpoints := EVM.breakpoints d;
     EVM.tracer := EVM.tracer d |}.

Definition with_breakpoint (pc : Z) (d : Debugger unit) : Debugger unit :=
  {| EVM.contract_address := EVM.contract_address d;
     EVM.function_name := EVM.function_name d;
     EVM.current_trace := EVM.current_trace d;
     EVM.current_step := EVM.current_step d;
     EVM.function_trace := EVM.function_trace d;
     EVM.current_function := EVM.current_function d;
     EVM.breakpoints := Some ({[pc]} ∪ default ∅ (EVM.breakpoints d));
     EVM.tracer := EVM.tracer d |}.

Definition resolve (d : Debugger unit) (arg : string)
  : option pyexn * Debugger unit :=
  if String.eqb arg "/src/Token.sol:7" then (None, with_breakpoint 177 d)
  else if String.eqb arg "transfer" then (None, with_breakpoint 182 d)
  else (Some (PyExn "ValueError" ("cannot resolve " +:+ arg)), d).

Definition step_by (n : Z) (d : Debugger unit) : option pyexn * Debugger unit :=
  (None, EVM.set_current_step (EVM.current_step d + n) d).

(** A process that can spare a buffer of a mebibyte. *)
#[global] Instance memory : Memory := {|
  can_allocate n := n <=? 1048576;
|}.

#[global] Instance soldb : Soldb unit unit unit := {|
  AutoDeployDebugger _ := inl (PyExn "FileNotFoundError" "no compiler");
  EVMDebugger args := inr (new_debugger args);
  load_abi t _ := t;
  snapshot_state t := t;
  _do_interactive d := ("", None, simulated d);
  do_break := resolve;
  do_next := step_by 3;
  do_nexti := step_by 1;
  ethdebug_parser _ := None;
  ethdebug_info_attr _ := inr None;
  get_source_info _ _ := None;
  offset_to_line_col _ _ _ := (0, 0);
  get_variables_at_pc _ _ := [];
  decode_value _ w _ := match w with EVM.WInt z => str_Z z | EVM.WOther t => t end;
  extract_from_memory _ _ _ _ := "None";
  extract_from_storage _ _ _ _ := "None";
|}.

(** A request message of the client. *)
Definition request (seq : Z) (command : string) (arguments : dict) : dict :=
  [("seq", JInt seq); ("type", JStr "request"); ("command", JStr command);
   ("arguments", JObj arguments)].

Definition launch_request : dict :=
  request 2 "launch" [("contractAddress", JStr "0xA"); ("ethdebugDir", JStr "/d");
                      ("function", JStr "transfer")].

(** The debugger right after the launch above, by hand. *)
Definition launched_debugger : Debugger unit :=
  EVM.set_current_step 12
    (EVM.set_current_function transfer
       (simulated (new_debugger
          {| EVM.arg_contract_address := "0xA";
             EVM.arg_rpc_url := JStr "http://localhost:8545";
             EVM.arg_ethdebug_dir := JStr "/d";
             EVM.arg_function_name := JStr "transfer";
             EVM.arg_function_args := JArr [];
             EVM.arg_abi_path := JStr "" |}))).

(** The launched debugger moved to step [i], with breakpoints at the
    program counters [pcs]. *)
Definition debugger_at (i : Z) (pcs : list Z) : Debugger unit :=
  EVM.set_current_step i (foldr with_breakpoint launched_debugger pcs).

(** A server that holds [d], before it read or wrote anything. *)
Definition session (d : Debugger unit) : WalnutDAPServer unit :=
  set_debugger d (__init__ []).

Definition launched : WalnutDAPServer unit := session launched_debugger.

(** A server without a debugger that is about to read [input]. *)
Definition fresh (input : list ascii) : WalnutDAPServer unit := __init__ input.

Definition source : json := JObj [("path", JStr "/src/Token.sol")].

(** A batch that names a function before its lines; line 9 does not
    resolve. *)
Definition mixed_batch : list dict :=
  [[("functionName", JStr "transfer")]; [("line", JInt 7)]; [("line", JInt 9)]].

Definition setBreakpoints_request (descriptors : list dict) : dict :=
  request 3 "setBreakpoints"
          [("source", source); ("breakpoints", JArr (JObj <$> descriptors))].

Definition evaluate_request (expression : string) : dict :=
  request 5 "evaluate" [("expression", JStr expression)].

(** An event, as a peer might send it by mistake. *)
Definition stray_event : dict :=
  [("seq", JInt 9); ("type", JStr "event"); ("event", JStr "output")].

End Demo.

(** ** A sample session with debug info

    Collaborators whose tracer carries debug info: every program counter
    resolves to [/src/Token.sol], at the offset that is its distance from
    170, ten offsets to a line; three variables are in scope, one on the
    stack, one in storage and one in an unknown kind of location.  The
    simulation prints one line, and a source step fails at the end of the
    trace. *)

Module Annotated.

(** The tracer: the variables in scope. *)
Record Symbols : Type := { variables_in_scope : list EVM.VarInfo }.

Definition amount : EVM.VarInfo :=
  {| EVM.var_name := "amount"; EVM.var_type := "uint256";
     EVM.location_type := "stack"; EVM.offset := 2 |}.
Definition balance : EVM.VarInfo :=
  {| EVM.var_name := "balance"; EVM.var_type := "uint256";
     EVM.location_type := "storage"; EVM.offset := 0 |}.
Definition sender : EVM.VarInfo :=
  {| EVM.var_name := "sender"; EVM.var_type := "address";
     EVM.location_type := "calldata"; EVM.offset := 4 |}.

Definition symbols : Symbols := {| variables_in_scope := [amount; balance; sender] |}.

Definition new_debugger (args : EVM.DebuggerArgs) : Debugger Symbols :=
  {| EVM.contract_address := EVM.arg_contract_address args;
     EVM.function_name := py_str (EVM.arg_function_name args);
     EVM.current_trace := None;
     EVM.current_step := 0;
     EVM.function_trace := None;
     EVM.current_function := None;
     EVM.breakpoints := Some ∅;
     EVM.tracer := Some symbols |}.

Definition simulated (d : Debugger Symbols) : Debugger Symbols :=
  {| EVM.contract_address := EVM.contract_address d;
     EVM.function_name := EVM.function_name d;
     EVM.current_trace := Some Demo.trace;
     EVM.current_step := 0;
     EVM.function_trace := Some [Demo.dispatcher; Demo.transfer];
     EVM.current_function := None;
     EVM.breakpoints := EVM.breakpoints d;
     EVM.tracer := EVM.tracer d |}.

(** A source step: three steps on, an error at the end of the trace. *)
Definition source_step (d : Debugger Symbols) : option pyexn * Debugger Symbols :=
  if 46 <? EVM.current_step d
  then (Some (PyExn "RuntimeError" "Already at end of execution"), d)
  else (None, EVM.set_current_step (EVM.current_step d + 3) d).

#[global] Instance soldb : Soldb Symbols unit unit := {|
  AutoDeployDebugger _ := inl (PyExn "FileNotFoundError" "no compiler");
  EVMDebugger args := inr (new_debugger args);
  load_abi t _ := t;
  snapshot_state t := t;
  _do_interactive d := ("Simulating transfer", None, simulated d);
  do_break d arg := (Some (PyExn "ValueError" ("cannot resolve " +:+ arg)), d);
  do_next := source_step;
  do_nexti d := (None, EVM.set_current_step (EVM.current_step d + 1) d);
  ethdebug_parser _ := Some tt;
  ethdebug_info_attr _ := inr (Some tt);
  get_source_info _ pc := Some ("/src/Token.sol", pc - 170);
  offset_to_line_col _ _ offset := (offset / 10, offset mod 10);
  get_variables_at_pc _ _ := [amount; balance; sender];
  decode_value _ w _ := match w with EVM.WInt z => str_Z z | EVM.WOther t => t end;
  extract_from_memory _ _ _ _ := "0";
  extract_from_storage _ _ _ _ := "0";
|}.

(** The debugger after the launch of [Demo.launch_request], at step [i]. *)
Definition debugger_at (i : Z) : Debugger Symbols :=
  EVM.set_current_step i
    (EVM.set_current_function Demo.transfer
       (simulated (new_debugger
          {| EVM.arg_contract_address := "0xA";
             EVM.arg_rpc_url := JStr "http://localhost:8545";
             EVM.arg_ethdebug_dir := JStr "/d";
             EVM.arg_function_name := JStr "transfer";
             EVM.arg_function_args := JArr [];
             EVM.arg_abi_path := JStr "" |}))).

(** A server that holds this debugger, before it read or wrote anything. *)
Definition session (i : Z) : WalnutDAPServer Symbols :=
  set_debugger (debugger_at i) (__init__ []).

(** A server without a debugger that is about to read [input]. *)
Definition fresh (input : list ascii) : WalnutDAPServer Symbols := __init__ input.

Definition variables_request (ref : Z) : dict :=
  Demo.request 8 "variables" [("variablesReference", JInt ref)].

End Annotated.

(** ** A sample session without debug info

    Collaborators whose tracer has neither an [ethdebug_parser] nor an
    [ethdebug_info] attribute, in a session that holds the trace of the
    first sample, at step 12. *)

Module Legacy.

Inductive Tracer : Type := tracer.

#[global] Instance soldb : Soldb Tracer unit unit := {|
  AutoDeployDebugger _ := inl (PyExn "FileNotFoundError" "no compiler");
  EVMDebugger _ := inl (PyExn "ConnectionError" "no node");
  load_abi t _ := t;
  snapshot_state t := t;
  _do_interactive d := ("", None, d);
  do_break d arg := (Some (PyExn "ValueError" ("cannot resolve " +:+ arg)), d);
  do_next d := (None, EVM.set_current_step (EVM.current_step d + 3) d);
  do_nexti d := (None, EVM.set_current_step (EVM.current_step d + 1) d);
  ethdebug_parser _ := None;
  ethdebug_info_attr _ :=
    inl "'TransactionTracer' object has no attribute 'ethdebug_info'";
  get_source_info _ _ := None;
  offset_to_line_col _ _ _ := (0, 0);
  get_variables_at_pc _ _ := [];
  decode_value _ w _ := match w with EVM.WInt z => str_Z z | EVM.WOther t => t end;
  extract_from_memory _ _ _ _ := "None";
  extract_from_storage _ _ _ _ := "None";
|}.

Definition debugger : Debugger Tracer :=
  {| EVM.contract_address := "0xA";
     EVM.function_name := "transfer";
     EVM.current_trace := Some Demo.trace;
     EVM.current_step := 12;
     EVM.function_trace := Some [Demo.dispatcher; Demo.transfer];
     EVM.current_function := Some Demo.transfer;
     EVM.breakpoints := Some ∅;
     EVM.tracer := Some tracer |}.

Definition session : WalnutDAPServer Tracer := set_debugger debugger (__init__ []).

End Legacy.

(** ** Specifications *)
(** The sequence number a sent message carries. *)
Definition seq_of (msg : json) : option Z :=
  match msg with
  | JObj d => match dict_get "seq" d with Some (JInt n) => Some n | _ => None end
  | _ => None
  end.

(** The dict [_response] sends when the counter is [n]. *)
Definition response_of (request : dict) (success : bool) (body : option json)
           (message : option string) (n : Z) : dict :=
  let resp := [("type", JStr "response"); ("seq", JInt n);
               ("request_seq", get "seq" request); ("success", JBool success);
               ("command", get "command" request)] in
  let resp := match body with Some b => dict_set "body" b resp | None => resp end in
  match message with
  | Some m => if negb (String.eqb m "") && negb success
              then dict_set "message" (JStr m) resp else resp
  | None => resp
  end.

(** The dict [_event] sends when the counter is [n]. *)
Definition event_of (event : string) (body : json) (n : Z) : dict :=
  [("type", JStr "event"); ("seq", JInt n); ("event", JStr event);
   ("body", py_or body (JObj []))].


(** A sent message that is an event. *)
Definition is_event (msg : json) : bool :=
  match msg with JObj d => is_str "event" (get "type" d) | _ => false end.

(** A sent message that is a response reporting success. *)
Definition is_success_response (msg : json) : bool :=
  match msg with
  | JObj d => is_str "response" (get "type" d)
              && match get "success" d with JBool b => b | _ => false end
  | _ => false
  end.

(** The first invocation of a function trace that is named [fname]. *)
Definition first_named (fname : string) (ft : list EVM.FunctionCall)
           (f : EVM.FunctionCall) : Prop :=
  ∃ pre post, ft = pre ++ f :: post ∧ EVM.name f = fname
              ∧ Forall (λ g, EVM.name g ≠ fname) pre.

Definition none_named (fname : string) (ft : list EVM.FunctionCall) : Prop :=
  Forall (λ g, EVM.name g ≠ fname) ft.

(** The entry step as the specification resolves it, read off a debugger:
    the invocation named like the requested function; else invocation 1
    when there are several; else the only one; else step 0. *)
Definition entry_resolved {Tracer} (d : Debugger Tracer) : Prop :=
  let fname := EVM.function_name d in
  let ft := default [] (EVM.function_trace d) in
  (∀ f, first_named fname ft f →
        EVM.current_step d = EVM.entry_step f ∧ EVM.current_function d = Some f)
  ∧ (none_named fname ft → ∀ f0 f1 rest, ft = f0 :: f1 :: rest →
        EVM.current_step d = EVM.entry_step f1 ∧ EVM.current_function d = Some f1)
  ∧ (none_named fname ft → ∀ f0, ft = [f0] →
        EVM.current_step d = EVM.entry_step f0 ∧ EVM.current_function d = Some f0)
  ∧ (ft = [] → EVM.current_step d = 0).

(** The verification records of [setBreakpoints]. *)
Definition line_record (ok : bool) (line : json) : json :=
  JObj [("verified", JBool ok); ("line", line)].
Definition function_record (ok : bool) (func_name : json) : json :=
  JObj [("verified", JBool ok); ("functionName", func_name)].

(** The lines and the function names of a batch of descriptors, each in
    input order. *)
Definition lines_of (descriptors : list dict) : list json :=
  omap (dict_get "line") descriptors.
Definition functions_of (descriptors : list dict) : list json :=
  omap (dict_get "functionName") descriptors.

(** The arguments [do_break] is called with for a batch. *)
Definition break_args (path : json) (descriptors : list dict) : list string :=
  map (λ line, py_str path +:+ ":" +:+ py_str line) (lines_of descriptors)
  ++ map py_str (functions_of descriptors).

(** A verification record that answers a descriptor: it carries the line
    and the function name of the descriptor, as far as it has them. *)
Definition answers (record descriptor : json) : Prop :=
  match record, descriptor with
  | JObj r, JObj d =>
      dict_get "line" r = dict_get "line" d
      ∧ dict_get "functionName" r = dict_get "functionName" d
  | _, _ => False
  end.

(** The verification records a response carries. *)
Definition records_of (msg : json) : option (list json) :=
  match msg with
  | JObj resp =>
      match dict_get "body" resp with
      | Some (JObj body) =>
          match dict_get "breakpoints" body with
          | Some (JArr records) => Some records
          | _ => None
          end
      | _ => None
      end
  | _ => None
  end.

(** The value of a digit string read from the left, from [acc]. *)
Fixpoint uint_fold (d : Decimal.uint) (acc : Z) : Z :=
  match d with
  | Decimal.Nil => acc
  | Decimal.D0 l => uint_fold l (10 * acc + 0)
  | Decimal.D1 l => uint_fold l (10 * acc + 1)
  | Decimal.D2 l => uint_fold l (10 * acc + 2)
  | Decimal.D3 l => uint_fold l (10 * acc + 3)
  | Decimal.D4 l => uint_fold l (10 * acc + 4)
  | Decimal.D5 l => uint_fold l (10 * acc + 5)
  | Decimal.D6 l => uint_fold l (10 * acc + 6)
  | Decimal.D7 l => uint_fold l (10 * acc + 7)
  | Decimal.D8 l => uint_fold l (10 * acc + 8)
  | Decimal.D9 l => uint_fold l (10 * acc + 9)
  end.

(** The characters of a digit string. *)
Definition digits (d : Decimal.uint) : list ascii :=
  list_ascii_of_string (DecimalString.NilEmpty.string_of_uint d).

(** The header block at the head of an input: its lines and what follows
    them.  A block ends at the blank line (which it consumes) or at the end
    of the input. *)
Inductive header_block : list (list ascii) → list ascii → list ascii → Prop :=
| header_block_eof : header_block [] [] []
| header_block_blank rest : header_block [] rest (CRLF ++ rest)
| header_block_line line lines rest input :
    (split_line input).1 = line → line ≠ [] → line ≠ CRLF →
    header_block lines rest (split_line input).2 →
    header_block (line :: lines) rest input.

(** A header line whose name is Content-Length, in any case. *)
Definition is_content_length (line : list ascii) : bool :=
  bool_decide (lower (partition ":" line).1 = list_ascii_of_string "content-length").

(** What [int] makes of the value of a header line: of the bytes after
    its first colon, stripped. *)
Definition header_value (line : list ascii) : literal :=
  long_from_string (Some int_max_str_digits) (strip (partition ":" line).2).

(** The body of a response. *)
Definition body_of (msg : json) : option dict :=
  match msg with
  | JObj resp => match dict_get "body" resp with Some (JObj body) => Some body | _ => None end
  | _ => None
  end.

Section Specifications.

Context {Tracer Info Parser : Type}.
Context `{!JsonLibrary, !Memory, !Soldb Tracer Info Parser}.

Implicit Types (s : WalnutDAPServer Tracer) (d : Debugger Tracer).

(** [m] ends within its budget, in a state related by [R] to the one it
    started from. *)
Definition keeps {A} (R : relation (WalnutDAPServer Tracer)) (m : M Tracer A)
  : Prop :=
  ∀ s, (m s).1 ≠ OutOfFuel ∧ R s (m s).2.

(** The messages sent so far carry 1, 2, ... and the counter is one
    past the last. *)
Definition seq_ok s : Prop :=
  seq_of <$> sent s = Some <$> seqZ 1 (Z.of_nat (List.length (sent s)))
  ∧ _seq s = 1 + Z.of_nat (List.length (sent s)).

(** Nothing was read from stdin and the numbering was kept. *)
Definition steady_rel : relation (WalnutDAPServer Tracer) :=
  λ s s', stdin s' = stdin s ∧ (seq_ok s → seq_ok s').

(** Two states that differ in the debugger and the session at most. *)
Definition backstage : relation (WalnutDAPServer Tracer) :=
  λ s s', _seq s' = _seq s ∧ sent s' = sent s ∧ stdin s' = stdin s
          ∧ stdout s' = stdout s ∧ breakpoints s' = breakpoints s.

(** [Q] holds of the outcome and the final state of [m] run from [s]. *)
Definition post {A} (m : M Tracer A) s
           (Q : outcome A → WalnutDAPServer Tracer → Prop) : Prop :=
  Q (m s).1 (m s).2.

(** The program counter of step [k] of a trace. *)
Definition pc_at (trace : EVM.Trace) (k : Z) : option Z :=
  EVM.pc <$> py_index (EVM.steps trace) k.

(** What holds after the simulation block run from [s]: it sent output
    events only; when it returned, the session holds a trace and stands
    at the resolved entry step. *)
Definition after_simulate s (o : outcome ()) s' : Prop :=
  o ≠ OutOfFuel
  ∧ ∃ evs, sent s' = sent s ++ evs
           ∧ Forall (λ m, is_event m = true) evs
           ∧ (o = Return () →
              ∃ d trace, debugger s' = Some d
                         ∧ EVM.current_trace d = Some trace
                         ∧ entry_resolved d).

(** The outcomes of resolving a list of [do_break] arguments in turn, and
    the debugger afterwards. *)
Fixpoint resolve_all d (args : list string) : list bool * Debugger Tracer :=
  match args with
  | [] => ([], d)
  | arg :: args' =>
      let '(raised, d') := do_break d arg in
      let '(oks, d'') := resolve_all d' args' in
      (match raised with None => true | Some _ => false end :: oks, d'')
  end.

(** A [setBreakpoints] request for the source [path] (hashing to [key])
    with the batch [descriptors], each of them an object. *)
Definition batch_request (request : dict) (path : json) (key : hashable)
           (descriptors : list dict) : Prop :=
  ∃ args src,
    py_or (get_or "arguments" (JObj []) request) (JObj []) = JObj args
    ∧ py_or (get_or "source" (JObj []) args) (JObj []) = JObj src
    ∧ py_or (get "path" src) (JStr "") = path
    ∧ to_key path = Some key
    ∧ get_or "breakpoints" (JArr []) args = JArr (JObj <$> descriptors).

(** The session holds no trace: no debugger, or a debugger without one. *)
Definition no_trace s : Prop :=
  debugger s = None ∨ ∃ d, debugger s = Some d ∧ EVM.current_trace d = None.

(** What [evaluate] computes for the expression [expr], a str, while
    the session holds the trace [trace]: the result, or the exception
    raised. *)
Definition evaluation (expr : string) d (trace : EVM.Trace) : pyexn + string :=
  if startswith "stack[" expr && endswith "]" expr then
    match int_of_str (slice_6_m1 expr) with
    | inl e => inl e
    | inr idx =>
        match py_index (EVM.steps trace) (EVM.current_step d) with
        | None => inl (index_error (EVM.current_step d))
        | Some step =>
            match py_index (EVM.stack step) idx with
            | None => inl (index_error idx)
            | Some val => inr (show_word val)
            end
        end
    end
  else inr "n/a".

End Specifications.

(** What arrived of a request whose last five bytes were cut off. *)
Definition cut_off_body : list ascii :=
  let body := json_dumps (JObj (Demo.request 7 "threads" [])) in
  take (List.length body - 5) body.

Definition cut_off_request : list ascii :=
  take (List.length (frame (JObj (Demo.request 7 "threads" []))) - 5)
       (frame (JObj (Demo.request 7 "threads" []))).

(** ** What the handlers send and change *)

(** The events the server announces. *)
Definition announced : list string := ["initialized"; "output"; "thread"; "stopped"].

(** The commands the server loop knows. *)
Definition known_commands : list string :=
  ["initialize"; "launch"; "setBreakpoints"; "configurationDone"; "threads";
   "continue"; "next"; "stepIn"; "stepOut"; "stackTrace"; "scopes"; "variables";
   "evaluate"; "disconnect"; "terminate"].

(** A sent message that is a response. *)
Definition is_response (msg : json) : bool :=
  match msg with JObj d => is_str "response" (get "type" d) | _ => false end.

(** The name of a sent event. *)
Definition event_name (msg : json) : option string :=
  match msg with
  | JObj d => if is_str "event" (get "type" d)
              then match get "event" d with JStr e => Some e | _ => None end
              else None
  | _ => None
  end.

(** The [request_seq] values of the responses among sent messages, in
    send order. *)
Definition request_seqs (msgs : list json) : list json :=
  omap (λ m, match m with
             | JObj d => if is_str "response" (get "type" d)
                         then Some (get "request_seq" d) else None
             | _ => None
             end) msgs.

(** A message of the server's vocabulary: a response, or one of the
    announced events. *)
Definition in_vocabulary (msg : json) : Prop :=
  is_response msg = true ∨ ∃ e, event_name msg = Some e ∧ e ∈ announced.

Section Relations.

Context {Tracer : Type} `{!JsonLibrary}.

Implicit Types (s : WalnutDAPServer Tracer).

(** Between [s] and [s'] messages that satisfy [P] were sent, and no
    others. *)
Definition sends (P : json → Prop) : relation (WalnutDAPServer Tracer) :=
  λ s s', ∃ msgs, sent s' = sent s ++ msgs ∧ Forall P msgs.

(** Nothing was sent. *)
Definition silent : relation (WalnutDAPServer Tracer) :=
  λ s s', sent s' = sent s.

(** Events were sent at most. *)
Definition quiet : relation (WalnutDAPServer Tracer) :=
  sends (λ m, is_event m = true).

(** What was written to stdout between [s] and [s'] is the frames of the
    messages sent, in send order. *)
Definition framed : relation (WalnutDAPServer Tracer) :=
  λ s s', ∃ msgs, sent s' = sent s ++ msgs
                  ∧ stdout s' = stdout s ++ List.concat (frame <$> msgs).

(** Output events were sent at most, the counter moved by one for each
    of them, and the thread id is as it was. *)
Definition forwarding : relation (WalnutDAPServer Tracer) :=
  λ s s', thread_id s' = thread_id s
          ∧ ∃ outs, sent s' = sent s ++ outs
                    ∧ _seq s' = _seq s + Z.of_nat (List.length outs)
                    ∧ Forall (λ m, event_name m = Some "output") outs.

(** The part [f] of the state is as it was. *)
Definition unchanged {A} (f : WalnutDAPServer Tracer → A)
  : relation (WalnutDAPServer Tracer) :=
  λ s s', f s' = f s.

(** Between [s] and [s'] the request was answered: one response that
    echoes its [seq] and its [command] was sent, among events. *)
Definition replied (request : dict) : relation (WalnutDAPServer Tracer) :=
  λ s s', ∃ before resp after,
    sent s' = sent s ++ before ++ JObj resp :: after
    ∧ Forall (λ m, is_event m = true) before
    ∧ Forall (λ m, is_event m = true) after
    ∧ get "type" resp = JStr "response"
    ∧ get "request_seq" resp = get "seq" request
    ∧ get "command" resp = get "command" request.

(** [m] answers the request when it returns; when it raises, the states
    are related by [Q]. *)
Definition answers_request {A} (Q : relation (WalnutDAPServer Tracer))
           (request : dict) (m : M Tracer A) : Prop :=
  ∀ s, match (m s).1 with
       | Return _ => replied request s (m s).2
       | Raise _ => Q s (m s).2
       | OutOfFuel => False
       end.

(** [m] returns, having sent events at most. *)
Definition returns_quietly {A} (m : M Tracer A) : Prop :=
  ∀ s, (∃ a, (m s).1 = Return a) ∧ quiet s (m s).2.

End Relations.

Section Scopes.

Context {Tracer Info Parser : Type} `{!Soldb Tracer Info Parser}.

(** An entry of the Locals scope that describes the variable [var] at
    the step [step]: its name and type, and as value what the tracer
    decodes at its location, or [None] when the location holds nothing. *)
Definition describes (t : Tracer) (step : EVM.Step) (var : EVM.VarInfo)
           (entry : json) : Prop :=
  ∃ value,
    entry = JObj [("name", JStr (EVM.var_name var)); ("value", JStr value);
                  ("type", JStr (EVM.var_type var));
                  ("variablesReference", JInt 0)]
    ∧ let n := Z.of_nat (List.length (EVM.stack step)) in
      let kind := EVM.location_type var in
      (kind = "stack" → EVM.offset var < n →
       ∃ w, py_index (EVM.stack step) (EVM.offset var) = Some w
            ∧ value = decode_value t w (EVM.var_type var))
      ∧ (kind = "stack" → n ≤ EVM.offset var → value = "None")
      ∧ (kind = "memory" → EVM.memory step ≠ "" →
         value = extract_from_memory t (EVM.memory step) (EVM.offset var)
                                     (EVM.var_type var))
      ∧ (kind = "memory" → EVM.memory step = "" → value = "None")
      ∧ (kind = "storage" → EVM.storage step ≠ [] →
         value = extract_from_storage t (EVM.storage step) (EVM.offset var)
                                      (EVM.var_type var))
      ∧ (kind = "storage" → EVM.storage step = [] → value = "None")
      ∧ (kind ∉ ["stack"; "memory"; "storage"] → value = "None").

End Scopes.

(** An entry of the Stack scope. *)
Definition stack_entry (i : Z) (w : EVM.word) : json :=
  JObj [("name", JStr ("stack[" +:+ str_Z i +:+ "]"));
        ("value", JStr (show_word w)); ("variablesReference", JInt 0)].

(** A scope, as [scopes] lists it. *)
Definition scope (name : string) (ref : Z) : json :=
  JObj [("name", JStr name); ("variablesReference", JInt ref);
        ("expensive", JBool false)].

(** ** Decimal numerals *)

Section Numerals.

Lemma scan_digits_uint d count acc :
  scan_digits (digits d) false count acc
  = Some ((count + Decimal.nb_digits d)%nat, uint_fold d acc, []).
Proof.
  revert count acc. induction d; intros count acc; cbn [Decimal.nb_digits uint_fold].
  1: { cbn. by rewrite Nat.add_0_r. }
  all: rewrite Nat.add_succ_r; exact (IHd (S count) _).
Qed.

Lemma uint_fold_pos d p : uint_fold d (Z.pos p) = Z.pos (Pos.of_uint_acc d p).
Proof.
  revert p. induction d; intros p; cbn [uint_fold Pos.of_uint_acc]; [done | ..];
    rewrite <- IHd; f_equal; lia.
Qed.

Lemma uint_fold_0 d : uint_fold d 0 = Z.of_N (Pos.of_uint d).
Proof.
  induction d; cbn [uint_fold Pos.of_uint]; [done | done | ..];
    apply (uint_fold_pos d).
Qed.

Lemma digits_are_digits d : Forall (λ c, is_digit c = true) (digits d).
Proof. induction d; [constructor | ..]; by constructor. Qed.

Lemma digits_nonempty d : d ≠ Decimal.Nil → digits d ≠ [].
Proof. by destruct d. Qed.

Lemma digits_length d : List.length (digits d) = Decimal.nb_digits d.
Proof. induction d; [done | ..]; cbn [Decimal.nb_digits]; by rewrite <- IHd. Qed.

Lemma digit_not_space_bytes c : is_digit c = true → is_space c = false.
Proof.
  unfold is_digit, is_space.
  destruct (Nat.leb_spec 48 (nat_of_ascii c)); [| done]. intros _.
  repeat match goal with
         | |- context [(?a <=? ?b)%nat] => destruct (Nat.leb_spec a b); try lia
         | |- context [(?a =? ?b)%nat] => destruct (Nat.eqb_spec a b); try lia
         end; done.
Qed.

Lemma digit_is_ascii c : is_digit c = true → is_ascii c = true.
Proof.
  unfold is_digit, is_ascii. intros [_ Hc%Nat.leb_le]%andb_true_iff.
  apply Nat.ltb_lt. lia.
Qed.

(** Text without whitespace at either end is its own [strip]. *)
Lemma lstrip_head c l : is_space c = false → lstrip (c :: l) = c :: l.
Proof. cbn. by intros ->. Qed.

Lemma strip_clean l : Forall (λ c, is_space c = false) l → strip l = l.
Proof.
  intros Hl. unfold strip.
  assert (∀ l, Forall (λ c, is_space c = false) l → lstrip l = l) as Hstrip.
  { intros [| c l'] Hl'; [done |]. apply lstrip_head. by inversion Hl'. }
  rewrite (Hstrip l Hl), Hstrip, rev_involutive; [done |].
  by apply Forall_rev.
Qed.

(** [PyLong_FromString] reads a digit string as its value, and as the
    opposite after a minus sign, when the digits are within the limit. *)
Lemma scan_literal_digits d :
  d ≠ Decimal.Nil →
  scan_literal (digits d) = Some (false, Decimal.nb_digits d, uint_fold d 0, [])
  ∧ scan_literal ("-"%char :: digits d)
    = Some (true, Decimal.nb_digits d, uint_fold d 0, []).
Proof.
  intros Hd. pose proof (scan_digits_uint d 0 0) as Hscan. cbn [plus] in Hscan.
  split.
  - assert (∀ l, l = digits d →
                 match l with
                 | "_"%char :: _ => None
                 | _ => match scan_digits l false 0 0 with
                        | Some (count, value, rest) => Some (false, count, value, rest)
                        | None => None
                        end
                 end = Some (false, Decimal.nb_digits d, uint_fold d 0, [])) as Hmain.
    { intros l ->. rewrite Hscan. by destruct d. }
    unfold scan_literal. rewrite <- (Hmain _ eq_refl). by destruct d.
  - unfold scan_literal.
    change (lstrip ("-"%char :: digits d)) with ("-"%char :: digits d).
    cbn iota beta zeta. rewrite Hscan. by destruct d.
Qed.

Lemma long_from_string_digits limit d :
  d ≠ Decimal.Nil →
  (∀ n, limit = Some n → (Decimal.nb_digits d ≤ n)%nat) →
  long_from_string limit (digits d) = Literal (uint_fold d 0)
  ∧ long_from_string limit ("-"%char :: digits d) = Literal (- uint_fold d 0).
Proof.
  intros Hd Hlimit.
  assert (match limit with
          | Some n => (n <? Decimal.nb_digits d)%nat
          | None => false
          end = false) as Hwithin.
  { destruct limit as [n |]; [| done]. apply Nat.ltb_ge. by apply Hlimit. }
  assert ((Decimal.nb_digits d =? 0)%nat = false) as Hsome.
  { apply Nat.eqb_neq. by destruct d. }
  destruct (scan_literal_digits d Hd) as [Hplain Hminus].
  unfold long_from_string. by rewrite Hplain, Hminus, Hwithin, Hsome.
Qed.

(** A text that [int] reads or refuses within the limit on the digits is
    read or refused alike without the limit. *)
Lemma long_from_string_within limit b :
  (∀ count, long_from_string (Some limit) b ≠ TooLong count) →
  long_from_string None b = long_from_string (Some limit) b.
Proof.
  unfold long_from_string.
  destruct (scan_literal b) as [[[[negative count] value] rest] |]; [| done].
  destruct (limit <? count)%nat; [| done]. intros Hno. by destruct (Hno count).
Qed.

(** The decimal numeral of an int, as [str] prints it. *)
Lemma str_Z_cases z :
  list_ascii_of_string (str_Z z)
  = match z with
    | 0 => ["0"%char]
    | Z.pos p => digits (Pos.to_uint p)
    | Z.neg p => "-"%char :: digits (Pos.to_uint p)
    end.
Proof.
  destruct z as [| p | p]; [done | |]; unfold str_Z; cbn;
    pose proof (Unsigned.to_uint_nonnil p); by destruct (Pos.to_uint p).
Qed.

Lemma length_list_ascii_of_string t :
  List.length (list_ascii_of_string t) = String.length t.
Proof. induction t as [| c t IH]; [done |]. cbn. by rewrite IH. Qed.

(** The numeral of an int is an ASCII text. *)
Lemma int_text_str_Z z : int_text (str_Z z) = list_ascii_of_string (str_Z z).
Proof.
  unfold int_text.
  assert (Forall (λ c, is_ascii c = true) (list_ascii_of_string (str_Z z))) as Hascii.
  { rewrite str_Z_cases. destruct z as [| p | p]; [by repeat constructor | |].
    - eapply Forall_impl; [apply digits_are_digits |]. apply digit_is_ascii.
    - constructor; [done |].
      eapply Forall_impl; [apply digits_are_digits |]. apply digit_is_ascii. }
  assert (forallb is_ascii (list_ascii_of_string (str_Z z)) = true) as ->; [| done].
  induction Hascii as [| c l Hc _ IH]; [done |]. cbn [forallb]. by rewrite Hc.
Qed.

(** [int(str(z)) == z] for a numeral within the limit on the digits. *)
Lemma int_of_str_Z z :
  (String.length (str_Z z) ≤ int_max_str_digits)%nat → int_of_str (str_Z z) = inr z.
Proof.
  intros Hlen. unfold int_of_str. rewrite int_text_str_Z.
  rewrite <- length_list_ascii_of_string in Hlen. rewrite str_Z_cases in Hlen |- *.
  destruct z as [| p | p]; [done | |].
  - rewrite digits_length in Hlen.
    destruct (long_from_string_digits (Some int_max_str_digits) (Pos.to_uint p))
      as [-> _].
    + apply Unsigned.to_uint_nonnil.
    + by intros n [= <-].
    + by rewrite uint_fold_0, Unsigned.of_to.
  - cbn [List.length] in Hlen. rewrite digits_length in Hlen.
    destruct (long_from_string_digits (Some int_max_str_digits) (Pos.to_uint p))
      as [_ ->].
    + apply Unsigned.to_uint_nonnil.
    + intros n [= <-]. lia.
    + by rewrite uint_fold_0, Unsigned.of_to.
Qed.

(** [int] of the bytes of the numeral of a natural number. *)
Lemma int_of_bytes_nat n :
  int_of_bytes (list_ascii_of_string (str_nat n)) = inr (Z.of_nat n).
Proof.
  unfold int_of_bytes, str_nat. rewrite str_Z_cases.
  destruct (Z.of_nat n) as [| p | p] eqn:Hn; [done | | lia].
  destruct (long_from_string_digits None (Pos.to_uint p)) as [-> _].
  - apply Unsigned.to_uint_nonnil.
  - done.
  - by rewrite uint_fold_0, Unsigned.of_to.
Qed.

(** A digit string without a leading zero is at least the power of ten
    of its length less one. *)
Lemma uint_fold_lower d acc :
  0 ≤ acc → acc * 10 ^ Z.of_nat (Decimal.nb_digits d) ≤ uint_fold d acc.
Proof.
  revert acc. induction d; intros acc Hacc; cbn [Decimal.nb_digits uint_fold].
  1: { cbn. lia. }
  all: rewrite Nat2Z.inj_succ, Z.pow_succ_r by lia;
    etrans; [| apply IHd; lia];
    assert (0 < 10 ^ Z.of_nat (Decimal.nb_digits d)) by (apply Z.pow_pos_nonneg; lia);
    nia.
Qed.

Lemma to_uint_head p :
  match Pos.to_uint p with
  | Decimal.Nil | Decimal.D0 _ => False
  | _ => True
  end.
Proof.
  pose proof (Unsigned.to_of (Pos.to_uint p)) as Hnorm.
  rewrite Unsigned.of_to in Hnorm. change (N.to_uint (N.pos p)) with (Pos.to_uint p) in Hnorm.
  pose proof (Unsigned.to_uint_nonzero p) as Hnz.
  destruct (Pos.to_uint p) as [| u | | | | | | | | |] eqn:Hp; try done.
  rewrite DecimalFacts.unorm_D0 in Hnorm.
  destruct (Decimal.nzhead u) eqn:Hu;
    [| by apply DecimalFacts.nzhead_nonzero in Hu | ..];
    [| unfold Decimal.unorm in Hnorm; rewrite Hu in Hnorm; done ..].
  assert (Decimal.unorm u = Decimal.zero) as Hz by (by apply DecimalFacts.unorm_0).
  rewrite Hz in Hnorm. by rewrite Hnorm in Hnz.
Qed.

(** The numeral of a positive number below a power of ten has no more
    digits than the power. *)
Lemma digits_of_pos p k :
  Z.pos p < 10 ^ Z.of_nat k → (Decimal.nb_digits (Pos.to_uint p) ≤ k)%nat.
Proof.
  intros Hp. pose proof (to_uint_head p) as Hhead.
  pose proof (uint_fold_0 (Pos.to_uint p)) as Hvalue.
  rewrite Unsigned.of_to in Hvalue. cbn [Z.of_N] in Hvalue.
  destruct (Pos.to_uint p) as [| u | u | u | u | u | u | u | u | u | u];
    try done;
    cbn [uint_fold Decimal.nb_digits] in *;
    match type of Hvalue with
    | uint_fold u ?acc = _ =>
        pose proof (uint_fold_lower u acc ltac:(lia)) as Hlow
    end;
    destruct (Nat.le_gt_cases (S (Decimal.nb_digits u)) k) as [| Hgt]; try done;
    assert (10 ^ Z.of_nat k ≤ 10 ^ Z.of_nat (Decimal.nb_digits u))
      by (apply Z.pow_le_mono_r; lia);
    nia.
Qed.

(** An int that fits [Py_ssize_t] has a numeral of at most twenty
    characters, far within the limit of [int]. *)
Lemma str_Z_ssize_t z :
  fits_ssize_t z = true → (String.length (str_Z z) ≤ 20)%nat.
Proof.
  unfold fits_ssize_t, sys_maxsize.
  intros [Hlo%Z.leb_le Hhi%Z.leb_le]%andb_true_iff.
  rewrite <- length_list_ascii_of_string, str_Z_cases.
  destruct z as [| p | p]; [cbn; lia | |]; cbn [List.length];
    rewrite digits_length;
    pose proof (digits_of_pos p 19) as Hdigits;
    change (10 ^ Z.of_nat 19) with 10000000000000000000 in Hdigits;
    specialize (Hdigits ltac:(lia)); lia.
Qed.

Lemma int_of_str_ssize_t z : fits_ssize_t z = true → int_of_str (str_Z z) = inr z.
Proof.
  intros Hz%str_Z_ssize_t. apply int_of_str_Z. unfold int_max_str_digits. lia.
Qed.

End Numerals.

(** ** Properties *)

Section Properties.

Context {Tracer Info Parser : Type}.
Context `{!JsonLibrary, !Memory, !Soldb Tracer Info Parser}.

Implicit Types (s : WalnutDAPServer Tracer) (d : Debugger Tracer).

Local Abbreviation steady := (keeps (@steady_rel Tracer)).
Local Abbreviation backstage := (@backstage Tracer).

Lemma bind_unfold {A B} (m : M Tracer A) (f : A → M Tracer B) s :
  (m ≫= f) s = match m s with
               | (Return a, s') => f a s'
               | (Raise e, s') => (Raise e, s')
               | (OutOfFuel, s') => (OutOfFuel, s')
               end.
Proof. reflexivity. Qed.

Lemma _event_unfold event body s :
  _event event body s =
  (Return (),
   write (frame (JObj (event_of event body (_seq s))))
         (JObj (event_of event body (_seq s))) (set_seq (_seq s + 1) s)).
Proof. reflexivity. Qed.

Lemma _response_unfold request success body message s :
  _response request success body message s =
  (Return (),
   write (frame (JObj (response_of request success body message (_seq s))))
         (JObj (response_of request success body message (_seq s)))
         (set_seq (_seq s + 1) s)).
Proof. reflexivity. Qed.

Lemma seq_of_response request success body message n :
  seq_of (JObj (response_of request success body message n)) = Some n.
Proof.
  unfold response_of. destruct body, message; cbn; try done;
    by destruct (negb (String.eqb _ "") && negb success).
Qed.

(** *** Computations that keep a relation between the states *)

Section Keeps.

Variable R : relation (WalnutDAPServer Tracer).
Context `{!Reflexive R, !Transitive R}.

Local Abbreviation keeps := (keeps R).

Lemma keeps_ret {A} (a : A) : keeps (mret a).
Proof. intros s. by cbn. Qed.

Lemma keeps_raise {A} e : keeps (raise (A := A) e).
Proof. intros s. by cbn. Qed.

Lemma keeps_get_state : keeps get_state.
Proof. intros s. by cbn. Qed.

Lemma keeps_bind {A B} (m : M Tracer A) (f : A → M Tracer B) :
  keeps m → (∀ a, keeps (f a)) → keeps (m ≫= f).
Proof.
  intros Hm Hf s. rewrite bind_unfold.
  destruct (Hm s) as (Ho & HR).
  destruct (m s) as [[a| e|] s']; cbn in *; try done.
  destruct (Hf a s') as (Ho' & HR').
  split; [done | by etrans].
Qed.

Lemma keeps_try {A} (m : M Tracer A) (handler : pyexn → M Tracer A) :
  keeps m → (∀ e, keeps (handler e)) → keeps (try_except m handler).
Proof.
  intros Hm Hh s. unfold try_except.
  destruct (Hm s) as (Ho & HR).
  destruct (m s) as [[a| e|] s']; cbn in *; try done.
  destruct (Hh e s') as (Ho' & HR').
  split; [done | by etrans].
Qed.

Lemma keeps_modify f : (∀ s, R s (f s)) → keeps (modify f).
Proof. intros Hf s. by cbn. Qed.

Lemma keeps_lift_exn {A} (r : pyexn + A) : keeps (lift_exn r).
Proof. destruct r; [apply keeps_raise | apply keeps_ret]. Qed.

Lemma keeps_as_dict v : keeps (as_dict v).
Proof. destruct v; first [apply keeps_raise | apply keeps_ret]. Qed.

Lemma keeps_if {A} (c : bool) (a b : M Tracer A) :
  keeps a → keeps b → keeps (if c then a else b).
Proof. by destruct c. Qed.

Lemma keeps_option {A B} (o : option B) (f : B → M Tracer A) (g : M Tracer A) :
  (∀ b, keeps (f b)) → keeps g →
  keeps (match o with Some b => f b | None => g end).
Proof. by destruct o. Qed.

Lemma keeps_pair {A B C} (p : B * C) (f : B → C → M Tracer A) :
  (∀ b c, keeps (f b c)) → keeps (let '(b, c) := p in f b c).
Proof. by destruct p. Qed.

End Keeps.

Create HintDb keeps discriminated.
Hint Constants Opaque : keeps.
Hint Variables Opaque : keeps.

(** Decompose a handler along its binds and branches. *)
Ltac keeps_step :=
  lazymatch goal with
  | |- keeps _ (mbind ?f ?m) => apply (keeps_bind _ m f); [| intros ?]
  | |- keeps _ (mret _) => apply keeps_ret; apply _
  | |- keeps _ (raise _) => apply keeps_raise; apply _
  | |- keeps _ get_state => apply keeps_get_state; apply _
  | |- keeps _ (lift_exn _) => apply keeps_lift_exn; apply _
  | |- keeps _ (as_dict _) => apply keeps_as_dict; apply _
  | |- keeps _ (try_except ?m ?h) => apply (keeps_try _ m h); [| intros ?]
  | |- keeps _ (modify _) => apply keeps_modify; solve [auto with keeps]
  | |- keeps _ (match ?o with Some b => @?f b | None => ?g end) =>
      apply (keeps_option _ o f g); [intros ? |]
  | |- keeps _ (match ?p with (b, c) => @?f b c end) =>
      apply (keeps_pair _ p f); intros ? ?
  | |- keeps _ (match ?c with true => ?a | false => ?b end) =>
      apply (keeps_if _ c a b)
  | |- keeps _ (match ?x with _ => _ end) => destruct x
  | |- _ => solve [auto with keeps]
  end.
Ltac keeps_tac := repeat keeps_step.

(** *** The numbering of the messages *)

#[local] Instance steady_rel_refl : Reflexive (@steady_rel Tracer).
Proof. by intros s. Qed.

#[local] Instance steady_rel_trans : Transitive (@steady_rel Tracer).
Proof. intros s1 s2 s3 [Hi1 Hs1] [Hi2 Hs2]. split; [congruence | auto]. Qed.

(** One send: the message carries the counter, which then moves by one. *)
Lemma seq_ok_send s msg :
  seq_ok s → seq_of msg = Some (_seq s) →
  seq_ok (write (frame msg) msg (set_seq (_seq s + 1) s)).
Proof.
  intros [Hl Hn] Hm. unfold seq_ok; cbn.
  rewrite length_app; cbn [List.length]. rewrite Nat.add_1_r.
  split; [| lia].
  rewrite fmap_app, Hl, seqZ_S, fmap_app. cbn. by rewrite Hm, Hn.
Qed.

Lemma steady_event event body : steady (_event event body).
Proof.
  intros s. rewrite _event_unfold; cbn [fst snd].
  split; [done |]. split; [done |]. intros Hs. by apply seq_ok_send.
Qed.

Lemma steady_response request success body message :
  steady (_response request success body message).
Proof.
  intros s. rewrite _response_unfold; cbn [fst snd].
  split; [done |]. split; [done |]. intros Hs. apply seq_ok_send; [done |].
  apply seq_of_response.
Qed.

Lemma steady_set_debugger d s : steady_rel s (set_debugger d s).
Proof. done. Qed.

Lemma steady_set_session x s : steady_rel s (set_session x s).
Proof. done. Qed.

Lemma steady_set_breakpoints b s : steady_rel s (set_breakpoints b s).
Proof. done. Qed.

Hint Resolve steady_event steady_response steady_set_debugger
  steady_set_session steady_set_breakpoints : keeps.

Lemma steady_the_debugger attr : steady (the_debugger attr).
Proof. unfold the_debugger. keeps_tac. Qed.
Hint Resolve steady_the_debugger : keeps.

Lemma steady_the_tracer : steady the_tracer.
Proof. unfold the_tracer. keeps_tac. Qed.
Hint Resolve steady_the_tracer : keeps.

Lemma steady_thread_body reason : steady (thread_body reason).
Proof. unfold thread_body. keeps_tac. Qed.
Hint Resolve steady_thread_body : keeps.

Lemma steady_send_output text : steady (_send_output text).
Proof. unfold _send_output. keeps_tac. Qed.
Hint Resolve steady_send_output : keeps.

Lemma steady_initialize request : steady (initialize request).
Proof. unfold initialize. keeps_tac. Qed.

Lemma steady_simulate : steady simulate.
Proof. unfold simulate. keeps_tac. Qed.
Hint Resolve steady_simulate : keeps.

Lemma steady_resolve_contract args fork_port :
  steady (resolve_contract args fork_port).
Proof. unfold resolve_contract. keeps_tac. Qed.

Lemma steady_create_debugger args contract_address ethdebug_dir abi_path rpc :
  steady (create_debugger args contract_address ethdebug_dir abi_path rpc).
Proof. unfold create_debugger. keeps_tac. Qed.
Hint Resolve steady_resolve_contract steady_create_debugger : keeps.

Lemma steady_launch_try request args fork_port :
  steady (launch_try request args fork_port).
Proof. unfold launch_try. keeps_tac. Qed.
Hint Resolve steady_launch_try : keeps.

Lemma steady_launch request : steady (launch request).
Proof. unfold launch. keeps_tac. Qed.

Lemma steady_separate bps lines functions : steady (separate bps lines functions).
Proof.
  revert lines functions.
  induction bps as [| bp bps IH]; intros lines functions; cbn [separate];
    keeps_tac.
Qed.
Hint Resolve steady_separate : keeps.

Lemma steady_try_do_break arg : steady (try_do_break arg).
Proof. unfold try_do_break. keeps_tac. Qed.
Hint Resolve steady_try_do_break : keeps.

Lemma steady_register_lines path lines verified :
  steady (register_lines path lines verified).
Proof.
  revert verified.
  induction lines as [| line lines IH]; intros verified; cbn [register_lines];
    keeps_tac.
Qed.
Hint Resolve steady_register_lines : keeps.

Lemma steady_register_functions functions verified :
  steady (register_functions functions verified).
Proof.
  revert verified.
  induction functions as [| f functions IH]; intros verified;
    cbn [register_functions]; keeps_tac.
Qed.
Hint Resolve steady_register_functions : keeps.

Lemma steady_setBreakpoints request : steady (setBreakpoints request).
Proof. unfold setBreakpoints. keeps_tac. Qed.

Lemma steady_threads request : steady (threads request).
Proof. unfold threads. keeps_tac. Qed.

Lemma steady_step_with do_step request : steady (step_with do_step request).
Proof. unfold step_with. keeps_tac. Qed.

Lemma steady_stackTrace request : steady (stackTrace request).
Proof. unfold stackTrace. keeps_tac. Qed.

Lemma steady_scopes request : steady (scopes request).
Proof. unfold scopes. keeps_tac. Qed.

Lemma steady_locals t step vars_here vars_list :
  steady (locals t step vars_here vars_list).
Proof.
  revert vars_list.
  induction vars_here as [| var vars_here IH]; intros vars_list; cbn [locals];
    keeps_tac.
Qed.
Hint Resolve steady_locals : keeps.

Lemma steady_variables request : steady (variables request).
Proof. unfold variables. keeps_tac. Qed.

Lemma steady_evaluate request : steady (evaluate request).
Proof. unfold evaluate. keeps_tac. Qed.

(** *** The loop of [continue_] *)

Lemma py_index_in_range {A} (l : list A) (i : Z) :
  0 ≤ i < Z.of_nat (List.length l) → is_Some (py_index l i).
Proof.
  intros Hi. unfold py_index.
  destruct (Z.leb_spec 0 i); [| lia].
  apply lookup_lt_is_Some. lia.
Qed.

Lemma set_debugger_same s d : debugger s = Some d → set_debugger d s = s.
Proof. destruct s; cbn; by intros ->. Qed.

Lemma set_current_step_same d : EVM.set_current_step (EVM.current_step d) d = d.
Proof. by destruct d. Qed.

Lemma the_debugger_Some attr s d :
  debugger s = Some d → the_debugger attr s = (Return d, s).
Proof. intros Hd. unfold the_debugger. rewrite bind_unfold; cbn. by rewrite Hd. Qed.

#[local] Instance backstage_refl : Reflexive backstage.
Proof. by intros s. Qed.

#[local] Instance backstage_trans : Transitive backstage.
Proof.
  intros s1 s2 s3 (? & ? & ? & ? & ?) (? & ? & ? & ? & ?).
  unfold backstage. split_and!; congruence.
Qed.

Lemma backstage_set_debugger d s : backstage s (set_debugger d s).
Proof. done. Qed.

Lemma backstage_set_session x s : backstage s (set_session x s).
Proof. done. Qed.

Hint Resolve backstage_set_debugger backstage_set_session : keeps.

(** The loop changes nothing but the debugger. *)
Lemma continue_loop_quiet fuel trace bps s :
  backstage s (continue_loop fuel trace bps s).2.
Proof.
  revert s. induction fuel as [| fuel IH]; intros s; cbn [continue_loop]; [done |].
  rewrite bind_unfold. destruct (debugger s) as [d |] eqn:Hd.
  - rewrite (the_debugger_Some _ _ _ Hd).
    destruct (_ <? _); cbn; [| done].
    rewrite bind_unfold; cbn.
    destruct (py_index _ _) as [step |]; cbn; [| done].
    destruct (bool_decide _); cbn; [done |].
    apply (IH (set_debugger (EVM.set_current_step (EVM.current_step d + 1) d) s)).
  - unfold the_debugger. rewrite bind_unfold; cbn. by rewrite Hd.
Qed.

(** With one unit of fuel per step that is left, the loop ends. *)
Lemma continue_loop_fuel fuel trace bps s d :
  debugger s = Some d →
  (Z.to_nat (Z.of_nat (List.length (EVM.steps trace)) - 1 - EVM.current_step d)
   < fuel)%nat →
  (continue_loop fuel trace bps s).1 ≠ OutOfFuel.
Proof.
  revert s d. induction fuel as [| fuel IH]; intros s d Hd Hfuel; [lia |].
  cbn [continue_loop]. rewrite bind_unfold, (the_debugger_Some _ _ _ Hd).
  destruct (Z.ltb_spec (EVM.current_step d)
              (Z.of_nat (List.length (EVM.steps trace)) - 1)); cbn; [| done].
  rewrite bind_unfold; cbn.
  destruct (py_index _ _) as [step |]; cbn; [| done].
  destruct (bool_decide _); cbn; [done |].
  eapply IH; [done |]. cbn. lia.
Qed.

(** Where the loop stops: at the first step after the start whose program
    counter is a breakpoint, at the last step when there is none. *)
Lemma continue_loop_spec fuel trace bps s d :
  debugger s = Some d →
  0 ≤ EVM.current_step d →
  (Z.to_nat (Z.of_nat (List.length (EVM.steps trace)) - 1 - EVM.current_step d)
   < fuel)%nat →
  ∃ j,
    continue_loop fuel trace bps s
    = (Return (), set_debugger (EVM.set_current_step j d) s)
    ∧ EVM.current_step d ≤ j
    ∧ (EVM.current_step d < Z.of_nat (List.length (EVM.steps trace)) - 1 →
       EVM.current_step d < j ≤ Z.of_nat (List.length (EVM.steps trace)) - 1)
    ∧ (Z.of_nat (List.length (EVM.steps trace)) - 1 ≤ EVM.current_step d →
       j = EVM.current_step d)
    ∧ (∀ k p, EVM.current_step d < k < j → pc_at trace k = Some p → p ∉ bps)
    ∧ (EVM.current_step d < j →
       j = Z.of_nat (List.length (EVM.steps trace)) - 1
       ∨ ∃ p, pc_at trace j = Some p ∧ p ∈ bps).
Proof.
  revert s d. induction fuel as [| fuel IH]; intros s d Hd Hpos Hfuel; [lia |].
  cbn [continue_loop]. rewrite bind_unfold, (the_debugger_Some _ _ _ Hd).
  set (L := Z.of_nat (List.length (EVM.steps trace))) in *.
  destruct (Z.ltb_spec (EVM.current_step d) (L - 1)) as [Hlt | Hge]; cbn.
  - rewrite bind_unfold; cbn.
    destruct (py_index_in_range (EVM.steps trace) (EVM.current_step d + 1))
      as [step Hstep]; [lia |].
    rewrite Hstep.
    destruct (bool_decide_reflect (EVM.pc step ∈ bps)) as [Hin | Hout].
    + exists (EVM.current_step d + 1). split_and!; try done; try lia.
      intros _. right. exists (EVM.pc step). unfold pc_at. by rewrite Hstep.
    + destruct (IH (set_debugger (EVM.set_current_step (EVM.current_step d + 1) d) s)
                   (EVM.set_current_step (EVM.current_step d + 1) d))
        as (j & Hrun & Hle & Hmove & Hstay & Hskip & Hland);
        [done | cbn; lia | cbn; lia |].
      cbn in Hle, Hmove, Hstay, Hskip, Hland.
      exists j. split_and!; [by rewrite Hrun | lia | lia | lia | |].
      * intros k p Hk Hp.
        destruct (decide (k = EVM.current_step d + 1)) as [-> | Hne].
        -- unfold pc_at in Hp. rewrite Hstep in Hp. cbn in Hp. congruence.
        -- apply (Hskip k p); [lia | done].
      * intros _.
        destruct (decide (j = EVM.current_step d + 1)) as [-> | Hne].
        -- assert (L - 1 ≤ EVM.current_step d + 1 ∨ EVM.current_step d + 1 < L - 1)
             as [Hend | Hmid] by lia; [left; lia |].
           specialize (Hmove Hmid). lia.
        -- apply Hland. lia.
  - exists (EVM.current_step d). split_and!; try done; try lia.
    by rewrite set_current_step_same, set_debugger_same.
Qed.

Lemma steady_continue_ request : steady (continue_ request).
Proof.
  intros s. unfold continue_. rewrite bind_unfold; cbn [get_state].
  destruct (debugger s ≫= _) as [[d trace] |] eqn:Hd.
  - destruct (debugger s) as [d0 |] eqn:Hd0; [| done]. cbn in Hd.
    destruct (EVM.current_trace d0); [| done]. injection Hd as -> ->.
    rewrite bind_unfold.
    pose proof (continue_loop_fuel
      (S (Z.to_nat (Z.of_nat (List.length (EVM.steps trace)) - 1 - EVM.current_step d)))
      trace (default ∅ (EVM.breakpoints d)) s d Hd0 ltac:(lia)) as Hfuel.
    pose proof (continue_loop_quiet
      (S (Z.to_nat (Z.of_nat (List.length (EVM.steps trace)) - 1 - EVM.current_step d)))
      trace (default ∅ (EVM.breakpoints d)) s) as (Hq & Hs & Hi & _).
    destruct (continue_loop _ _ _ s) as [[[] | e |] s1]; cbn in *; [| | done].
    + assert (steady (_response request true
                        (Some (JObj [("allThreadsContinued", JBool false)])) None;;
                      stopped ← thread_body "breakpoint"; _event "stopped" stopped))
        as Hrest by keeps_tac.
      destruct (Hrest s1) as (Ho & Hin).
      split; [done |]. destruct Hin as [Hin Hseq]. split; [congruence |].
      intros Hok. apply Hseq. unfold seq_ok. by rewrite Hq, Hs.
    + split; [done |]. split; [done |]. unfold seq_ok. by rewrite Hq, Hs.
  - assert (steady (_response request true (Some (JObj [])) None;;
                    stopped ← thread_body "breakpoint"; _event "stopped" stopped))
      as Hrest by keeps_tac.
    apply Hrest.
Qed.

Hint Resolve steady_initialize steady_launch steady_setBreakpoints steady_threads
  steady_continue_ steady_step_with steady_stackTrace steady_scopes
  steady_variables steady_evaluate : keeps.

Lemma steady_dispatch msg : steady (dispatch msg).
Proof. unfold dispatch, next, stepIn, stepOut, next. keeps_tac. Qed.

(** *** The transport reader *)

Lemma split_line_app b :
  (split_line b).1 ++ (split_line b).2 = b.
Proof.
  induction b as [| c b IH]; [done |]. cbn.
  destruct (Ascii.eqb c LF); [done |].
  destruct (split_line b) as [l r]; cbn in *. by rewrite IH.
Qed.

Lemma split_line_nil b : (split_line b).1 = [] → b = [].
Proof.
  destruct b as [| c b]; [done |]. cbn.
  destruct (Ascii.eqb c LF); [done |]. by destruct (split_line b).
Qed.

Lemma split_line_length b :
  (split_line b).1 ≠ [] →
  (List.length (split_line b).2 < List.length b)%nat.
Proof.
  intros Hne. rewrite <- (split_line_app b) at 2. rewrite length_app.
  destruct (split_line b).1; [done | cbn; lia].
Qed.

Lemma readline_unfold s :
  readline s = (Return (split_line (stdin s)).1, set_stdin (split_line (stdin s)).2 s).
Proof. unfold readline. rewrite bind_unfold; cbn. by destruct (split_line _). Qed.

(** A read raises and leaves the input as it is, or takes bytes from its
    head. *)
Lemma read_cases n s :
  (∃ e, read n s = (Raise e, s))
  ∨ (∃ k, read n s = (Return (take k (stdin s)), set_stdin (drop k (stdin s)) s)).
Proof.
  unfold read. rewrite bind_unfold; cbn [get_state].
  assert (∃ k, (Return (stdin s), set_stdin [] s)
               = (Return (take k (stdin s)), set_stdin (drop k (stdin s)) s)) as Hall.
  { exists (List.length (stdin s)). by rewrite take_ge, drop_ge. }
  destruct (n <? - sys_maxsize - 1); [left; by eexists |].
  destruct (n <? -1); [left; by eexists |].
  destruct (n <? 0); [right; exact Hall |].
  destruct (n <=? _); [right; by exists (Z.to_nat n) |].
  destruct (sys_maxsize <? n); [left; by eexists |].
  destruct (bytes_max <? n); [left; by eexists |].
  destruct (negb _); [left; by eexists | right; exact Hall].
Qed.

(** A size the input covers is read from it. *)
Lemma read_covered n s :
  0 ≤ n ≤ Z.of_nat (List.length (stdin s)) →
  read n s = (Return (take (Z.to_nat n) (stdin s)),
              set_stdin (drop (Z.to_nat n) (stdin s)) s).
Proof.
  intros Hn. unfold read. rewrite bind_unfold; cbn [get_state].
  destruct (Z.ltb_spec n (- sys_maxsize - 1)); [unfold sys_maxsize in *; lia |].
  destruct (Z.ltb_spec n (-1)); [lia |].
  destruct (Z.ltb_spec n 0); [lia |].
  by destruct (Z.leb_spec n (Z.of_nat (List.length (stdin s)))); [| lia].
Qed.

(** A size beyond the input needs a buffer: when it is granted, all
    that is left is read. *)
Lemma read_short n s :
  Z.of_nat (List.length (stdin s)) < n →
  read n s
  = if sys_maxsize <? n
    then (Raise (PyExn "OverflowError" "cannot fit 'int' into an index-sized integer"), s)
    else if bytes_max <? n
    then (Raise (PyExn "OverflowError" "byte string is too large"), s)
    else if negb (can_allocate n) then (Raise (PyExn "MemoryError" ""), s)
    else (Return (stdin s), set_stdin [] s).
Proof.
  intros Hn. unfold read. rewrite bind_unfold; cbn [get_state].
  destruct (Z.ltb_spec n (- sys_maxsize - 1)); [unfold sys_maxsize in *; lia |].
  destruct (Z.ltb_spec n (-1)); [lia |].
  destruct (Z.ltb_spec n 0); [lia |].
  destruct (Z.leb_spec n (Z.of_nat (List.length (stdin s)))); [lia |].
  destruct (sys_maxsize <? n); [done |].
  destruct (bytes_max <? n); [done |].
  by destruct (negb _).
Qed.

(** The header loop ends within one unit of fuel per byte of input, and
    only consumes input; when it changed the length it was given, it
    consumed some. *)
Lemma read_headers_spec fuel content_length s :
  (List.length (stdin s) < fuel)%nat →
  ∃ o rest,
    read_headers fuel content_length s = (o, set_stdin rest s)
    ∧ o ≠ OutOfFuel
    ∧ (List.length rest ≤ List.length (stdin s))%nat
    ∧ (∀ r, o = Return r →
            r = content_length ∨ (List.length rest < List.length (stdin s))%nat).
Proof.
  revert content_length s.
  induction fuel as [| fuel IH]; intros content_length s Hfuel; [lia |].
  cbn [read_headers]. rewrite bind_unfold, readline_unfold.
  pose proof (split_line_app (stdin s)) as Happ.
  pose proof (split_line_length (stdin s)) as Hlen.
  destruct (split_line (stdin s)) as [line rest]; cbn [fst snd] in *.
  assert (List.length rest ≤ List.length (stdin s))%nat as Hle
    by (rewrite <- Happ, length_app; lia).
  destruct (bool_decide_reflect (line = [])) as [Hnil | Hnil]; cbn [orb].
  { exists (Return content_length), rest. split_and!; [done | done | done |].
    intros r [= <-]. by left. }
  specialize (Hlen Hnil).
  destruct (bool_decide (line = CRLF)).
  { exists (Return content_length), rest. split_and!; [done | done | done |].
    intros r [= <-]. by left. }
  assert (∀ cl, ∃ o rest',
    read_headers fuel cl (set_stdin rest s) = (o, set_stdin rest' s)
    ∧ o ≠ OutOfFuel
    ∧ (List.length rest' ≤ List.length (stdin s))%nat
    ∧ (∀ r, o = Return r → (List.length rest' < List.length (stdin s))%nat))
    as Hnext.
  { intros cl.
    destruct (IH cl (set_stdin rest s)) as (o & rest' & Hrun & Ho & Hl & _);
      [cbn; lia |].
    cbn in Hl. exists o, rest'. split_and!; [done | done | lia |]. intros; lia. }
  destruct (partition ":" line) as [k v].
  destruct (bool_decide _).
  - rewrite bind_unfold. destruct (int_of_bytes (strip v)) as [e | n]; cbn [lift_exn].
    + exists (Raise e), rest. split_and!; [done | done | done | done].
    + destruct (Hnext (Some n)) as (o & rest' & Hrun & Ho & Hl & Hr).
      exists o, rest'. split_and!; [done | done | done |].
      intros r Hor. right. by eapply Hr.
  - destruct (Hnext content_length) as (o & rest' & Hrun & Ho & Hl & Hr).
    exists o, rest'. split_and!; [done | done | done |].
    intros r Hor. right. by eapply Hr.
Qed.

(** [_read] only consumes input, and a message costs at least a byte. *)
Lemma _read_spec s :
  ∃ o rest,
    _read s = (o, set_stdin rest s)
    ∧ o ≠ OutOfFuel
    ∧ (∀ v, o = Return v → v ≠ JNull →
            (List.length rest < List.length (stdin s))%nat).
Proof.
  unfold _read. rewrite bind_unfold; cbn [get_state]. rewrite bind_unfold.
  destruct (read_headers_spec (S (List.length (stdin s))) None s)
    as (o & rest & -> & Ho & Hle & Hr); [lia |].
  destruct o as [[n |] | e |]; [| | | done].
  - destruct (Hr (Some n) eq_refl) as [? | Hlt]; [done |].
    rewrite bind_unfold.
    destruct (read_cases n (set_stdin rest s)) as [[e ->] | [k ->]].
    { exists (Raise e), rest. by split_and!. }
    cbn [stdin set_stdin].
    destruct (json_loads (take k rest)) as [e | v]; cbn.
    + exists (Raise e), (drop k rest). by split_and!.
    + exists (Return v), (drop k rest). split_and!; [done | done |].
      intros. rewrite length_drop. lia.
  - exists (Return JNull), rest. split_and!; [done | done |]. by intros v [= <-].
  - exists (Raise e), rest. by split_and!.
Qed.

(** *** The server loop *)

Lemma run_unfold fuel s :
  run (S fuel) s =
  match _read s with
  | (Return JNull, s') => (Return (), s')
  | (Return (JObj msg), s') =>
      if negb (is_str "request" (get "type" msg)) then run fuel s'
      else match dispatch msg s' with
           | (Return true, s'') => run fuel s''
           | (Return false, s'') => (Return (), s'')
           | (Raise e, s'') => (Raise e, s'')
           | (OutOfFuel, s'') => (OutOfFuel, s'')
           end
  | (Return v, s') => (Raise (AttributeError v "get"), s')
  | (Raise e, s') => (Raise e, s')
  | (OutOfFuel, s') => (OutOfFuel, s')
  end.
Proof.
  cbn [run]. rewrite bind_unfold.
  destruct (_read s) as [[v | e |] s']; [| done | done].
  destruct v; try done.
  destruct (negb _); [done |]. rewrite bind_unfold.
  destruct (dispatch d s') as [[[] | e |] s'']; done.
Qed.

(** The loop keeps the numbering of the messages, whatever it reads and
    however it ends. *)
Lemma run_seq_ok fuel s : seq_ok s → seq_ok (run fuel s).2.
Proof.
  revert s. induction fuel as [| fuel IH]; intros s Hok; [done |].
  rewrite run_unfold.
  destruct (_read_spec s) as (o & rest & -> & _ & _).
  assert (seq_ok (set_stdin rest s)) as Hok' by done.
  destruct o as [v | e |]; [| done | done].
  destruct v; try done.
  destruct (negb _); [by apply IH |].
  destruct (steady_dispatch d (set_stdin rest s)) as (_ & _ & Hseq).
  specialize (Hseq Hok').
  destruct (dispatch d _) as [[[] | e |] s'']; cbn in *; try done.
  by apply IH.
Qed.

(** With one unit of fuel per byte of input, and one more, the loop ends. *)
Lemma run_terminates fuel s :
  (List.length (stdin s) < fuel)%nat → (run fuel s).1 ≠ OutOfFuel.
Proof.
  revert s. induction fuel as [| fuel IH]; intros s Hfuel; [lia |].
  rewrite run_unfold.
  destruct (_read_spec s) as (o & rest & -> & Ho & Hlen).
  destruct o as [v | e |]; [| done | done].
  destruct v as [| | | | | msg]; try done.
  specialize (Hlen (JObj msg) eq_refl ltac:(done)).
  destruct (negb _); [apply IH; cbn; lia |].
  destruct (steady_dispatch msg (set_stdin rest s)) as (Hd & Hin & _).
  destruct (dispatch msg _) as [[[] | e |] s'']; cbn in *; try done.
  apply IH. rewrite Hin. lia.
Qed.

(** C2.  For every run of the session, over any input and with any
    collaborators, however far the loop got: the [seq] values of the
    messages sent (responses and events alike) are 1, 2, ..., N in send
    order, N being the number of messages sent; the counter starts at 1
    and a send moves it by exactly one, so it ends at N + 1. *)
Theorem seq_numbers_are_1_to_N (input : list ascii) (fuel : nat) :
  let s := (run fuel (__init__ input)).2 in
  seq_of <$> sent s = Some <$> seqZ 1 (Z.of_nat (List.length (sent s)))
  ∧ @_seq Tracer (__init__ input) = 1
  ∧ _seq s = 1 + Z.of_nat (List.length (sent s))
  ∧ (∀ s0 event body,
       let s1 := (_event event body s0).2 in
       ∃ msg, sent s1 = sent s0 ++ [msg] ∧ seq_of msg = Some (_seq s0)
              ∧ _seq s1 = _seq s0 + 1)
  ∧ (∀ s0 request success body message,
       let s1 := (_response request success body message s0).2 in
       ∃ msg, sent s1 = sent s0 ++ [msg] ∧ seq_of msg = Some (_seq s0)
              ∧ _seq s1 = _seq s0 + 1).
Proof.
  assert (seq_ok (@__init__ Tracer input)) as Hinit by done.
  destruct (run_seq_ok fuel _ Hinit) as [Hseq Hn].
  split_and!; [done | done | done | |].
  - intros s0 event body. rewrite _event_unfold. cbn. by eexists.
  - intros s0 request success body message. rewrite _response_unfold. cbn.
    eexists. split_and!; [done | apply seq_of_response | done].
Qed.

(** *** [continue] *)

(** C1.  In a session holding a trace of length L and the breakpoint set
    B, [continue] from the step index i, 0 <= i <= L-1, returns and leaves
    the index at some j >= i.  When i < L-1, j is the smallest index above
    i whose step has its program counter in B, or L-1 when there is no
    such index; when i = L-1 the index stays at L-1. *)
Theorem continue_stops_at_next_breakpoint (request : dict) s d (trace : EVM.Trace) :
  debugger s = Some d →
  EVM.current_trace d = Some trace →
  let L := Z.of_nat (List.length (EVM.steps trace)) in
  let B := default ∅ (EVM.breakpoints d) in
  let i := EVM.current_step d in
  0 ≤ i ≤ L - 1 →
  ∃ j,
    (continue_ request s).1 = Return ()
    ∧ debugger (continue_ request s).2 = Some (EVM.set_current_step j d)
    ∧ i ≤ j
    ∧ (i = L - 1 → j = L - 1)
    ∧ (i < L - 1 →
       i < j ≤ L - 1
       ∧ ((∃ p, pc_at trace j = Some p ∧ p ∈ B)
          ∧ (∀ k p, i < k < j → pc_at trace k = Some p → p ∉ B)
          ∨ j = L - 1
            ∧ (∀ k p, i < k ≤ L - 1 → pc_at trace k = Some p → p ∉ B))).
Proof.
  intros Hd Htrace L B i Hi.
  destruct (continue_loop_spec (S (Z.to_nat (L - 1 - i))) trace B s d Hd)
    as (j & Hrun & Hle & Hmove & Hstay & Hskip & Hland); [lia | lia |].
  fold L in Hmove, Hstay, Hland. fold i in Hle, Hmove, Hstay, Hskip, Hland.
  exists j.
  assert (continue_ request s
          = (_response request true
               (Some (JObj [("allThreadsContinued", JBool false)])) None;;
             stopped ← thread_body "breakpoint"; _event "stopped" stopped)
              (set_debugger (EVM.set_current_step j d) s)) as ->.
  { unfold continue_. rewrite bind_unfold; cbn [get_state].
    rewrite Hd; cbn [mbind option_bind]. rewrite Htrace; cbn [mbind option_bind].
    rewrite bind_unfold. fold L B i. by rewrite Hrun. }
  split_and!; [done | done | done | lia |].
  intros Hlt. split; [by apply Hmove |].
  destruct (Hland ltac:(lia)) as [Hend | (p & Hp & Hin)].
  - destruct (py_index_in_range (EVM.steps trace) j) as [step Hstep]; [lia |].
    destruct (decide (EVM.pc step ∈ B)) as [Hin | Hout].
    + left. split; [| done]. exists (EVM.pc step). unfold pc_at. by rewrite Hstep.
    + right. split; [done |]. intros k p Hk Hp.
      destruct (decide (k = j)) as [-> | Hne].
      * unfold pc_at in Hp. rewrite Hstep in Hp. cbn in Hp. congruence.
      * apply (Hskip k p); [lia | done].
  - left. split; [by exists p | done].
Qed.

(** *** Postconditions *)

Lemma post_bind {A B} (m : M Tracer A) (f : A → M Tracer B) s Q :
  post m s (λ o s', match o with
                    | Return a => post (f a) s' Q
                    | Raise e => Q (Raise e) s'
                    | OutOfFuel => Q OutOfFuel s'
                    end) →
  post (m ≫= f) s Q.
Proof.
  unfold post. rewrite bind_unfold. by destruct (m s) as [[a | e |] s'].
Qed.

Lemma post_try {A} (m : M Tracer A) (handler : pyexn → M Tracer A) s Q :
  post m s (λ o s', match o with
                    | Raise e => post (handler e) s' Q
                    | _ => Q o s'
                    end) →
  post (try_except m handler) s Q.
Proof.
  unfold post, try_except. by destruct (m s) as [[a | e |] s'].
Qed.

(** A computation that keeps [R] ends in some state related to [s]. *)
Lemma post_keeps {A} R (m : M Tracer A) s Q :
  keeps R m → (∀ o s', o ≠ OutOfFuel → R s s' → Q o s') → post m s Q.
Proof. intros Hm HQ. destruct (Hm s). by apply HQ. Qed.

Lemma post_ret {A} (a : A) s (Q : outcome A → WalnutDAPServer Tracer → Prop) :
  Q (Return a) s → post (mret a) s Q.
Proof. done. Qed.

Lemma post_raise {A} e s (Q : outcome A → WalnutDAPServer Tracer → Prop) :
  Q (Raise e) s → post (raise e) s Q.
Proof. done. Qed.

Lemma post_modify f s Q : Q (Return ()) (f s) → post (modify f) s Q.
Proof. done. Qed.

Lemma post_get_state s Q : Q (Return s) s → post get_state s Q.
Proof. done. Qed.

Lemma post_event event body s Q :
  Q (Return ())
    (write (frame (JObj (event_of event body (_seq s))))
           (JObj (event_of event body (_seq s))) (set_seq (_seq s + 1) s)) →
  post (_event event body) s Q.
Proof. done. Qed.

Lemma post_response request success body message s Q :
  Q (Return ())
    (write (frame (JObj (response_of request success body message (_seq s))))
           (JObj (response_of request success body message (_seq s)))
           (set_seq (_seq s + 1) s)) →
  post (_response request success body message) s Q.
Proof. done. Qed.

Lemma post_thread_body reason s Q :
  Q (Return (JObj [("reason", JStr reason); ("threadId", JInt (thread_id s))])) s →
  post (thread_body reason) s Q.
Proof. done. Qed.

(** *** [launch] *)

Lemma find_first_named fname ft f :
  first_named fname ft f →
  find_target fname ft = Some f.
Proof.
  intros (pre & post & -> & Hname & Hpre). unfold find_target.
  induction Hpre as [| g pre Hg _ IH]; cbn.
  - by rewrite (proj2 (String.eqb_eq _ _) Hname).
  - by rewrite (proj2 (String.eqb_neq _ _) Hg).
Qed.

Lemma find_none_named fname ft :
  none_named fname ft →
  find_target fname ft = None.
Proof.
  unfold find_target. induction 1 as [| g ft Hg _ IH]; cbn; [done |].
  by rewrite (proj2 (String.eqb_neq _ _) Hg).
Qed.

(** The entry step the code computes is the one of the specification. *)
Lemma entry_point_resolved d :
  entry_resolved (EVM.set_current_step (entry_point d).1 (entry_point d).2)
  ∧ EVM.current_trace (entry_point d).2 = EVM.current_trace d.
Proof.
  unfold entry_resolved, entry_point.
  destruct (EVM.function_trace d) as [[| f0 rest] |] eqn:Hft;
    cbn; rewrite ?Hft; cbn.
  - split; [| done]. split_and!; try done.
    intros f (pre & post & Heq & _). by destruct pre.
  - destruct (find_target _ (f0 :: rest)) as [target |] eqn:Hfind.
    + cbn. rewrite Hft. cbn.
      split; [| done]. split_and!; try done.
      * intros f Hf. apply find_first_named in Hf. by simplify_eq.
      * intros Hnone. apply find_none_named in Hnone. congruence.
      * intros Hnone. apply find_none_named in Hnone. congruence.
    + destruct rest as [| f1 rest]; cbn; rewrite Hft; cbn.
      * split; [| done]. split_and!; try done.
        -- intros f Hf. apply find_first_named in Hf. congruence.
        -- by intros _ ? [= <-].
      * split; [| done]. split_and!; try done.
        -- intros f Hf. apply find_first_named in Hf. congruence.
        -- by intros _ ? ? ? [= <- <- <-].
  - split; [| done]. split_and!; try done.
    intros f (pre & post & Heq & _). by destruct pre.
Qed.

Lemma backstage_resolve_contract args fork_port :
  keeps backstage (resolve_contract args fork_port).
Proof. unfold resolve_contract. keeps_tac. Qed.

Lemma backstage_the_debugger attr : keeps backstage (the_debugger attr).
Proof. unfold the_debugger. keeps_tac. Qed.
Hint Resolve backstage_the_debugger : keeps.

Lemma backstage_create_debugger args contract_address ethdebug_dir abi_path rpc :
  keeps backstage (create_debugger args contract_address ethdebug_dir abi_path rpc).
Proof. unfold create_debugger. keeps_tac. Qed.


Lemma after_simulate_raise s e evs s' :
  sent s' = sent s ++ evs → Forall (λ m, is_event m = true) evs →
  after_simulate s (Raise e) s'.
Proof. intros Hs Hevs. split; [done |]. exists evs. by split_and!. Qed.

(** From the call of [_do_interactive] on: lines 226-275. *)
Lemma simulate_rest_spec s evs s3 d' raised :
  sent s3 = sent s ++ evs →
  Forall (λ m, is_event m = true) evs →
  debugger s3 = Some d' →
  post (match raised with
        | Some e => raise e
        | None =>
            match EVM.current_trace d' with
            | Some trace =>
                let '(entry_step, d'') := entry_point d' in
                modify (set_debugger (EVM.set_current_step entry_step d''));;
                (if entry_step <? Z.of_nat (List.length (EVM.steps trace))
                 then match py_index (EVM.steps trace) entry_step with
                      | Some _ => mret ()
                      | None => raise (index_error entry_step)
                      end
                 else mret ())
            | None => raise (PyExn "RuntimeError"
                "Simulation failed to generate trace - check function name and arguments")
            end
        end) s3
       (λ o s', match o with
                | Raise e => after_simulate s (Raise e) s'
                | _ => after_simulate s o s'
                end).
Proof.
  intros Hs3 Hevs Hd3.
  destruct raised as [e |]; [by apply post_raise, after_simulate_raise with evs |].
  destruct (EVM.current_trace d') as [trace |] eqn:Htrace;
    [| by apply post_raise, after_simulate_raise with evs].
  destruct (entry_point_resolved d') as [Hres Htr].
  destruct (entry_point d') as [entry_step d'']; cbn [fst snd] in *.
  apply post_bind, post_modify.
  assert (after_simulate s (Return ())
            (set_debugger (EVM.set_current_step entry_step d'') s3)) as Hok.
  { split; [done |]. exists evs. split_and!; [done | done |].
    intros _. exists (EVM.set_current_step entry_step d''), trace.
    split_and!; [done | by rewrite <- Htrace, <- Htr | done]. }
  destruct (entry_step <? _); [| exact Hok].
  destruct (py_index _ _); [exact Hok |].
  by apply post_raise, after_simulate_raise with evs.
Qed.

Lemma simulate_spec s : post simulate s (after_simulate s).
Proof.
  unfold simulate. apply post_try, post_bind.
  apply (post_keeps backstage); [apply backstage_the_debugger |].
  intros [d | e |] s1 Ho (_ & Hs1 & _);
    [| apply post_raise, after_simulate_raise with []; by rewrite ?app_nil_r | done].
  destruct (String.eqb (EVM.contract_address d) "");
    [apply post_raise, post_raise, after_simulate_raise with [];
     by rewrite ?app_nil_r |].
  destruct (String.eqb (EVM.function_name d) "");
    [apply post_raise, post_raise, after_simulate_raise with [];
     by rewrite ?app_nil_r |].
  apply post_bind.
  apply (post_keeps backstage); [unfold the_tracer; keeps_tac |].
  intros [t | e |] s2 Ho2 (_ & Hs2 & _);
    [| apply post_raise, after_simulate_raise with [];
       [rewrite app_nil_r; congruence | done] | done].
  destruct (_do_interactive d) as [[output raised] d'].
  apply post_bind, post_modify, post_bind.
  assert (∀ o s', match o with
                  | Raise e => after_simulate s (Raise e) s'
                  | _ => after_simulate s o s'
                  end →
                  match o with
                  | Raise e => post (raise (A := ()) (PyExn "RuntimeError"
                      ("Failed to generate execution trace: " +:+ str_exn e))) s'
                      (after_simulate s)
                  | _ => after_simulate s o s'
                  end) as Hwrap.
  { intros [[] | e |] s' Hpost; [done | | done].
    destruct Hpost as (_ & evs & ? & ? & _).
    by apply post_raise, after_simulate_raise with evs. }
  destruct (String.eqb output "").
  - apply post_ret. apply Hwrap.
    apply (simulate_rest_spec s []);
      [by rewrite app_nil_r, <- Hs1, <- Hs2 | done | done].
  - unfold _send_output. apply post_event. apply Hwrap.
    apply (simulate_rest_spec s [JObj (event_of "output"
                    (JObj [("output", JStr output); ("category", JStr "stdout")])
                    (_seq s2))]);
      [cbn; by rewrite Hs2, Hs1 | by repeat constructor | done].
Qed.

Lemma is_event_not_success m :
  is_event m = true → is_success_response m = false.
Proof.
  destruct m as [| | | | | msg]; try done. cbn.
  destruct (get "type" msg) as [| | | ty | |]; try done. cbn.
  intros ->%String.eqb_eq. done.
Qed.

Lemma failure_response_not_success request body message n :
  is_success_response (JObj (response_of request false body message n)) = false.
Proof.
  unfold response_of. destruct body, message; cbn; try done;
    by destruct (negb (String.eqb _ "")).
Qed.

Lemma drop_sent_app s (l : list json) :
  drop (List.length (sent s)) (sent s ++ l) = l.
Proof. by rewrite drop_app_length. Qed.

(** C3.  After a successful launch (one that sent a success response),
    the session holds a trace and [currentStepIndex] is the resolved
    entry step: the [entryStep] of the first invocation of the function
    trace whose name is the requested function name, which also becomes
    [currentFunction]; else the [entryStep] of invocation 1 when the
    trace has more than one invocation; else that of the only
    invocation; else 0 when there is no function trace.  So with the
    invocations dispatcher (entry 0) and transfer (entry 12) and the
    requested function transfer, the session stops at 12 with
    [currentFunction] named transfer. *)
Theorem launch_stops_at_entry_step (request : dict) s :
  Exists (λ m, is_success_response m = true)
         (drop (List.length (sent s)) (sent (launch request s).2)) →
  ∃ d trace,
    debugger (launch request s).2 = Some d
    ∧ EVM.current_trace d = Some trace
    ∧ entry_resolved d
    ∧ (∀ f0 f1, EVM.function_trace d = Some [f0; f1] →
                EVM.name f0 ≠ EVM.function_name d →
                EVM.name f1 = EVM.function_name d →
                EVM.current_step d = EVM.entry_step f1
                ∧ EVM.name <$> EVM.current_function d = Some (EVM.function_name d)).
Proof.
  set (Q := λ (o : outcome ()) s',
    Exists (λ m, is_success_response m = true) (drop (List.length (sent s)) (sent s')) →
    ∃ d trace, debugger s' = Some d ∧ EVM.current_trace d = Some trace
               ∧ entry_resolved d).
  assert (post (launch request) s Q) as Hpost.
  { assert (Exists (λ m, is_success_response m = true)
              (drop (List.length (sent s)) (sent s)) → False) as Hnone.
    { rewrite drop_all. by intros ?%Exists_nil. }
    assert (∀ e evs s', sent s' = sent s ++ evs →
              Forall (λ m, is_event m = true) evs →
              post (_response request false None (Some (str_exn e))) s' Q) as Hfail.
    { intros e evs s' Hs Hevs. apply post_response. unfold Q.
      cbn [sent write set_seq].
      rewrite Hs, <- app_assoc, drop_sent_app.
      intros [Hex | Hex]%Exists_app.
      - apply Exists_exists in Hex as (m & Hm & Hsucc).
        rewrite Forall_forall in Hevs.
        by rewrite (is_event_not_success m (Hevs m Hm)) in Hsucc.
      - apply Exists_cons in Hex as [Hex | Hex%Exists_nil]; [| done].
        by rewrite failure_response_not_success in Hex. }
    unfold launch. apply post_bind. unfold as_dict.
    destruct (py_or _ _) as [| | | | | args];
      try (apply post_raise; intros Hex; by destruct (Hnone Hex)).
    apply post_ret, post_bind. unfold lift_exn.
    destruct (int_of_json _) as [e | fork_port];
      [apply post_raise; intros Hex; by destruct (Hnone Hex) |].
    apply post_ret, post_try. unfold launch_try. apply post_bind.
    apply (post_keeps backstage); [apply backstage_resolve_contract |].
    intros [[[[contract_address ethdebug_dir] abi_path] rpc] | e |] s1 Ho (_ & Hs1 & _);
      [| apply (Hfail e []); by rewrite ?app_nil_r | done].
    apply post_bind.
    apply (post_keeps backstage); [apply backstage_create_debugger |].
    intros [[] | e |] s2 Ho2 (_ & Hs2 & _);
      [| apply (Hfail e []); [rewrite app_nil_r; congruence | done] | done].
    apply post_bind.
    pose proof (simulate_spec s2) as Hsim. unfold post in Hsim |- *.
    destruct (simulate s2) as [[[] | e |] s3]; cbn [fst snd] in *;
      destruct Hsim as (Ho3 & evs & Hs3 & Hevs & Hres); [| | done].
    - destruct (Hres eq_refl) as (d & trace & Hd & Htrace & Hentry).
      intros _. exists d, trace. by split_and!.
    - apply (Hfail e evs); [congruence | done]. }
  intros Hex. destruct (Hpost Hex) as (d & trace & Hd & Htrace & Hres).
  exists d, trace. split_and!; [done | done | done |].
  intros f0 f1 Hft Hf0 Hf1.
  destruct Hres as (Hfirst & _).
  destruct (Hfirst f1) as [-> ->]; [| by rewrite <- Hf1].
  rewrite Hft. exists [f0], []. split_and!; [done | done | by constructor].
Qed.

(** *** [setBreakpoints] *)

Lemma resolve_all_length d args : List.length (resolve_all d args).1 = List.length args.
Proof.
  revert d. induction args as [| arg args IH]; intros d; cbn; [done |].
  destruct (do_break d arg) as [raised d']. specialize (IH d').
  destruct (resolve_all d' args). cbn in *. by rewrite IH.
Qed.

Lemma resolve_all_app d args1 args2 :
  resolve_all d (args1 ++ args2)
  = ((resolve_all d args1).1 ++ (resolve_all (resolve_all d args1).2 args2).1,
     (resolve_all (resolve_all d args1).2 args2).2).
Proof.
  revert d. induction args1 as [| arg args1 IH]; intros d; cbn.
  - by destruct (resolve_all d args2).
  - destruct (do_break d arg) as [raised d']. rewrite IH.
    destruct (resolve_all d' args1) as [oks1 d1]; cbn.
    by destruct (resolve_all d1 args2).
Qed.

Lemma separate_spec (descriptors : list dict) lines functions s :
  separate (JObj <$> descriptors) lines functions s
  = (Return (lines ++ lines_of descriptors, functions ++ functions_of descriptors), s).
Proof.
  revert lines functions.
  induction descriptors as [| bp descriptors IH]; intros lines functions.
  - cbn. by rewrite !app_nil_r.
  - cbn [fmap list_fmap separate]. unfold lines_of, functions_of in *.
    cbn [omap list_omap]. unfold py_in, subscript.
    destruct (dict_get "line" bp) as [line |];
      destruct (dict_get "functionName" bp) as [func_name |];
      repeat (rewrite bind_unfold; cbn [lift_exn mret StateExn_ret]);
      rewrite IH; by rewrite <- ?app_assoc.
Qed.

Lemma try_do_break_spec arg s d :
  debugger s = Some d →
  try_do_break arg s
  = (Return match (do_break d arg).1 with None => true | Some _ => false end,
     set_debugger (do_break d arg).2 s).
Proof.
  intros Hd. unfold try_do_break. rewrite bind_unfold, (the_debugger_Some _ _ _ Hd).
  by destruct (do_break d arg).
Qed.

Lemma register_lines_spec path lines verified s d :
  debugger s = Some d →
  let r := resolve_all d (map (λ line, py_str path +:+ ":" +:+ py_str line) lines) in
  register_lines path lines verified s
  = (Return (verified ++ zip_with line_record r.1 lines), set_debugger r.2 s).
Proof.
  revert verified s d.
  induction lines as [| line lines IH]; intros verified s d Hd; cbn.
  - by rewrite app_nil_r, set_debugger_same.
  - rewrite bind_unfold, (try_do_break_spec _ _ _ Hd).
    destruct (do_break d _) as [raised d']; cbn [fst snd].
    rewrite (IH _ (set_debugger d' s) d' eq_refl).
    destruct (resolve_all d' _) as [oks d'']; cbn.
    by rewrite <- app_assoc.
Qed.

Lemma register_functions_spec functions verified s d :
  debugger s = Some d →
  let r := resolve_all d (map py_str functions) in
  register_functions functions verified s
  = (Return (verified ++ zip_with function_record r.1 functions), set_debugger r.2 s).
Proof.
  revert verified s d.
  induction functions as [| f functions IH]; intros verified s d Hd; cbn.
  - by rewrite app_nil_r, set_debugger_same.
  - rewrite bind_unfold, (try_do_break_spec _ _ _ Hd).
    destruct (do_break d _) as [raised d']; cbn [fst snd].
    rewrite (IH _ (set_debugger d' s) d' eq_refl).
    destruct (resolve_all d' _) as [oks d'']; cbn.
    by rewrite <- app_assoc.
Qed.

(** What [setBreakpoints] does to a well-formed batch, with the debugger
    [od] of the session. *)
Lemma setBreakpoints_spec request path key descriptors s :
  batch_request request path key descriptors →
  setBreakpoints request s
  = match debugger s with
    | Some d =>
        let r := resolve_all d (break_args path descriptors) in
        _response request true
          (Some (JObj [("breakpoints",
              JArr (zip_with line_record
                      (take (List.length (lines_of descriptors)) r.1)
                      (lines_of descriptors)
                    ++ zip_with function_record
                         (drop (List.length (lines_of descriptors)) r.1)
                         (functions_of descriptors)))])) None
          (set_debugger r.2
             (set_breakpoints (<[key := lines_of descriptors]> (breakpoints s)) s))
    | None =>
        _response request true (Some (JObj [("breakpoints", JArr [])])) None
          (set_breakpoints (<[key := lines_of descriptors]> (breakpoints s)) s)
    end.
Proof.
  intros (args & src & Hargs & Hsrc & Hpath & Hkey & Hbps).
  unfold setBreakpoints.
  rewrite Hargs, bind_unfold; cbn [as_dict mret StateExn_ret].
  rewrite Hsrc, bind_unfold; cbn [as_dict mret StateExn_ret].
  rewrite Hbps, bind_unfold; cbn [iter_json lift_exn mret StateExn_ret].
  rewrite bind_unfold, separate_spec; cbn [app].
  rewrite Hpath, Hkey, bind_unfold; cbn [mret StateExn_ret].
  rewrite bind_unfold; cbn [get_state]. rewrite bind_unfold; cbn [modify].
  rewrite bind_unfold.
  destruct (debugger s) as [d |] eqn:Hd; [| done].
  set (s1 := set_breakpoints _ s).
  rewrite bind_unfold, (register_lines_spec path _ [] s1 d Hd); cbn [app].
  rewrite (register_functions_spec _ _ (set_debugger _ s1) _ eq_refl).
  unfold break_args. rewrite resolve_all_app. cbn [fst snd].
  rewrite take_app_length', drop_app_length';
    [| by rewrite resolve_all_length, length_map ..].
  done.
Qed.

(** *** Framing *)

Lemma split_line_lf l r :
  Forall (λ c, Ascii.eqb c LF = false) l → split_line (l ++ LF :: r) = (l ++ [LF], r).
Proof.
  induction 1 as [| c l Hc _ IH]; [done |]. cbn. by rewrite Hc, IH.
Qed.

Lemma digit_not_lf c : is_digit c = true → Ascii.eqb c LF = false.
Proof.
  intros Hc. destruct (Ascii.eqb_spec c LF) as [-> |]; [| done]. done.
Qed.

(** The numeral of a natural number: digits, and at least one. *)
Lemma numeral_nat n :
  ∃ c l, list_ascii_of_string (str_nat n) = c :: l
         ∧ Forall (λ c, is_digit c = true) (c :: l)
         ∧ int_of_bytes (c :: l) = inr (Z.of_nat n).
Proof.
  pose proof (int_of_bytes_nat n) as Hint. revert Hint.
  unfold str_nat. rewrite str_Z_cases.
  destruct (Z.of_nat n) as [| p | p] eqn:Hn; [| | lia].
  - exists "0"%char, []. split_and!; [done | by repeat constructor | done].
  - pose proof (digits_nonempty _ (Unsigned.to_uint_nonnil p)) as Hne.
    pose proof (digits_are_digits (Pos.to_uint p)) as Hdigits.
    destruct (digits (Pos.to_uint p)) as [| c l]; [done |]. by exists c, l.
Qed.

Lemma list_ascii_of_string_app a b :
  list_ascii_of_string (a +:+ b) = list_ascii_of_string a ++ list_ascii_of_string b.
Proof.
  induction a as [| c a IH]; [done |].
  change (list_ascii_of_string (String c a +:+ b))
    with (c :: list_ascii_of_string (a +:+ b)).
  by rewrite IH.
Qed.

Lemma strip_header_value l :
  l ≠ [] → Forall (λ c, is_digit c = true) l →
  strip (" "%char :: l ++ CRLF) = l.
Proof.
  intros Hne Hdigits.
  assert (Forall (λ c, is_space c = false) l) as Hns.
  { eapply Forall_impl; [exact Hdigits |]. apply digit_not_space_bytes. }
  unfold strip. change (lstrip (" "%char :: l ++ CRLF)) with (lstrip (l ++ CRLF)).
  destruct l as [| c l]; [done |].
  change ((c :: l) ++ CRLF) with (c :: l ++ CRLF).
  rewrite lstrip_head by (by inversion Hns).
  change (c :: l ++ CRLF) with ((c :: l) ++ [CR; LF]).
  rewrite rev_app_distr.
  change (lstrip (rev [CR; LF] ++ rev (c :: l))) with (lstrip (rev (c :: l))).
  apply Forall_rev in Hns.
  destruct (rev (c :: l)) as [| c' l'] eqn:Hrev.
  { apply (f_equal List.length) in Hrev. rewrite length_rev in Hrev. done. }
  rewrite lstrip_head by (by inversion Hns).
  by rewrite <- Hrev, rev_involutive.
Qed.

Lemma split_line_header l rest :
  Forall (λ c, is_digit c = true) l →
  split_line ((list_ascii_of_string "Content-Length: " ++ l) ++ CRLF ++ CRLF ++ rest)
  = ((list_ascii_of_string "Content-Length: " ++ l) ++ CRLF, CRLF ++ rest).
Proof.
  intros Hdigits.
  replace ((list_ascii_of_string "Content-Length: " ++ l) ++ CRLF ++ CRLF ++ rest)
    with (((list_ascii_of_string "Content-Length: " ++ l) ++ [CR])
          ++ LF :: CRLF ++ rest) by (by rewrite <- !app_assoc).
  rewrite split_line_lf; [by rewrite <- !app_assoc |].
  apply Forall_app. split; [| by repeat constructor].
  apply Forall_app. split; [by repeat constructor |].
  eapply Forall_impl; [exact Hdigits |]. apply digit_not_lf.
Qed.

(** The reader takes the header [_send] writes for a body of [n] bytes
    as the length [n], and stops in front of the body. *)
Lemma read_headers_frame n rest s fuel :
  stdin s = list_ascii_of_string ("Content-Length: " +:+ str_nat n)
            ++ CRLF ++ CRLF ++ rest →
  read_headers (S (S fuel)) None s = (Return (Some (Z.of_nat n)), set_stdin rest s).
Proof.
  intros Hin. destruct (numeral_nat n) as (c & l & Hnum & Hdigits & Hint).
  rewrite list_ascii_of_string_app, Hnum in Hin.
  remember (S fuel) as fuel' eqn:Hfuel. cbn [read_headers].
  rewrite bind_unfold, readline_unfold, Hin, split_line_header by done.
  cbn [fst snd].
  rewrite !bool_decide_eq_false_2 by done. cbn [orb].
  change (partition ":" ((list_ascii_of_string "Content-Length: " ++ c :: l) ++ CRLF))
    with (list_ascii_of_string "Content-Length", " "%char :: (c :: l) ++ CRLF).
  cbn iota beta.
  rewrite bool_decide_eq_true_2 by done.
  rewrite strip_header_value by done.
  rewrite bind_unfold, Hint. cbn [lift_exn mret StateExn_ret].
  subst fuel'. cbn [read_headers]. rewrite bind_unfold, readline_unfold.
  change (split_line (stdin (set_stdin (CRLF ++ rest) s))) with (CRLF, rest).
  cbn [fst snd]. rewrite (bool_decide_eq_true_2 (CRLF = CRLF)) by done.
  by rewrite orb_true_r.
Qed.

Lemma read_exact s body rest :
  stdin s = body ++ rest →
  read (Z.of_nat (List.length body)) s = (Return body, set_stdin rest s).
Proof.
  intros Hin. rewrite read_covered by (rewrite Hin, length_app; lia).
  by rewrite Nat2Z.id, Hin, take_app_length, drop_app_length.
Qed.

Lemma _read_frame (msg : json) rest s :
  stdin s = frame msg ++ rest →
  _read s = match json_loads (json_dumps msg) with
            | inl e => (Raise e, set_stdin rest s)
            | inr v => (Return v, set_stdin rest s)
            end.
Proof.
  intros Hin. unfold frame in Hin. rewrite <- !app_assoc in Hin.
  unfold _read. rewrite bind_unfold; cbn [get_state]. rewrite bind_unfold.
  destruct (stdin s) as [| c0 input] eqn:Hs.
  { by destruct (str_nat _). }
  cbn [List.length]. rewrite <- Hs in *.
  rewrite (read_headers_frame _ _ s _ Hin).
  rewrite bind_unfold, (read_exact (set_stdin _ s) _ rest eq_refl).
  by destruct (json_loads _).
Qed.

(** C6.  What [_send] writes for a message is a header whose
    Content-Length is the byte length of the body, a blank line and the
    body; for a message that the JSON library reads back from its own
    serialization, [_read] on those bytes yields an equal message and
    stops right behind them, having taken the declared length to be the
    byte length of the body. *)
Theorem framing_round_trip (msg : json) (rest : list ascii) s :
  json_loads (json_dumps msg) = inr msg →
  stdin s = frame msg ++ rest →
  _read s = (Return msg, set_stdin rest s)
  ∧ read_headers (S (List.length (stdin s))) None s
    = (Return (Some (Z.of_nat (List.length (json_dumps msg)))),
       set_stdin (json_dumps msg ++ rest) s)
  ∧ frame msg
    = list_ascii_of_string
        ("Content-Length: " +:+ str_Z (Z.of_nat (List.length (json_dumps msg))))
      ++ CRLF ++ CRLF ++ json_dumps msg
  ∧ ∀ writer : WalnutDAPServer Tracer,
      stdout (_send msg writer).2 = stdout writer ++ frame msg.
Proof.
  intros Hjson Hin.
  split_and!; [| | unfold frame; by rewrite <- !app_assoc | done].
  - by rewrite (_read_frame msg rest s Hin), Hjson.
  - unfold frame in Hin. rewrite <- !app_assoc in Hin.
    destruct (stdin s) as [| c0 input] eqn:Hs.
    { by destruct (str_nat _). }
    cbn [List.length]. rewrite <- Hs in *.
    apply (read_headers_frame _ _ s _ Hin).
Qed.

(** *** The end of the input *)

Lemma header_block_length lines rest input :
  header_block lines rest input →
  (List.length lines + List.length rest ≤ List.length input)%nat.
Proof.
  induction 1 as [| rest | line lines rest input Hline Hne _ _ IH]; cbn; [lia | lia |].
  pose proof (split_line_length input) as Hlen. rewrite Hline in Hlen.
  specialize (Hlen Hne). lia.
Qed.

(** Every input starts with a header block. *)
Lemma header_block_total input : ∃ lines rest, header_block lines rest input.
Proof.
  remember (List.length input) as n eqn:Hn. revert input Hn.
  induction n as [n IH] using lt_wf_ind. intros input ->.
  destruct (decide ((split_line input).1 = [])) as [Hnil | Hne].
  { apply split_line_nil in Hnil as ->. exists [], []. constructor. }
  destruct (decide ((split_line input).1 = CRLF)) as [Hcrlf | Hcrlf].
  { exists [], (split_line input).2.
    rewrite <- (split_line_app input) at 2. rewrite Hcrlf. constructor. }
  destruct (IH _ (split_line_length input Hne) (split_line input).2 eq_refl)
    as (lines & rest & Hblock).
  exists ((split_line input).1 :: lines), rest. by constructor.
Qed.

Lemma read_headers_block lines rest input :
  header_block lines rest input →
  ∀ s content_length fuel,
    stdin s = input →
    Forall (λ line, is_content_length line = false) lines →
    (List.length lines < fuel)%nat →
    read_headers fuel content_length s = (Return content_length, set_stdin rest s).
Proof.
  induction 1 as [| rest | line lines rest input Hline Hne Hcrlf _ IH];
    intros s content_length fuel Hinput Hnone Hfuel;
    (destruct fuel as [| fuel]; [cbn in Hfuel; lia |]); cbn [read_headers];
    rewrite bind_unfold, readline_unfold, Hinput.
  - cbn. destruct s; cbn in *. by subst.
  - change (split_line (CRLF ++ rest)) with (CRLF, rest). cbn [fst snd].
    rewrite (bool_decide_eq_true_2 (CRLF = CRLF)) by done. by rewrite orb_true_r.
  - rewrite Hline. rewrite !bool_decide_eq_false_2 by done. cbn [orb].
    apply Forall_cons in Hnone as [Hcl Hnone]. unfold is_content_length in Hcl.
    destruct (partition ":" line) as [k v]. cbn [fst] in Hcl. rewrite Hcl.
    rewrite (IH (set_stdin (split_line input).2 s) content_length fuel eq_refl Hnone);
      [done | cbn in Hfuel; lia].
Qed.

(** C8 (as amended).  A header block without a Content-Length header
    yields no message and the server loop ends cleanly, having sent
    nothing.  When the input ends mid-body after the header [_send]
    writes (a length within the digits [int] reads), the reader asks for
    the declared number of bytes.  When the buffer for them is granted,
    it hands the bytes that did arrive to the JSON library: what the
    library makes of them is what [_read] returns or raises, and an
    exception of the library leaves the loop uncaught.  When the buffer
    is refused (a length that does not fit [Py_ssize_t] or a bytes
    object, or more than the memory allows), the OverflowError or
    MemoryError of the read leaves [_read] and the loop in the same way,
    with the bytes that arrived unread and nothing sent. *)
Theorem end_of_input s :
  (∀ lines rest,
      header_block lines rest (stdin s) →
      Forall (λ line, is_content_length line = false) lines →
      _read s = (Return JNull, set_stdin rest s)
      ∧ ∀ fuel, run (S fuel) s = (Return (), set_stdin rest s))
  ∧ (∀ (n : Z) partial,
        stdin s = list_ascii_of_string ("Content-Length: " +:+ str_Z n)
                  ++ CRLF ++ CRLF ++ partial →
        Z.of_nat (List.length partial) < n →
        (String.length (str_Z n) ≤ int_max_str_digits)%nat →
        (n ≤ bytes_max → can_allocate n = true →
         _read s = match json_loads partial with
                   | inl e => (Raise e, set_stdin [] s)
                   | inr v => (Return v, set_stdin [] s)
                   end
         ∧ ∀ e fuel, json_loads partial = inl e →
                     run (S fuel) s = (Raise e, set_stdin [] s))
        ∧ (∀ e,
             (sys_maxsize < n
              ∧ e = PyExn "OverflowError" "cannot fit 'int' into an index-sized integer")
             ∨ (bytes_max < n ≤ sys_maxsize
                ∧ e = PyExn "OverflowError" "byte string is too large")
             ∨ (n ≤ bytes_max ∧ can_allocate n = false
                ∧ e = PyExn "MemoryError" "") →
             _read s = (Raise e, set_stdin partial s)
             ∧ ∀ fuel, run (S fuel) s = (Raise e, set_stdin partial s)
                       ∧ sent (run (S fuel) s).2 = sent s)).
Proof.
  split.
  - intros lines rest Hblock Hnone.
    assert (_read s = (Return JNull, set_stdin rest s)) as Hread.
    { unfold _read. rewrite bind_unfold; cbn [get_state]. rewrite bind_unfold.
      rewrite (read_headers_block lines rest (stdin s) Hblock s None _ eq_refl Hnone);
        [done |].
      apply header_block_length in Hblock. lia. }
    split; [done |]. intros fuel. by rewrite run_unfold, Hread.
  - intros n partial Hin Hlen _.
    assert (_read s = (body ← read n; lift_exn (json_loads body))
                        (set_stdin partial s)) as Hread.
    { replace n with (Z.of_nat (Z.to_nat n)) in Hin |- * by lia.
      unfold _read. rewrite bind_unfold; cbn [get_state]. rewrite bind_unfold.
      destruct (stdin s) as [| c0 input] eqn:Hs.
      { by destruct (str_Z _). }
      cbn [List.length]. rewrite <- Hs in *.
      by rewrite (read_headers_frame _ _ s _ Hin). }
    rewrite bind_unfold, read_short in Hread by (cbn [stdin set_stdin]; lia).
    assert (bytes_max < sys_maxsize) as Hmax by done.
    split.
    + intros Hn Hmemory.
      destruct (Z.ltb_spec sys_maxsize n); [lia |].
      destruct (Z.ltb_spec bytes_max n); [lia |].
      rewrite Hmemory in Hread. cbn [negb stdin set_stdin] in Hread.
      assert (_read s = match json_loads partial with
                        | inl e => (Raise e, set_stdin [] s)
                        | inr v => (Return v, set_stdin [] s)
                        end) as Hparsed.
      { rewrite Hread. by destruct (json_loads partial). }
      split; [done |]. intros e fuel He. by rewrite run_unfold, Hparsed, He.
    + intros e Hcase.
      assert (_read s = (Raise e, set_stdin partial s)) as Hraised.
      { rewrite Hread.
        destruct Hcase as [[Hn ->] | [[Hn ->] | (Hn & Hmemory & ->)]].
        - by destruct (Z.ltb_spec sys_maxsize n); [| lia].
        - destruct (Z.ltb_spec sys_maxsize n); [lia |].
          by destruct (Z.ltb_spec bytes_max n); [| lia].
        - destruct (Z.ltb_spec sys_maxsize n); [lia |].
          destruct (Z.ltb_spec bytes_max n); [lia |].
          by rewrite Hmemory. }
      split; [done |]. intros fuel. by rewrite run_unfold, Hraised.
Qed.

(** C10.  A message the reader returned whose [type] is not the string
    "request" is skipped: the loop goes on to read the next message from
    a state that differs from the one before the read in the input
    consumed only, so nothing was sent and the counter, the debugger and
    the breakpoints are as they were. *)
Theorem non_request_is_skipped (msg : dict) s s1 :
  _read s = (Return (JObj msg), s1) →
  get "type" msg ≠ JStr "request" →
  (∀ fuel, run (S fuel) s = run fuel s1)
  ∧ (∃ rest, s1 = set_stdin rest s)
  ∧ sent s1 = sent s ∧ stdout s1 = stdout s ∧ _seq s1 = _seq s
  ∧ debugger s1 = debugger s ∧ session s1 = session s
  ∧ breakpoints s1 = breakpoints s.
Proof.
  intros Hread Htype.
  assert (is_str "request" (get "type" msg) = false) as Hskip.
  { destruct (get "type" msg) as [| | | ty | |]; try done. cbn.
    apply String.eqb_neq. congruence. }
  destruct (_read_spec s) as (o & rest & Hspec & _).
  rewrite Hread in Hspec. injection Hspec as <- ->.
  split_and!; try done; [| by exists rest].
  intros fuel. by rewrite run_unfold, Hread, Hskip.
Qed.

(** *** [stackTrace] and [evaluate] *)

(** C9 (as amended).  [stackTrace] without a trace answers with a success
    whose body is exactly an empty [stackFrames] list; the body has no
    [totalFrames] entry. *)
Theorem stackTrace_without_trace (request : dict) s :
  no_trace s →
  let body := [("stackFrames", JArr [])] in
  let resp := response_of request true (Some (JObj body)) None (_seq s) in
  (stackTrace request s).1 = Return ()
  ∧ sent (stackTrace request s).2 = sent s ++ [JObj resp]
  ∧ is_success_response (JObj resp) = true
  ∧ dict_get "body" resp = Some (JObj body)
  ∧ dict_get "stackFrames" body = Some (JArr [])
  ∧ dict_get "totalFrames" body = None.
Proof.
  intros Hno body resp.
  assert (stackTrace request s
          = _response request true (Some (JObj body)) None s) as ->.
  { unfold stackTrace. rewrite bind_unfold; cbn [get_state].
    destruct Hno as [-> | (d & -> & Htrace)]; [done |].
    cbn [mbind option_bind]. by rewrite Htrace. }
  rewrite _response_unfold. by split_and!.
Qed.

Lemma append_cons c a b : String c a +:+ b = String c (a +:+ b).
Proof. done. Qed.

Lemma append_assoc a b c : (a +:+ b) +:+ c = a +:+ b +:+ c.
Proof.
  induction a as [| x a IH]; [done |]. rewrite !append_cons. by rewrite IH.
Qed.

Lemma length_append a b :
  String.length (a +:+ b) = (String.length a + String.length b)%nat.
Proof.
  induction a as [| c a IH]; [done |]. rewrite append_cons. cbn. by rewrite IH.
Qed.

Lemma substring_prefix a b : String.substring 0 (String.length a) (a +:+ b) = a.
Proof.
  induction a as [| c a IH]; [by destruct b |]. rewrite append_cons. cbn.
  by rewrite IH.
Qed.

Lemma substring_suffix a b :
  String.substring (String.length a) (String.length b) (a +:+ b) = b.
Proof.
  induction a as [| c a IH]; [| by rewrite append_cons].
  change ("" +:+ b) with b. cbn [String.length].
  induction b as [| c b IHb]; [done |]. cbn. by rewrite IHb.
Qed.

(** An expression of the form [stack[t]]. *)
Lemma stack_expression t :
  startswith "stack[" ("stack[" +:+ t +:+ "]") = true
  ∧ endswith "]" ("stack[" +:+ t +:+ "]") = true
  ∧ slice_6_m1 ("stack[" +:+ t +:+ "]") = t.
Proof.
  split_and!.
  - by destruct t.
  - unfold endswith.
    replace ("stack[" +:+ t +:+ "]") with (("stack[" +:+ t) +:+ "]")
      by apply append_assoc.
    rewrite length_append. cbn [String.length].
    replace (String.length ("stack[" +:+ t) + 1 - 1)%nat
      with (String.length ("stack[" +:+ t)) by lia.
    pose proof (substring_suffix ("stack[" +:+ t) "]") as Hsuffix.
    cbn [String.length] in Hsuffix. rewrite Hsuffix.
    destruct (Nat.leb_spec 1 (String.length ("stack[" +:+ t) + 1)); [done | lia].
  - unfold slice_6_m1. rewrite length_append.
    change (String.substring 6 (String.length "stack[" + String.length (t +:+ "]") - 7)
                             ("stack[" +:+ t +:+ "]"))
      with (String.substring 0 (6 + String.length (t +:+ "]") - 7) (t +:+ "]")).
    rewrite length_append. cbn [String.length].
    replace (6 + (String.length t + 1) - 7)%nat with (String.length t) by lia.
    apply substring_prefix.
Qed.

Lemma evaluate_spec (request args : dict) (expr : string) s d (trace : EVM.Trace) :
  get_or "arguments" (JObj []) request = JObj args →
  get_or "expression" (JStr "") args = JStr expr →
  debugger s = Some d →
  EVM.current_trace d = Some trace →
  evaluate request s
  = match evaluation expr d trace with
    | inr result =>
        _response request true
          (Some (JObj [("result", JStr result); ("variablesReference", JInt 0)]))
          None s
    | inl e => _response request false None (Some (str_exn e)) s
    end.
Proof.
  intros Hargs Hexpr Hd Htrace. unfold evaluate, evaluation.
  rewrite Hargs, bind_unfold; cbn [as_dict mret StateExn_ret]. rewrite Hexpr.
  unfold try_except. rewrite (bind_unfold get_state); cbn [get_state].
  rewrite Hd; cbn [mbind option_bind]. rewrite Htrace; cbn [mbind option_bind].
  rewrite bind_unfold.
  destruct (startswith "stack[" expr && endswith "]" expr); [| done].
  rewrite bind_unfold.
  destruct (int_of_str (slice_6_m1 expr)) as [e | idx]; [done |].
  cbn [lift_exn mret StateExn_ret]. rewrite bind_unfold.
  destruct (py_index (EVM.steps trace) (EVM.current_step d)) as [step |]; [| done].
  cbn [mret StateExn_ret].
  by destruct (py_index (EVM.stack step) idx).
Qed.

(** The ValueError of [int] for a str. *)
Lemma int_of_str_error t e : int_of_str t = inl e → ∃ text, e = PyExn "ValueError" text.
Proof.
  unfold int_of_str. destruct (long_from_string _ _); [done | |]; intros [= <-];
    by eexists.
Qed.

(** C7.  [evaluate] while a trace exists, for an expression that is a
    str.  An expression [stack[t]] where [int] reads [t] as [idx] (every
    decimal numeral within the 4300 digits of [int] is read as its value)
    is answered with a success whose result is entry [idx] of the stack
    of the current step, shown as in the Stack scope: an int in
    hexadecimal, so that [stack[2]] on the stack [1, 2, 300] gives
    [0x12c].  An expression that does not both start with [stack[] and
    end with []] is answered with a success whose result is [n/a].  When
    an exception is raised on the way (the ValueError of [int] for a text
    between the brackets that it does not read, the IndexError of a
    current step or an index outside its list) the answer is a failure
    that carries the message of the exception. *)
Theorem evaluate_stack_expression (request args : dict) (expr : string) s d
        (trace : EVM.Trace) :
  get_or "arguments" (JObj []) request = JObj args →
  get_or "expression" (JStr "") args = JStr expr →
  debugger s = Some d →
  EVM.current_trace d = Some trace →
  let success result :=
    _response request true
      (Some (JObj [("result", JStr result); ("variablesReference", JInt 0)])) None s in
  let failure e := _response request false None (Some (str_exn e)) s in
  (∀ t idx step val,
      expr = "stack[" +:+ t +:+ "]" →
      int_of_str t = inr idx →
      py_index (EVM.steps trace) (EVM.current_step d) = Some step →
      py_index (EVM.stack step) idx = Some val →
      evaluate request s = success (show_word val)
      ∧ (∀ z, val = EVM.WInt z → evaluate request s = success (hex z)))
  ∧ (∀ z, (String.length (str_Z z) ≤ int_max_str_digits)%nat →
          int_of_str (str_Z z) = inr z)
  ∧ hex 300 = "0x12c"
  ∧ (startswith "stack[" expr && endswith "]" expr = false →
     evaluate request s = success "n/a")
  ∧ (∀ t e, expr = "stack[" +:+ t +:+ "]" → int_of_str t = inl e →
            evaluate request s = failure e
            ∧ ∃ text, e = PyExn "ValueError" text)
  ∧ (∀ t idx, expr = "stack[" +:+ t +:+ "]" → int_of_str t = inr idx →
              py_index (EVM.steps trace) (EVM.current_step d) = None →
              evaluate request s = failure (index_error (EVM.current_step d)))
  ∧ (∀ t idx step, expr = "stack[" +:+ t +:+ "]" → int_of_str t = inr idx →
                   py_index (EVM.steps trace) (EVM.current_step d) = Some step →
                   py_index (EVM.stack step) idx = None →
                   evaluate request s = failure (index_error idx))
  ∧ (evaluate request s).1 = Return ()
  ∧ ∃ resp, sent (evaluate request s).2 = sent s ++ [resp].
Proof.
  intros Hargs Hexpr Hd Htrace success failure.
  rewrite (evaluate_spec request args expr s d trace Hargs Hexpr Hd Htrace).
  assert (∀ r : pyexn + string,
            (match r with inr result => success result | inl e => failure e end).1
            = Return ()
            ∧ ∃ resp, sent (match r with
                            | inr result => success result
                            | inl e => failure e
                            end).2 = sent s ++ [resp]) as Hone.
  { intros [e | result]; unfold success, failure; rewrite _response_unfold;
      (split; [done | by eexists]). }
  destruct (Hone (evaluation expr d trace)) as [Hret Hsent].
  unfold evaluation in *.
  split_and!; [.. | exact Hret | exact Hsent].
  - intros t idx step val -> Hidx Hstep Hval.
    destruct (stack_expression t) as (-> & -> & ->). cbn [andb].
    rewrite Hidx, Hstep, Hval. split; [done |]. by intros z ->.
  - apply int_of_str_Z.
  - done.
  - by intros ->.
  - intros t e -> Hidx. destruct (stack_expression t) as (-> & -> & ->). cbn [andb].
    rewrite Hidx. split; [done |]. by eapply int_of_str_error.
  - intros t idx -> Hidx Hstep. destruct (stack_expression t) as (-> & -> & ->).
    cbn [andb]. by rewrite Hidx, Hstep.
  - intros t idx step -> Hidx Hstep Hval.
    destruct (stack_expression t) as (-> & -> & ->). cbn [andb].
    by rewrite Hidx, Hstep, Hval.
Qed.


(** C5 (as amended).  [setBreakpoints] without a debugger: the line list
    stored for the source path is replaced by the lines of the request,
    and the response is a success whose list of verification records is
    empty: no descriptor is reported back. *)
Theorem setBreakpoints_without_session (request : dict) (path : json)
        (key : hashable) (descriptors : list dict) s :
  batch_request request path key descriptors →
  debugger s = None →
  let resp := response_of request true
                (Some (JObj [("breakpoints", JArr [])])) None (_seq s) in
  (setBreakpoints request s).1 = Return ()
  ∧ breakpoints (setBreakpoints request s).2 !! key = Some (lines_of descriptors)
  ∧ (∀ key', key' ≠ key →
       breakpoints (setBreakpoints request s).2 !! key' = breakpoints s !! key')
  ∧ sent (setBreakpoints request s).2 = sent s ++ [JObj resp]
  ∧ is_success_response (JObj resp) = true
  ∧ records_of (JObj resp) = Some []
  ∧ debugger (setBreakpoints request s).2 = None.
Proof.
  intros Hreq Hd resp.
  rewrite (setBreakpoints_spec request path key descriptors s Hreq), Hd.
  rewrite _response_unfold. cbn [fst snd breakpoints write set_seq set_breakpoints
                                 sent debugger].
  split_and!; try done.
  - apply lookup_insert_eq.
  - intros key' Hne. by apply lookup_insert_ne.
Qed.

(** *** What a handler may change *)

Section Footprint.

Variable R : relation (WalnutDAPServer Tracer).
Context `{R_refl : !Reflexive R, R_trans : !Transitive R}.

Hypothesis R_set_debugger : ∀ d s, R s (set_debugger d s).
Hypothesis R_set_session : ∀ x s, R s (set_session x s).
Hypothesis R_set_breakpoints : ∀ b s, R s (set_breakpoints b s).
Hypothesis R_set_stdin : ∀ b s, R s (set_stdin b s).
Hypothesis R_response :
  ∀ request success body message, keeps R (_response request success body message).
Hypothesis R_initialized : ∀ body, keeps R (_event "initialized" body).
Hypothesis R_output : ∀ body, keeps R (_event "output" body).
Hypothesis R_thread : ∀ body, keeps R (_event "thread" body).
Hypothesis R_stopped : ∀ body, keeps R (_event "stopped" body).

Local Abbreviation kept := (keeps R).

Hint Resolve R_set_debugger R_set_session R_set_breakpoints R_response
  R_initialized R_output R_thread R_stopped : keeps.

Lemma kept_the_debugger attr : kept (the_debugger attr).
Proof using R R_refl R_trans. unfold the_debugger. keeps_tac. Qed.
Hint Resolve kept_the_debugger : keeps.

Lemma kept_the_tracer : kept the_tracer.
Proof using R R_refl R_trans. unfold the_tracer. keeps_tac. Qed.
Hint Resolve kept_the_tracer : keeps.

Lemma kept_thread_body reason : kept (thread_body reason).
Proof using R R_refl R_trans. unfold thread_body. keeps_tac. Qed.
Hint Resolve kept_thread_body : keeps.

Lemma kept_send_output text : kept (_send_output text).
Proof using R R_refl R_trans R_output. unfold _send_output. keeps_tac. Qed.
Hint Resolve kept_send_output : keeps.

Lemma kept_initialize request : kept (initialize request).
Proof using R R_refl R_trans R_response R_initialized. unfold initialize. keeps_tac. Qed.

Lemma kept_simulate : kept simulate.
Proof using R R_refl R_trans R_set_debugger R_output. unfold simulate. keeps_tac. Qed.
Hint Resolve kept_simulate : keeps.

Lemma kept_resolve_contract args fork_port : kept (resolve_contract args fork_port).
Proof using R R_refl R_trans R_set_session. unfold resolve_contract. keeps_tac. Qed.

Lemma kept_create_debugger args contract_address ethdebug_dir abi_path rpc :
  kept (create_debugger args contract_address ethdebug_dir abi_path rpc).
Proof using R R_refl R_trans R_set_debugger. unfold create_debugger. keeps_tac. Qed.
Hint Resolve kept_resolve_contract kept_create_debugger : keeps.

Lemma kept_launch_try request args fork_port :
  kept (launch_try request args fork_port).
Proof using R R_refl R_trans R_set_debugger R_set_session R_response R_output R_thread R_stopped. unfold launch_try. keeps_tac. Qed.
Hint Resolve kept_launch_try : keeps.

Lemma kept_launch request : kept (launch request).
Proof using R R_refl R_trans R_set_debugger R_set_session R_response R_output R_thread R_stopped. unfold launch. keeps_tac. Qed.

Lemma kept_separate bps lines functions : kept (separate bps lines functions).
Proof using R R_refl R_trans.
  revert lines functions.
  induction bps as [| bp bps IH]; intros lines functions; cbn [separate];
    keeps_tac.
Qed.
Hint Resolve kept_separate : keeps.

Lemma kept_try_do_break arg : kept (try_do_break arg).
Proof using R R_refl R_trans R_set_debugger. unfold try_do_break. keeps_tac. Qed.
Hint Resolve kept_try_do_break : keeps.

Lemma kept_register_lines path lines verified :
  kept (register_lines path lines verified).
Proof using R R_refl R_trans R_set_debugger.
  revert verified.
  induction lines as [| line lines IH]; intros verified; cbn [register_lines];
    keeps_tac.
Qed.
Hint Resolve kept_register_lines : keeps.

Lemma kept_register_functions functions verified :
  kept (register_functions functions verified).
Proof using R R_refl R_trans R_set_debugger.
  revert verified.
  induction functions as [| f functions IH]; intros verified;
    cbn [register_functions]; keeps_tac.
Qed.
Hint Resolve kept_register_functions : keeps.

Lemma kept_setBreakpoints request : kept (setBreakpoints request).
Proof using R R_refl R_trans R_set_debugger R_set_breakpoints R_response. unfold setBreakpoints. keeps_tac. Qed.

Lemma kept_threads request : kept (threads request).
Proof using R R_refl R_trans R_response. unfold threads. keeps_tac. Qed.

Lemma kept_step_with do_step request : kept (step_with do_step request).
Proof using R R_refl R_trans R_set_debugger R_response R_stopped. unfold step_with. keeps_tac. Qed.

Lemma kept_stackTrace request : kept (stackTrace request).
Proof using R R_refl R_trans R_response. unfold stackTrace. keeps_tac. Qed.

Lemma kept_scopes request : kept (scopes request).
Proof using R R_refl R_trans R_response. unfold scopes. keeps_tac. Qed.

Lemma kept_locals t step vars_here vars_list :
  kept (locals t step vars_here vars_list).
Proof using R R_refl R_trans.
  revert vars_list.
  induction vars_here as [| var vars_here IH]; intros vars_list; cbn [locals];
    keeps_tac.
Qed.
Hint Resolve kept_locals : keeps.

Lemma kept_variables request : kept (variables request).
Proof using R R_refl R_trans R_response. unfold variables. keeps_tac. Qed.

Lemma kept_evaluate request : kept (evaluate request).
Proof using R R_refl R_trans R_response. unfold evaluate. keeps_tac. Qed.

(** The loop of [continue_] changes the debugger only. *)
Lemma kept_continue_loop_state fuel trace bps s :
  R s (continue_loop fuel trace bps s).2.
Proof using R R_refl R_trans R_set_debugger.
  revert s. induction fuel as [| fuel IH]; intros s; cbn [continue_loop]; [done |].
  rewrite bind_unfold. destruct (debugger s) as [d |] eqn:Hd.
  - rewrite (the_debugger_Some _ _ _ Hd).
    destruct (_ <? _); cbn; [| done].
    rewrite bind_unfold; cbn.
    destruct (py_index _ _) as [step |]; cbn; [| apply R_set_debugger].
    destruct (bool_decide _); cbn; [apply R_set_debugger |].
    etrans; [apply (R_set_debugger (EVM.set_current_step (EVM.current_step d + 1) d)) |].
    apply IH.
  - unfold the_debugger. rewrite bind_unfold; cbn. by rewrite Hd.
Qed.

Lemma kept_continue_ request : kept (continue_ request).
Proof using R R_refl R_trans R_set_debugger R_response R_stopped.
  intros s. unfold continue_. rewrite bind_unfold; cbn [get_state].
  destruct (debugger s ≫= _) as [[d trace] |] eqn:Hd.
  - destruct (debugger s) as [d0 |] eqn:Hd0; [| done]. cbn in Hd.
    destruct (EVM.current_trace d0); [| done]. injection Hd as -> ->.
    rewrite bind_unfold.
    pose proof (continue_loop_fuel
      (S (Z.to_nat (Z.of_nat (List.length (EVM.steps trace)) - 1 - EVM.current_step d)))
      trace (default ∅ (EVM.breakpoints d)) s d Hd0 ltac:(lia)) as Hfuel.
    pose proof (kept_continue_loop_state
      (S (Z.to_nat (Z.of_nat (List.length (EVM.steps trace)) - 1 - EVM.current_step d)))
      trace (default ∅ (EVM.breakpoints d)) s) as Hloop.
    destruct (continue_loop _ _ _ s) as [[[] | e |] s1]; cbn [fst snd] in *;
      [| done | done].
    assert (kept (_response request true
                    (Some (JObj [("allThreadsContinued", JBool false)])) None;;
                  stopped ← thread_body "breakpoint"; _event "stopped" stopped))
      as Hrest by keeps_tac.
    destruct (Hrest s1) as (Ho & Hin).
    split; [done | by etrans].
  - assert (kept (_response request true (Some (JObj [])) None;;
                  stopped ← thread_body "breakpoint"; _event "stopped" stopped))
      as Hrest by keeps_tac.
    apply Hrest.
Qed.

Hint Resolve kept_initialize kept_launch kept_setBreakpoints kept_threads
  kept_continue_ kept_step_with kept_stackTrace kept_scopes
  kept_variables kept_evaluate : keeps.

Lemma kept_dispatch msg : kept (dispatch msg).
Proof using R R_refl R_trans R_set_debugger R_set_session R_set_breakpoints R_response R_initialized R_output R_thread R_stopped. unfold dispatch, next, stepIn, stepOut, next. keeps_tac. Qed.

(** The commands that leave the session, the breakpoint table or the
    debugger alone need less. *)
Lemma is_str_false c v : v ≠ JStr c → is_str c v = false.
Proof using Type.
  destruct v as [| | | x | |]; try done. cbn. intros Hne.
  apply String.eqb_neq. congruence.
Qed.

Lemma kept_dispatch_but_launch msg :
  get "command" msg ≠ JStr "launch" → kept (dispatch msg).
Proof using R R_refl R_trans R_set_debugger R_set_breakpoints R_response R_initialized R_output R_thread R_stopped.
  intros Hcmd%is_str_false. unfold dispatch, next, stepIn, stepOut, next.
  rewrite Hcmd. cbv iota. keeps_tac.
Qed.

Lemma kept_dispatch_but_setBreakpoints msg :
  get "command" msg ≠ JStr "setBreakpoints" → kept (dispatch msg).
Proof using R R_refl R_trans R_set_debugger R_set_session R_response R_initialized R_output R_thread R_stopped.
  intros Hcmd%is_str_false. unfold dispatch, next, stepIn, stepOut, next.
  rewrite Hcmd. cbv iota. keeps_tac.
Qed.

Lemma kept_dispatch_inspection msg :
  get "command" msg ∉ JStr <$> ["launch"; "setBreakpoints"; "continue"; "next";
                                "stepIn"; "stepOut"] →
  kept (dispatch msg).
Proof using R R_refl R_trans R_response R_initialized R_output R_thread R_stopped.
  intros Hcmd. rewrite !fmap_cons, !not_elem_of_cons in Hcmd.
  destruct Hcmd as (H1%is_str_false & H2%is_str_false & H3%is_str_false
                    & H4%is_str_false & H5%is_str_false & H6%is_str_false & _).
  unfold dispatch, next, stepIn, stepOut, next.
  rewrite H1, H2, H3, H4, H5, H6. cbv iota. keeps_tac.
Qed.

(** The loop, however far it gets. *)
Lemma kept_run fuel s : R s (run fuel s).2.
Proof using R R_refl R_trans R_set_debugger R_set_session R_set_breakpoints R_set_stdin R_response R_initialized R_output R_thread R_stopped.
  revert s. induction fuel as [| fuel IH]; intros s; [done |].
  rewrite run_unfold.
  destruct (_read_spec s) as (o & rest & -> & _ & _).
  pose proof (R_set_stdin rest s) as Hread.
  destruct o as [v | e |]; [| done | done].
  destruct v; try done.
  destruct (negb _); [etrans; [exact Hread | apply IH] |].
  destruct (kept_dispatch d (set_stdin rest s)) as (_ & Hd).
  destruct (dispatch d _) as [[[] | e |] s'']; cbn [fst snd] in *;
    try (by etrans).
  etrans; [exact Hread |]. etrans; [exact Hd | apply IH].
Qed.

End Footprint.


(** *** The relations the handlers keep *)

Local Abbreviation sends := (@sends Tracer).
Local Abbreviation quiet := (@quiet Tracer).
Local Abbreviation silent := (@silent Tracer).
Local Abbreviation framed := (@framed Tracer _).

#[local] Instance sends_refl P : Reflexive (sends P).
Proof. intros s. exists []. by rewrite app_nil_r. Qed.

#[local] Instance sends_trans P : Transitive (sends P).
Proof.
  intros s1 s2 s3 (l1 & H1 & HP1) (l2 & H2 & HP2).
  exists (l1 ++ l2). split; [by rewrite H2, H1, app_assoc | by apply Forall_app].
Qed.

Lemma sends_same P s s' : sent s' = sent s → sends P s s'.
Proof. intros Hs. exists []. by rewrite app_nil_r. Qed.

Lemma sends_response P request success body message :
  (∀ n, P (JObj (response_of request success body message n))) →
  keeps (sends P) (_response request success body message).
Proof.
  intros HP s. rewrite _response_unfold; cbn [fst snd]. split; [done |].
  eexists [_]. split; [done | by repeat constructor].
Qed.

Lemma sends_event P event body :
  (∀ n, P (JObj (event_of event body n))) →
  keeps (sends P) (_event event body).
Proof.
  intros HP s. rewrite _event_unfold; cbn [fst snd]. split; [done |].
  eexists [_]. split; [done | by repeat constructor].
Qed.

Lemma get_type_response request success body message n :
  get "type" (response_of request success body message n) = JStr "response".
Proof.
  unfold response_of. destruct body, message; cbn; try done;
    by destruct (negb (String.eqb _ "") && negb success).
Qed.

Lemma get_request_seq_response request success body message n :
  get "request_seq" (response_of request success body message n) = get "seq" request.
Proof.
  unfold response_of. destruct body, message; cbn; try done;
    by destruct (negb (String.eqb _ "") && negb success).
Qed.

Lemma get_command_response request success body message n :
  get "command" (response_of request success body message n) = get "command" request.
Proof.
  unfold response_of. destruct body, message; cbn; try done;
    by destruct (negb (String.eqb _ "") && negb success).
Qed.

Lemma response_in_vocabulary request success body message n :
  in_vocabulary (JObj (response_of request success body message n)).
Proof. left. cbn. by rewrite get_type_response. Qed.

Lemma event_in_vocabulary event body n :
  event ∈ announced → in_vocabulary (JObj (event_of event body n)).
Proof. intros He. right. by exists event. Qed.

#[local] Instance framed_refl : Reflexive framed.
Proof. intros s. exists []. by rewrite !app_nil_r. Qed.

#[local] Instance framed_trans : Transitive framed.
Proof.
  intros s1 s2 s3 (l1 & H1 & Ho1) (l2 & H2 & Ho2).
  exists (l1 ++ l2). split; [by rewrite H2, H1, app_assoc |].
  by rewrite Ho2, Ho1, fmap_app, concat_app, app_assoc.
Qed.

Lemma framed_same s s' : sent s' = sent s → stdout s' = stdout s → framed s s'.
Proof. intros Hs Ho. exists []. by rewrite !app_nil_r. Qed.

Lemma framed_send msg s : framed s (write (frame msg) msg s).
Proof. exists [msg]. cbn. by rewrite app_nil_r. Qed.

#[local] Instance unchanged_refl {A} (f : WalnutDAPServer Tracer → A) :
  Reflexive (unchanged f).
Proof. by intros s. Qed.

#[local] Instance unchanged_trans {A} (f : WalnutDAPServer Tracer → A) :
  Transitive (unchanged f).
Proof. intros s1 s2 s3 H1 H2. unfold unchanged in *. congruence. Qed.

(** X1.  Whatever the server loop reads and however far it gets, what it
    wrote to stdout is the frames of the messages it sent, whole and in
    send order: a server started on any input has written exactly the
    concatenation of the frames of its messages. *)
Theorem stdout_is_the_frames_sent (fuel : nat) s :
  (∃ msgs, sent (run fuel s).2 = sent s ++ msgs
           ∧ stdout (run fuel s).2 = stdout s ++ List.concat (frame <$> msgs))
  ∧ ∀ input,
      stdout (run fuel (@__init__ Tracer input)).2
      = List.concat (frame <$> sent (run fuel (@__init__ Tracer input)).2).
Proof.
  assert (∀ s0, framed s0 (run fuel s0).2) as Hrun.
  { intros s0. apply kept_run; try apply _; try (intros; by apply framed_same).
    - intros request success body message s1. rewrite _response_unfold.
      split; [done |]. apply (framed_send _ (set_seq _ s1)).
    - intros body s1. rewrite _event_unfold.
      split; [done |]. apply (framed_send _ (set_seq _ s1)).
    - intros body s1. rewrite _event_unfold.
      split; [done |]. apply (framed_send _ (set_seq _ s1)).
    - intros body s1. rewrite _event_unfold.
      split; [done |]. apply (framed_send _ (set_seq _ s1)).
    - intros body s1. rewrite _event_unfold.
      split; [done |]. apply (framed_send _ (set_seq _ s1)). }
  split; [apply Hrun |].
  intros input. by destruct (Hrun (__init__ input)) as (msgs & -> & ->).
Qed.

(** X2.  Every message the server loop sends is a response or one of the
    four events [initialized], [output], [thread] and [stopped]: no other
    event ([terminated], [exited], [continued], ...) is ever announced,
    however the session goes. *)
Theorem only_announced_events (fuel : nat) s :
  ∃ msgs, sent (run fuel s).2 = sent s ++ msgs ∧ Forall in_vocabulary msgs.
Proof.
  apply (kept_run (sends in_vocabulary)); try apply _;
    try (intros; by apply sends_same).
  - intros. apply sends_response. intros n. apply response_in_vocabulary.
  - intros body. apply sends_event. intros n. apply event_in_vocabulary.
    unfold announced. repeat constructor.
  - intros body. apply sends_event. intros n. apply event_in_vocabulary.
    unfold announced. repeat constructor.
  - intros body. apply sends_event. intros n. apply event_in_vocabulary.
    unfold announced. repeat constructor.
  - intros body. apply sends_event. intros n. apply event_in_vocabulary.
    unfold announced. repeat constructor.
Qed.

(** X3.  What a request may change, by its command: no handler reads
    from stdin or changes the thread id; only [launch] may change the
    session; only [setBreakpoints] may change the breakpoint table; and the
    debugger is left as it was by every command other than [launch],
    [setBreakpoints], [continue], [next], [stepIn] and [stepOut], so that
    the inspection requests ([threads], [stackTrace], [scopes],
    [variables], [evaluate]), which only query the tracer and its debug
    info, never disturb the session. *)
Theorem dispatch_footprint (msg : dict) s :
  let cmd := get "command" msg in
  let s' := (dispatch msg s).2 in
  stdin s' = stdin s
  ∧ thread_id s' = thread_id s
  ∧ (cmd ≠ JStr "launch" → session s' = session s)
  ∧ (cmd ≠ JStr "setBreakpoints" → breakpoints s' = breakpoints s)
  ∧ (cmd ∉ JStr <$> ["launch"; "setBreakpoints"; "continue"; "next";
                     "stepIn"; "stepOut"] →
     debugger s' = debugger s).
Proof.
  intros cmd s'.
  assert (∀ {A} (f : WalnutDAPServer Tracer → A) request success body message,
            (∀ s0 data m n, f (write data m (set_seq n s0)) = f s0) →
            keeps (unchanged f) (_response request success body message))
    as Hresp.
  { intros A f request success body message Hf s0. rewrite _response_unfold.
    split; [done |]. apply Hf. }
  assert (∀ {A} (f : WalnutDAPServer Tracer → A) event body,
            (∀ s0 data m n, f (write data m (set_seq n s0)) = f s0) →
            keeps (unchanged f) (_event event body))
    as Hev.
  { intros A f event body Hf s0. rewrite _event_unfold.
    split; [done |]. apply Hf. }
  split_and!.
  - apply (kept_dispatch (unchanged stdin)); try apply _; try done;
      intros; by (apply Hresp || apply Hev).
  - apply (kept_dispatch (unchanged thread_id)); try apply _; try done;
      intros; by (apply Hresp || apply Hev).
  - intros Hcmd.
    apply (kept_dispatch_but_launch (unchanged session)); try apply _; try done;
      intros; by (apply Hresp || apply Hev).
  - intros Hcmd.
    apply (kept_dispatch_but_setBreakpoints (unchanged breakpoints));
      try apply _; try done; intros; by (apply Hresp || apply Hev).
  - intros Hcmd.
    apply (kept_dispatch_inspection (unchanged debugger)); try apply _; try done;
      intros; by (apply Hresp || apply Hev).
Qed.

(** *** One response per request *)

Local Abbreviation replied := (@replied Tracer).
Local Abbreviation returns_quietly m := (@returns_quietly Tracer _ m).
Local Abbreviation answers_request Q request m :=
  (@answers_request Tracer _ Q request m).

Lemma silent_quiet s s' : silent s s' → quiet s s'.
Proof. apply sends_same. Qed.

#[local] Instance silent_refl : Reflexive silent.
Proof. by intros s. Qed.

#[local] Instance silent_trans : Transitive silent.
Proof. intros s1 s2 s3 H1 H2. red in H1, H2. red. congruence. Qed.

Lemma quiet_event event body : keeps quiet (_event event body).
Proof. apply sends_event. by intros n. Qed.

Lemma replied_response request success body message s :
  replied request s (_response request success body message s).2.
Proof.
  rewrite _response_unfold; cbn [snd].
  exists [], (response_of request success body message (_seq s)), [].
  split_and!; [done | done | done | apply get_type_response
               | apply get_request_seq_response | apply get_command_response].
Qed.

Lemma replied_after_quiet request s s1 s2 :
  quiet s s1 → replied request s1 s2 → replied request s s2.
Proof.
  intros (evs & Hs1 & Hevs) (before & resp & after & Hs2 & Hb & Ha & Ht & Hr & Hc).
  exists (evs ++ before), resp, after.
  split_and!; [by rewrite Hs2, Hs1, <- !app_assoc | by apply Forall_app | done..].
Qed.

Lemma replied_before_quiet request s s1 s2 :
  replied request s s1 → quiet s1 s2 → replied request s s2.
Proof.
  intros (before & resp & after & Hs1 & Hb & Ha & Ht & Hr & Hc) (evs & Hs2 & Hevs).
  exists before, resp, (after ++ evs).
  split_and!; [| done | by apply Forall_app | done..].
  rewrite Hs2, Hs1, <- !app_assoc. by rewrite <- app_comm_cons.
Qed.

Lemma returns_ret {A} (a : A) : returns_quietly (mret (M := M Tracer) a).
Proof. intros s. split; [by exists a | done]. Qed.

Lemma returns_event event body : returns_quietly (_event event body).
Proof.
  intros s. split; [rewrite _event_unfold; by exists () | apply quiet_event].
Qed.

Lemma returns_thread_body reason : returns_quietly (thread_body reason).
Proof. intros s. split; [by eexists | done]. Qed.

Lemma returns_bind {A B} (m : M Tracer A) (f : A → M Tracer B) :
  returns_quietly m → (∀ a, returns_quietly (f a)) → returns_quietly (m ≫= f).
Proof.
  intros Hm Hf s. rewrite bind_unfold.
  destruct (Hm s) as [[a Ha] Hq].
  destruct (m s) as [o s1]; cbn [fst snd] in *. subst o.
  destruct (Hf a s1) as [Hb Hq']. split; [done | by etrans].
Qed.

Ltac returns_step :=
  lazymatch goal with
  | |- returns_quietly (mbind ?f ?m) => apply (returns_bind m f); [| intros ?]
  | |- returns_quietly (mret _) => apply returns_ret
  | |- returns_quietly (_event _ _) => apply returns_event
  | |- returns_quietly (thread_body _) => apply returns_thread_body
  end.
Ltac returns_tac := repeat returns_step.

Section Answers.

Variable Q : relation (WalnutDAPServer Tracer).
Context `{Q_refl : !Reflexive Q, Q_trans : !Transitive Q}.
Hypothesis Q_same : ∀ s s', sent s' = sent s → Q s s'.
Hypothesis Q_quiet : ∀ s s', Q s s' → quiet s s'.
Variable request : dict.

Local Abbreviation answers m := (answers_request Q request m).

Lemma answers_response success body message :
  answers (_response request success body message).
Proof using Type.
  intros s. rewrite _response_unfold; cbn [fst].
  rewrite <- (_response_unfold request success body message s).
  apply replied_response.
Qed.

Lemma answers_raise {A} e : answers (raise (A := A) e).
Proof using Q_refl. intros s. cbn. reflexivity. Qed.

Lemma answers_bind {A B} (m : M Tracer A) (f : A → M Tracer B) :
  keeps Q m → (∀ a, answers (f a)) → answers (m ≫= f).
Proof using Q_trans Q_quiet.
  intros Hm Hf s. rewrite bind_unfold.
  destruct (Hm s) as [Ho HQ].
  destruct (m s) as [[a | e |] s1]; cbn [fst snd] in *; [| done | done].
  specialize (Hf a s1).
  destruct (f a s1) as [[b | e |] s2]; cbn [fst snd] in *; [| | done].
  - eapply replied_after_quiet; [by apply Q_quiet | done].
  - by etrans.
Qed.

Lemma answers_then {A B} (m : M Tracer A) (k : A → M Tracer B) :
  answers m → (∀ a, returns_quietly (k a)) → answers (m ≫= k).
Proof using Type.
  intros Hm Hk s. rewrite bind_unfold. specialize (Hm s).
  destruct (m s) as [[a | e |] s1]; cbn [fst snd] in *; [| done | done].
  destruct (Hk a s1) as [[b Hb] Hq].
  destruct (k a s1) as [o s2]; cbn [fst snd] in *. subst o.
  by eapply replied_before_quiet.
Qed.

(** A handler under [try], whose [except] clause answers with a failure. *)
Lemma answers_try (m : M Tracer ()) :
  answers_request quiet request m →
  answers (try_except m (λ e, _response request false None (Some (str_exn e)))).
Proof using Type.
  intros Hm s. unfold try_except. specialize (Hm s).
  destruct (m s) as [[a | e |] s1]; cbn [fst snd] in *; [done | | done].
  rewrite _response_unfold; cbn [fst].
  rewrite <- (_response_unfold request false None (Some (str_exn e)) s1).
  eapply replied_after_quiet; [done | apply replied_response].
Qed.

End Answers.

Lemma quiet_simulate : keeps quiet simulate.
Proof.
  apply kept_simulate; try apply _; [intros; by apply sends_same |].
  intros body. apply quiet_event.
Qed.

Lemma silent_same s s' : sent s' = sent s → silent s s'.
Proof. done. Qed.

Lemma quiet_id s s' : quiet s s' → quiet s s'.
Proof. done. Qed.

#[local] Instance quiet_refl : Reflexive quiet.
Proof. apply sends_refl. Qed.

#[local] Instance quiet_trans : Transitive quiet.
Proof. apply sends_trans. Qed.

Lemma quiet_same s s' : sent s' = sent s → quiet s s'.
Proof. apply sends_same. Qed.

Lemma silent_set_debugger d s : silent s (set_debugger d s).
Proof. done. Qed.

Lemma silent_set_session x s : silent s (set_session x s).
Proof. done. Qed.

Lemma silent_set_breakpoints b s : silent s (set_breakpoints b s).
Proof. done. Qed.

Lemma quiet_set_debugger d s : quiet s (set_debugger d s).
Proof. by apply sends_same. Qed.

Lemma quiet_set_session x s : quiet s (set_session x s).
Proof. by apply sends_same. Qed.

Lemma quiet_set_breakpoints b s : quiet s (set_breakpoints b s).
Proof. by apply sends_same. Qed.

Hint Resolve silent_refl silent_trans silent_same quiet_refl quiet_trans
  quiet_same quiet_event quiet_simulate
  silent_set_debugger silent_set_session silent_set_breakpoints
  quiet_set_debugger quiet_set_session quiet_set_breakpoints
  kept_the_debugger kept_the_tracer kept_thread_body kept_resolve_contract
  kept_create_debugger kept_separate kept_register_lines
  kept_register_functions kept_locals : keeps.

Lemma answers_bind_silent {A B} request (m : M Tracer A) (f : A → M Tracer B) :
  keeps silent m → (∀ a, answers_request silent request (f a)) →
  answers_request silent request (m ≫= f).
Proof. apply answers_bind; [apply _ | apply silent_quiet]. Qed.

Lemma answers_bind_quiet {A B} request (m : M Tracer A) (f : A → M Tracer B) :
  keeps quiet m → (∀ a, answers_request quiet request (f a)) →
  answers_request quiet request (m ≫= f).
Proof. apply answers_bind; [apply _ | done]. Qed.

(** Decompose a handler up to its response. *)
Ltac answers_step :=
  lazymatch goal with
  | |- answers_request _ _ (_response _ _ _ _) => apply answers_response
  | |- answers_request _ _ (mbind ?k (_response ?r ?a ?b ?c)) =>
      apply (answers_then _ _ (_response r a b c) k);
      [apply answers_response | intros ?; returns_tac]
  | |- answers_request _ _ (try_except ?m _) => apply answers_try
  | |- answers_request _ _ (raise _) => apply answers_raise; apply _
  | |- answers_request silent ?r (mbind ?f ?m) =>
      apply (answers_bind_silent r m f); [solve [keeps_tac] | intros ?]
  | |- answers_request quiet ?r (mbind ?f ?m) =>
      apply (answers_bind_quiet r m f); [solve [keeps_tac] | intros ?]
  | |- answers_request _ _ (match ?x with _ => _ end) => destruct x
  end.
Ltac answers_tac := repeat answers_step.

Lemma answers_initialize request : answers_request silent request (initialize request).
Proof. unfold initialize. answers_tac. Qed.

Lemma answers_launch request : answers_request silent request (launch request).
Proof. unfold launch, launch_try. answers_tac. Qed.

Lemma answers_setBreakpoints request :
  answers_request silent request (setBreakpoints request).
Proof. unfold setBreakpoints. answers_tac. Qed.

Lemma answers_threads request : answers_request silent request (threads request).
Proof. unfold threads. answers_tac. Qed.

Lemma answers_step_with do_step request :
  answers_request silent request (step_with do_step request).
Proof. unfold step_with. answers_tac. Qed.

Lemma answers_stackTrace request :
  answers_request silent request (stackTrace request).
Proof. unfold stackTrace. answers_tac. Qed.

Lemma answers_scopes request : answers_request silent request (scopes request).
Proof. unfold scopes. answers_tac. Qed.

Lemma answers_variables request :
  answers_request silent request (variables request).
Proof. unfold variables. answers_tac. Qed.

Lemma answers_evaluate request :
  answers_request silent request (evaluate request).
Proof. unfold evaluate. answers_tac. Qed.

Lemma answers_continue_ request :
  answers_request silent request (continue_ request).
Proof.
  intros s. unfold continue_. rewrite bind_unfold; cbn [get_state].
  destruct (debugger s ≫= _) as [[d trace] |] eqn:Hd.
  - destruct (debugger s) as [d0 |] eqn:Hd0; [| done]. cbn in Hd.
    destruct (EVM.current_trace d0); [| done]. injection Hd as -> ->.
    rewrite bind_unfold.
    pose proof (continue_loop_fuel
      (S (Z.to_nat (Z.of_nat (List.length (EVM.steps trace)) - 1 - EVM.current_step d)))
      trace (default ∅ (EVM.breakpoints d)) s d Hd0 ltac:(lia)) as Hfuel.
    pose proof (kept_continue_loop_state silent silent_set_debugger
      (S (Z.to_nat (Z.of_nat (List.length (EVM.steps trace)) - 1 - EVM.current_step d)))
      trace (default ∅ (EVM.breakpoints d)) s) as Hloop.
    destruct (continue_loop _ _ _ s) as [[[] | e |] s1]; cbn [fst snd] in *;
      [| done | done].
    assert (answers_request silent request
              (_response request true
                 (Some (JObj [("allThreadsContinued", JBool false)])) None;;
               stopped ← thread_body "breakpoint"; _event "stopped" stopped))
      as Hrest by answers_tac.
    specialize (Hrest s1).
    destruct (mbind _ (_response _ _ _ _) s1) as [[[] | e |] s2];
      cbn [fst snd] in *; [| | done].
    + eapply replied_after_quiet; [by apply silent_quiet | done].
    + by etrans.
  - assert (answers_request silent request
              (_response request true (Some (JObj [])) None;;
               stopped ← thread_body "breakpoint"; _event "stopped" stopped))
      as Hrest by answers_tac.
    apply Hrest.
Qed.

Lemma answers_dispatch msg : answers_request silent msg (dispatch msg).
Proof.
  assert (∀ handler : dict → M Tracer (),
            answers_request silent msg (handler msg) →
            ∀ continue : bool,
              answers_request silent msg (handler msg;; mret continue)) as Hwrap.
  { intros handler Hh continue.
    apply (answers_then _ _ (handler msg)); [done | intros ?; returns_tac]. }
  unfold dispatch, next, stepIn, stepOut, next.
  repeat lazymatch goal with
         | |- answers_request _ _ (if ?c then _ else _) => destruct c
         end;
    lazymatch goal with
    | |- answers_request _ _ (mbind _ (?handler msg)) =>
        apply (Hwrap handler);
        lazymatch handler with
        | initialize => apply answers_initialize
        | launch => apply answers_launch
        | setBreakpoints => apply answers_setBreakpoints
        | threads => apply answers_threads
        | continue_ => apply answers_continue_
        | step_with ?do_step => apply (answers_step_with do_step)
        | stackTrace => apply answers_stackTrace
        | scopes => apply answers_scopes
        | variables => apply answers_variables
        | evaluate => apply answers_evaluate
        end
    | |- _ => answers_tac
    end.
Qed.



(** *** The header block *)

Lemma set_stdin_twice a b s : set_stdin b (set_stdin a s) = set_stdin b s.
Proof. done. Qed.

(** One header line that is neither empty nor the blank line. *)
Lemma read_headers_step fuel content_length s :
  (split_line (stdin s)).1 ≠ [] →
  (split_line (stdin s)).1 ≠ CRLF →
  let line := (split_line (stdin s)).1 in
  let s' := set_stdin (split_line (stdin s)).2 s in
  read_headers (S fuel) content_length s
  = if is_content_length line
    then match int_of_bytes (strip (partition ":" line).2) with
         | inr n => read_headers fuel (Some n) s'
         | inl e => (Raise e, s')
         end
    else read_headers fuel content_length s'.
Proof.
  intros Hne Hcrlf line s'. cbn [read_headers].
  rewrite bind_unfold, readline_unfold. fold line s'.
  rewrite !bool_decide_eq_false_2 by done. cbn [orb].
  unfold is_content_length. destruct (partition ":" line) as [k v]. cbn [fst snd].
  destruct (bool_decide _); [| done].
  rewrite bind_unfold. by destruct (int_of_bytes (strip v)).
Qed.

(** The header loop reads a value as [int] does, where [int] reads it
    or finds no literal in it. *)
Lemma int_of_bytes_value line n :
  header_value line = Literal n →
  int_of_bytes (strip (partition ":" line).2) = inr n.
Proof.
  unfold header_value, int_of_bytes. intros Hvalue.
  rewrite (long_from_string_within int_max_str_digits), Hvalue; [done |].
  intros count. by rewrite Hvalue.
Qed.

Lemma int_of_bytes_invalid line :
  header_value line = Invalid →
  int_of_bytes (strip (partition ":" line).2)
  = inl (invalid_literal (repr_bytes (take 200 (strip (partition ":" line).2)))).
Proof.
  unfold header_value, int_of_bytes. intros Hvalue.
  rewrite (long_from_string_within int_max_str_digits), Hvalue; [done |].
  intros count. by rewrite Hvalue.
Qed.

(** The lines in front of the deciding one. *)
Lemma read_headers_before before :
  ∀ lines rest s content_length fuel,
    header_block (before ++ lines) rest (stdin s) →
    Forall (λ l, is_content_length l = true → ∃ k, header_value l = Literal k) before →
    ∃ content_length' input,
      read_headers (List.length before + fuel) content_length s
      = read_headers fuel content_length' (set_stdin input s)
      ∧ header_block lines rest input.
Proof.
  induction before as [| l before IH];
    intros lines rest s content_length fuel Hblock Hok.
  { exists content_length, (stdin s). split; [by destruct s | done]. }
  inversion Hblock as [| | l' lines' rest' input Hline Hne Hcrlf Hrest]; subst.
  apply Forall_cons in Hok as [Hl Hok].
  cbn [List.length plus]. rewrite read_headers_step by done.
  destruct (is_content_length _) eqn:Hcl.
  - destruct (Hl eq_refl) as [n ->%int_of_bytes_value].
    destruct (IH lines rest (set_stdin (split_line (stdin s)).2 s) (Some n) fuel)
      as (cl' & input & -> & Hb); [done | done |].
    exists cl', input. by rewrite set_stdin_twice.
  - destruct (IH lines rest (set_stdin (split_line (stdin s)).2 s) content_length fuel)
      as (cl' & input & -> & Hb); [done | done |].
    exists cl', input. by rewrite set_stdin_twice.
Qed.

Lemma header_block_app_length before lines rest input :
  header_block (before ++ lines) rest input →
  (List.length before + List.length lines < S (List.length input))%nat.
Proof.
  intros Hblock%header_block_length. rewrite length_app in Hblock. lia.
Qed.

(** X5.  The header block of a message may hold any number of lines.  The
    length of the body is the value of the last line whose name, compared
    without regard to case, is [content-length]: lines with other names
    are ignored wherever they stand, and an earlier Content-Length line
    that [int] reads is overridden.  The body is then the next [n] bytes,
    or what is left of the input when it holds fewer and the buffer for
    [n] bytes is granted; it goes to the JSON library. *)
Theorem last_content_length_decides (before after : list (list ascii))
        (line rest : list ascii) (n : Z) s :
  header_block (before ++ line :: after) rest (stdin s) →
  Forall (λ l, is_content_length l = true → ∃ k, header_value l = Literal k) before →
  is_content_length line = true →
  header_value line = Literal n →
  0 ≤ n →
  n ≤ Z.of_nat (List.length rest) ∨ (n ≤ bytes_max ∧ can_allocate n = true) →
  Forall (λ l, is_content_length l = false) after →
  _read s = match json_loads (take (Z.to_nat n) rest) with
            | inl e => (Raise e, set_stdin (drop (Z.to_nat n) rest) s)
            | inr v => (Return v, set_stdin (drop (Z.to_nat n) rest) s)
            end.
Proof.
  intros Hblock Hbefore Hline Hn Hpos Hsize Hafter.
  pose proof (header_block_app_length _ _ _ _ Hblock) as Hlen.
  cbn [List.length] in Hlen.
  unfold _read. rewrite bind_unfold; cbn [get_state]. rewrite bind_unfold.
  replace (S (List.length (stdin s)))
    with (List.length before
          + S (S (List.length (stdin s) - List.length before - 1)))%nat by lia.
  destruct (read_headers_before before (line :: after) rest s None
              (S (S (List.length (stdin s) - List.length before - 1)))
              Hblock Hbefore) as (cl & input & -> & Hrest).
  inversion Hrest as [| | l' lines' rest' input' Hl Hne Hcrlf Hafter_block]; subst.
  rewrite read_headers_step by done. cbn [stdin set_stdin]. cbn zeta.
  rewrite Hline, (int_of_bytes_value _ _ Hn), set_stdin_twice.
  rewrite (read_headers_block after rest _ Hafter_block
             (set_stdin (split_line input).2 s) (Some n) _ eq_refl Hafter) by lia.
  rewrite set_stdin_twice, bind_unfold.
  destruct (Z.le_gt_cases n (Z.of_nat (List.length rest))) as [Hcovered | Hshort].
  - rewrite read_covered by (cbn [stdin set_stdin]; lia).
    cbn [stdin set_stdin]. by destruct (json_loads _).
  - destruct Hsize as [? | [Hmax Hmemory]]; [lia |].
    rewrite read_short by (cbn [stdin set_stdin]; lia).
    assert (bytes_max < sys_maxsize) as Hbytes by done.
    destruct (Z.ltb_spec sys_maxsize n); [lia |].
    destruct (Z.ltb_spec bytes_max n); [lia |].
    rewrite Hmemory. cbn [negb stdin set_stdin].
    rewrite take_ge, drop_ge by lia. by destruct (json_loads _).
Qed.

(** X6.  A Content-Length line in whose value [int] finds no integer
    literal makes the reader raise the ValueError of [int] as soon as it
    meets the line, also when a later line of the block carries a proper
    length; neither [_read] nor the server loop catches it, so the loop
    ends with this exception and sends nothing.  The message shows the
    value, up to 200 bytes and 200 characters of it. *)
Theorem malformed_content_length_raises (before after : list (list ascii))
        (line rest : list ascii) s :
  header_block (before ++ line :: after) rest (stdin s) →
  Forall (λ l, is_content_length l = true → ∃ k, header_value l = Literal k) before →
  is_content_length line = true →
  header_value line = Invalid →
  let value := strip (partition ":" line).2 in
  let e := PyExn "ValueError"
             ("invalid literal for int() with base 10: "
              +:+ String.substring 0 200 (repr_bytes (take 200 value))) in
  (_read s).1 = Raise e
  ∧ ∀ fuel, (run (S fuel) s).1 = Raise e
            ∧ sent (run (S fuel) s).2 = sent s.
Proof.
  intros Hblock Hbefore Hline Hn value e.
  pose proof (header_block_app_length _ _ _ _ Hblock) as Hlen.
  cbn [List.length] in Hlen.
  assert (∃ input, _read s = (Raise e, set_stdin input s)) as [input Hread].
  { unfold _read. rewrite bind_unfold; cbn [get_state]. rewrite bind_unfold.
    replace (S (List.length (stdin s)))
      with (List.length before
            + S (List.length (stdin s) - List.length before))%nat by lia.
    destruct (read_headers_before before (line :: after) rest s None
                (S (List.length (stdin s) - List.length before))
                Hblock Hbefore) as (cl & input & -> & Hrest).
    inversion Hrest as [| | l' lines' rest' input' Hl Hne Hcrlf Hafter_block]; subst.
    rewrite read_headers_step by done. cbn [stdin set_stdin]. cbn zeta.
    rewrite Hline, (int_of_bytes_invalid _ Hn), set_stdin_twice. by eexists. }
  split; [by rewrite Hread |].
  intros fuel. by rewrite run_unfold, Hread.
Qed.

(** *** The server loop *)

(** A budget that was enough stays enough. *)
Lemma run_fuel_mono fuel :
  ∀ s, (run fuel s).1 ≠ OutOfFuel → run (S fuel) s = run fuel s.
Proof.
  induction fuel as [| fuel IH]; intros s Hend; [done |].
  rewrite (run_unfold (S fuel)). rewrite run_unfold in Hend |- *.
  destruct (_read s) as [[v | e |] s1]; [| done | done].
  destruct v as [| | | | | msg]; try done.
  destruct (negb _); [by apply IH |].
  destruct (dispatch msg s1) as [[[] | e |] s2]; try done. by apply IH.
Qed.

(** X7.  On every input the server loop ends: it needs at most one read
    per byte of input and one more, since a message costs at least one
    byte; with that budget it returns or raises, and a larger budget
    changes nothing. *)
Theorem run_ends_on_every_input (fuel : nat) s :
  (List.length (stdin s) < fuel)%nat →
  (run fuel s).1 ≠ OutOfFuel
  ∧ run fuel s = run (S (List.length (stdin s))) s.
Proof.
  intros Hfuel. split; [by apply run_terminates |].
  replace fuel with ((fuel - S (List.length (stdin s))) + S (List.length (stdin s)))%nat
    by lia.
  induction (fuel - S (List.length (stdin s)))%nat as [| k IH]; [done |].
  cbn [plus]. rewrite run_fuel_mono; [done |].
  apply run_terminates. lia.
Qed.

Lemma _read_state s v s1 :
  _read s = (Return v, s1) → ∃ rest, s1 = set_stdin rest s.
Proof.
  intros Hread. destruct (_read_spec s) as (o & rest & Hspec & _).
  rewrite Hread in Hspec. injection Hspec as <- ->. by exists rest.
Qed.

(** X8.  A [disconnect] or [terminate] request is answered with a success
    whose body is empty, and ends the loop at once: whatever follows the
    request in the input is left unread, and nothing else is sent. *)
Theorem disconnect_ends_the_loop (msg : dict) s s1 (fuel : nat) :
  _read s = (Return (JObj msg), s1) →
  get "type" msg = JStr "request" →
  get "command" msg = JStr "disconnect" ∨ get "command" msg = JStr "terminate" →
  let resp := response_of msg true (Some (JObj [])) None (_seq s) in
  (run (S fuel) s).1 = Return ()
  ∧ stdin (run (S fuel) s).2 = stdin s1
  ∧ sent (run (S fuel) s).2 = sent s ++ [JObj resp]
  ∧ is_success_response (JObj resp) = true
  ∧ dict_get "body" resp = Some (JObj []).
Proof.
  intros Hread Htype Hcmd resp.
  destruct (_read_state _ _ _ Hread) as [rest ->].
  assert (dispatch msg (set_stdin rest s)
          = (Return false,
             (_response msg true (Some (JObj [])) None (set_stdin rest s)).2))
    as Hdispatch.
  { unfold dispatch. by destruct Hcmd as [-> | ->]. }
  rewrite run_unfold, Hread, Htype. cbn [is_str negb].
  change (String.eqb "request" "request") with true. cbn [negb].
  rewrite Hdispatch, _response_unfold. by split_and!.
Qed.

(** X9.  A request whose command is none of the fifteen the loop knows
    (a missing command counts as [None]) is answered with a failure that
    carries the message [Unsupported command: ] followed by the command,
    and no body; the loop goes on, and the session is as it was. *)
Theorem unsupported_command_is_refused (msg : dict) s :
  get "command" msg ∉ JStr <$> known_commands →
  let text := "Unsupported command: " +:+ py_str (get "command" msg) in
  let resp := response_of msg false None (Some text) (_seq s) in
  dispatch msg s = (Return true, (_response msg false None (Some text) s).2)
  ∧ sent (dispatch msg s).2 = sent s ++ [JObj resp]
  ∧ get "success" resp = JBool false
  ∧ get "message" resp = JStr text
  ∧ dict_get "body" resp = None
  ∧ debugger (dispatch msg s).2 = debugger s
  ∧ session (dispatch msg s).2 = session s
  ∧ breakpoints (dispatch msg s).2 = breakpoints s.
Proof.
  intros Hcmd text resp. unfold known_commands in Hcmd.
  rewrite !fmap_cons, !not_elem_of_cons in Hcmd.
  destruct Hcmd as (H1%is_str_false & H2%is_str_false & H3%is_str_false
                    & H4%is_str_false & H5%is_str_false & H6%is_str_false
                    & H7%is_str_false & H8%is_str_false & H9%is_str_false
                    & H10%is_str_false & H11%is_str_false & H12%is_str_false
                    & H13%is_str_false & H14%is_str_false & H15%is_str_false & _).
  assert (dispatch msg s
          = (Return true, (_response msg false None (Some text) s).2)) as Hdispatch.
  { unfold dispatch.
    by rewrite H1, H2, H3, H4, H5, H6, H7, H8, H9, H10, H11, H12, H13, H14, H15. }
  rewrite Hdispatch, _response_unfold. split_and!; try done.
Qed.

(** X10.  A framed message that is JSON but no object cannot be handled:
    the body [null] reads as "no message", so the loop ends silently as
    at the end of the input, leaving what follows unread; any other value
    (a list, a number, a string, a boolean) makes the loop raise
    AttributeError, since it has no [get]. *)
Theorem message_must_be_an_object (v : json) (rest : list ascii) s (fuel : nat) :
  json_loads (json_dumps v) = inr v →
  stdin s = frame v ++ rest →
  match v with
  | JNull => run (S fuel) s = (Return (), set_stdin rest s)
  | JObj _ => _read s = (Return v, set_stdin rest s)
  | _ => run (S fuel) s = (Raise (AttributeError v "get"), set_stdin rest s)
  end.
Proof.
  intros Hjson Hin.
  pose proof (_read_frame v rest s Hin) as Hread. rewrite Hjson in Hread.
  destruct v; try done; by rewrite run_unfold, Hread.
Qed.

(** *** [launch], once more *)

Local Abbreviation forwarding := (@forwarding Tracer).

#[local] Instance forwarding_refl : Reflexive forwarding.
Proof.
  intros s. split; [done |]. exists []. rewrite app_nil_r. cbn.
  split_and!; [done | lia | done].
Qed.

#[local] Instance forwarding_trans : Transitive forwarding.
Proof.
  intros s1 s2 s3 (Ht1 & l1 & Hs1 & Hn1 & Ho1) (Ht2 & l2 & Hs2 & Hn2 & Ho2).
  split; [congruence |]. exists (l1 ++ l2).
  split_and!; [by rewrite Hs2, Hs1, app_assoc | | by apply Forall_app].
  rewrite length_app. lia.
Qed.

Lemma forwarding_same s s' :
  thread_id s' = thread_id s → sent s' = sent s → _seq s' = _seq s →
  forwarding s s'.
Proof.
  intros Ht Hs Hn. split; [done |]. exists []. rewrite app_nil_r. cbn.
  split_and!; [done | lia | done].
Qed.

Lemma forwarding_output body : keeps forwarding (_event "output" body).
Proof.
  intros s. rewrite _event_unfold; cbn [fst snd]. split; [done |].
  split; [done |]. eexists [_]. cbn. split_and!; [done | lia | by repeat constructor].
Qed.

Lemma forwarding_resolve_contract args fork_port :
  keeps forwarding (resolve_contract args fork_port).
Proof. apply kept_resolve_contract; try apply _. intros. by apply forwarding_same. Qed.

Lemma forwarding_create_debugger args contract_address ethdebug_dir abi_path rpc :
  keeps forwarding (create_debugger args contract_address ethdebug_dir abi_path rpc).
Proof. apply kept_create_debugger; try apply _. intros. by apply forwarding_same. Qed.

Lemma forwarding_simulate : keeps forwarding simulate.
Proof.
  apply kept_simulate; try apply _; [intros; by apply forwarding_same |].
  apply forwarding_output.
Qed.

(** X11.  A launch that names neither a contract file nor both a contract
    address and a debug-info directory is refused: the answer is a failure
    with the message [Provide contractFile or contractAddress +
    ethdebugDir], and neither a session nor a debugger is created. *)
Theorem launch_needs_a_target (request args : dict) (fork_port : Z) s :
  py_or (get_or "arguments" (JObj []) request) (JObj []) = JObj args →
  int_of_json (get_or "forkPort" (JInt 8545) args) = inr fork_port →
  truthy (get "contractFile" args) = false →
  truthy (get "contractAddress" args) && truthy (get "ethdebugDir" args) = false →
  let text := "Provide contractFile or contractAddress + ethdebugDir" in
  let resp := response_of request false None (Some text) (_seq s) in
  launch request s = _response request false None (Some text) s
  ∧ sent (launch request s).2 = sent s ++ [JObj resp]
  ∧ get "success" resp = JBool false
  ∧ get "message" resp = JStr text
  ∧ debugger (launch request s).2 = debugger s
  ∧ session (launch request s).2 = session s.
Proof.
  intros Hargs Hport Hfile Htarget text resp.
  assert (launch request s = _response request false None (Some text) s) as Hlaunch.
  { unfold launch. rewrite Hargs, bind_unfold; cbn [as_dict mret StateExn_ret].
    rewrite Hport, bind_unfold; cbn [lift_exn mret StateExn_ret].
    unfold try_except, launch_try. rewrite bind_unfold.
    unfold resolve_contract. by rewrite Hfile, Htarget. }
  rewrite Hlaunch, _response_unfold. by split_and!.
Qed.

(** X12.  The two numeric launch arguments fail differently.  [forkPort]
    is converted before the [try]: a value [int] does not accept makes
    [launch] raise, with nothing sent and nothing changed, and the
    exception leaves the server loop.  [forkBlock] is converted inside the
    [try], when a contract file is given: a value [int] does not accept is
    answered with a failure that carries the message of the exception. *)
Theorem launch_numeric_arguments (request args : dict) s :
  py_or (get_or "arguments" (JObj []) request) (JObj []) = JObj args →
  (∀ e, int_of_json (get_or "forkPort" (JInt 8545) args) = inl e →
        launch request s = (Raise e, s))
  ∧ (∀ fork_port e,
       int_of_json (get_or "forkPort" (JInt 8545) args) = inr fork_port →
       truthy (get "contractFile" args) = true →
       truthy (get "forkBlock" args) = true →
       int_of_json (get "forkBlock" args) = inl e →
       launch request s = _response request false None (Some (str_exn e)) s).
Proof.
  intros Hargs. split.
  - intros e Hport. unfold launch.
    rewrite Hargs, bind_unfold; cbn [as_dict mret StateExn_ret].
    by rewrite Hport, bind_unfold.
  - intros fork_port e Hport Hfile Hblock Hint. unfold launch.
    rewrite Hargs, bind_unfold; cbn [as_dict mret StateExn_ret].
    rewrite Hport, bind_unfold; cbn [lift_exn mret StateExn_ret].
    unfold try_except, launch_try. rewrite bind_unfold.
    unfold resolve_contract. rewrite Hfile, Hblock, bind_unfold, bind_unfold.
    by rewrite Hint.
Qed.

Lemma the_tracer_Some s d t :
  debugger s = Some d → EVM.tracer d = Some t → the_tracer s = (Return t, s).
Proof.
  intros Hd Ht. unfold the_tracer.
  by rewrite bind_unfold, (the_debugger_Some _ _ _ Hd), Ht.
Qed.





(** *** Stepping *)


(** *** [stackTrace] in a session with a trace *)

Lemma or_1_nonzero n : or_1 n ≠ 0.
Proof. unfold or_1. destruct (Z.eqb_spec n 0); [done | done]. Qed.

(** X17.  [stackTrace] in a session that holds a trace, at a step of the
    trace: the answer is a success with exactly one frame and
    [totalFrames] 1.  The frame has id 1; its name is the name of the
    current function, or [pc:] followed by the program counter when
    there is none or its name is empty, so it is never empty; its line
    and column are never 0 (an unresolved or zero position is reported
    as 1); its source is the file name and path the debug info resolves
    the program counter to, and an empty object when it resolves to
    nothing. *)
Theorem stackTrace_reports_one_frame (request : dict) s d (trace : EVM.Trace)
        (step : EVM.Step) (t : Tracer) :
  debugger s = Some d →
  EVM.current_trace d = Some trace →
  py_index (EVM.steps trace) (EVM.current_step d) = Some step →
  EVM.tracer d = Some t →
  ∃ frame name line column,
    (stackTrace request s).1 = Return ()
    ∧ sent (stackTrace request s).2
      = sent s ++ [JObj (response_of request true
                           (Some (JObj [("stackFrames", JArr [JObj frame]);
                                        ("totalFrames", JInt 1)])) None (_seq s))]
    ∧ get "id" frame = JInt 1
    ∧ get "name" frame = JStr name ∧ name ≠ ""
    ∧ (∀ f, EVM.current_function d = Some f → EVM.name f ≠ "" → name = EVM.name f)
    ∧ (∀ f, EVM.current_function d = Some f → EVM.name f = "" →
            name = "pc:" +:+ str_Z (EVM.pc step))
    ∧ (EVM.current_function d = None → name = "pc:" +:+ str_Z (EVM.pc step))
    ∧ get "line" frame = JInt line ∧ line ≠ 0
    ∧ get "column" frame = JInt column ∧ column ≠ 0
    ∧ (∀ info parser path offset,
         ethdebug_info t = Some info → ethdebug_parser t = Some parser →
         get_source_info info (EVM.pc step) = Some (path, offset) →
         get "source" frame = JObj [("name", JStr (basename path));
                                    ("path", JStr path)]
         ∧ line = or_1 (offset_to_line_col parser path offset).1
         ∧ column = or_1 (offset_to_line_col parser path offset).2)
    ∧ ((ethdebug_info t = None ∨ ethdebug_parser t = None
        ∨ ∃ info, ethdebug_info t = Some info
                  ∧ get_source_info info (EVM.pc step) = None) →
       get "source" frame = JObj [] ∧ line = 1 ∧ column = 1).
Proof.
  intros Hd Htrace Hstep Ht.
  unfold stackTrace. rewrite bind_unfold; cbn [get_state].
  rewrite Hd; cbn [mbind option_bind]. rewrite Htrace; cbn [mbind option_bind].
  rewrite Hstep, bind_unfold; cbn [mret StateExn_ret].
  rewrite bind_unfold, (the_tracer_Some s d t Hd Ht).
  set (name := match EVM.current_function d with
               | Some f => if String.eqb (EVM.name f) ""
                           then "pc:" +:+ str_Z (EVM.pc step) else EVM.name f
               | None => "pc:" +:+ str_Z (EVM.pc step)
               end).
  assert (name ≠ "") as Hname.
  { unfold name. destruct (EVM.current_function d) as [f |]; [| done].
    by destruct (String.eqb_spec (EVM.name f) ""). }
  assert (∀ f, EVM.current_function d = Some f → EVM.name f ≠ "" →
               name = EVM.name f) as Hfun.
  { intros f Hf Hne. unfold name. rewrite Hf.
    by rewrite (proj2 (String.eqb_neq _ _) Hne). }
  assert (∀ f, EVM.current_function d = Some f → EVM.name f = "" →
               name = "pc:" +:+ str_Z (EVM.pc step)) as Hempty.
  { intros f Hf He. unfold name. by rewrite Hf, He. }
  assert (EVM.current_function d = None → name = "pc:" +:+ str_Z (EVM.pc step))
    as Hnone by (unfold name; by intros ->).
  clearbody name.
  destruct (ethdebug_info t) as [info |] eqn:Hinfo;
    [destruct (ethdebug_parser t) as [parser |] eqn:Hparser;
     [destruct (get_source_info info (EVM.pc step)) as [[path offset] |] eqn:Hsrc;
      [destruct (offset_to_line_col parser path offset) as [l c] eqn:Hlc |] |] |];
    rewrite _response_unfold; cbn [fst snd sent write set_seq];
    eexists _, name, _, _;
    (split_and!; [done | done | done | done | done | done | done | done | done
                  | try apply or_1_nonzero; done | done
                  | try apply or_1_nonzero; done | |]).
  - intros info' parser' path' offset' [= <-] [= <-] Hs.
    rewrite Hsrc in Hs. injection Hs as <- <-. rewrite Hlc. by split_and!.
  - intros [? | [? | (info' & [= <-] & ?)]]; congruence.
  - intros info' parser' path' offset' [= <-] [= <-] ?. congruence.
  - intros _. by split_and!.
  - intros info' parser' path' offset' [= <-] ?. congruence.
  - intros _. by split_and!.
  - intros info' parser' path' offset' ?. congruence.
  - intros _. by split_and!.
Qed.

(** X18.  When the current step of the session is no step of its trace
    (an empty trace, or an entry step past its end), [stackTrace] and
    [variables] raise IndexError: nothing is sent, nothing changes, and
    the exception leaves the server loop.  Its message is [list index out
    of range] for a step that fits [Py_ssize_t]. *)
Theorem step_out_of_range_raises (request : dict) s d (trace : EVM.Trace) :
  debugger s = Some d →
  EVM.current_trace d = Some trace →
  py_index (EVM.steps trace) (EVM.current_step d) = None →
  let e := index_error (EVM.current_step d) in
  stackTrace request s = (Raise e, s)
  ∧ (∀ args, get_or "arguments" (JObj []) request = JObj args →
             variables request s = (Raise e, s))
  ∧ (∃ text, e = PyExn "IndexError" text)
  ∧ (fits_ssize_t (EVM.current_step d) = true → e = IndexError).
Proof.
  intros Hd Htrace Hstep e. split_and!.
  - unfold stackTrace. rewrite bind_unfold; cbn [get_state].
    rewrite Hd; cbn [mbind option_bind]. rewrite Htrace; cbn [mbind option_bind].
    by rewrite Hstep, bind_unfold.
  - intros args Hargs. unfold variables.
    rewrite Hargs, bind_unfold; cbn [as_dict mret StateExn_ret].
    rewrite bind_unfold; cbn [get_state].
    rewrite Hd; cbn [mbind option_bind]. rewrite Htrace; cbn [mbind option_bind].
    by rewrite Hstep, bind_unfold.
  - unfold e, index_error. destruct (fits_ssize_t _); by eexists.
  - unfold e, index_error. by intros ->.
Qed.

(** *** [variables] *)

Lemma variables_unfold (request args : dict) s d (trace : EVM.Trace)
      (step : EVM.Step) (t : Tracer) :
  get_or "arguments" (JObj []) request = JObj args →
  debugger s = Some d →
  EVM.current_trace d = Some trace →
  py_index (EVM.steps trace) (EVM.current_step d) = Some step →
  EVM.tracer d = Some t →
  variables request s
  = match ethdebug_info_attr t with
    | inr info_obj =>
        (vars_list ←
           (if is_int 1001 (get "variablesReference" args) then
              match info_obj with
              | Some info => locals t step (get_variables_at_pc info (EVM.pc step)) []
              | None => mret []
              end
            else if is_int 1002 (get "variablesReference" args)
                 then mret (stack_vars 0 (EVM.stack step))
                 else mret []);
         _response request true (Some (JObj [("variables", JArr vars_list)])) None) s
    | inl message => (Raise (PyExn "AttributeError" message), s)
    end.
Proof.
  intros Hargs Hd Htrace Hstep Ht. unfold variables.
  rewrite Hargs, bind_unfold; cbn [as_dict mret StateExn_ret].
  rewrite bind_unfold; cbn [get_state].
  rewrite Hd; cbn [mbind option_bind]. rewrite Htrace; cbn [mbind option_bind].
  rewrite Hstep, bind_unfold; cbn [mret StateExn_ret].
  rewrite bind_unfold, (the_tracer_Some s d t Hd Ht), bind_unfold.
  by destruct (ethdebug_info_attr t).
Qed.

Lemma stack_vars_lookup stack :
  ∀ i k, stack_vars i stack !! k = stack_entry (i + Z.of_nat k) <$> stack !! k.
Proof.
  induction stack as [| w stack IH]; intros i k; [done |].
  destruct k as [| k]; cbn [stack_vars lookup list_lookup fmap option_fmap option_map].
  - by rewrite Z.add_0_r.
  - rewrite IH. by replace (i + 1 + Z.of_nat k) with (i + Z.of_nat (S k)) by lia.
Qed.

Lemma stack_vars_length stack : ∀ i, List.length (stack_vars i stack) = List.length stack.
Proof.
  induction stack as [| w stack IH]; intros i; [done |]. cbn. by rewrite IH.
Qed.

Lemma is_int_true n v : is_int n v = true → 1 < n → v = JInt n.
Proof.
  destruct v as [| [] | z | | |]; unfold is_int; try done.
  - intros ?%Z.eqb_eq. lia.
  - intros ?%Z.eqb_eq. lia.
  - by intros ->%Z.eqb_eq.
Qed.

Lemma py_index_nat {A} (l : list A) (i : nat) : py_index l (Z.of_nat i) = l !! i.
Proof.
  unfold py_index. destruct (Z.leb_spec 0 (Z.of_nat i)); [| lia].
  by rewrite Nat2Z.id.
Qed.

(** X19.  The Stack scope and [evaluate] agree.  For the reference 1002,
    in a session whose tracer has the attribute [ethdebug_info],
    [variables] lists one entry per word of the stack of the current
    step, in stack order, entry [i] being named [stack[i]] and valued as
    the word is shown (an int in hexadecimal); and evaluating the name of
    an entry gives the value of that entry.  (A list holds at most
    [sys.maxsize] items.) *)
Theorem stack_scope_agrees_with_evaluate (request args : dict) s d
        (trace : EVM.Trace) (step : EVM.Step) (t : Tracer) (info_obj : option Info)
        (i : nat) (w : EVM.word) :
  debugger s = Some d →
  EVM.current_trace d = Some trace →
  py_index (EVM.steps trace) (EVM.current_step d) = Some step →
  EVM.tracer d = Some t →
  ethdebug_info_attr t = inr info_obj →
  get_or "arguments" (JObj []) request = JObj args →
  is_int 1002 (get "variablesReference" args) = true →
  Z.of_nat (List.length (EVM.stack step)) ≤ sys_maxsize →
  EVM.stack step !! i = Some w →
  let name := "stack[" +:+ str_nat i +:+ "]" in
  ∃ entries,
    (variables request s).1 = Return ()
    ∧ sent (variables request s).2
      = sent s ++ [JObj (response_of request true
                           (Some (JObj [("variables", JArr entries)])) None (_seq s))]
    ∧ List.length entries = List.length (EVM.stack step)
    ∧ entries !! i = Some (JObj [("name", JStr name);
                                 ("value", JStr (show_word w));
                                 ("variablesReference", JInt 0)])
    ∧ ∀ question qargs : dict,
        get_or "arguments" (JObj []) question = JObj qargs →
        get_or "expression" (JStr "") qargs = JStr name →
        evaluate question s
        = _response question true
            (Some (JObj [("result", JStr (show_word w));
                         ("variablesReference", JInt 0)])) None s.
Proof.
  intros Hd Htrace Hstep Ht Hattr Hargs Href Hsize Hw name.
  exists (stack_vars 0 (EVM.stack step)).
  rewrite (variables_unfold request args s d trace step t Hargs Hd Htrace Hstep Ht).
  rewrite Hattr, (is_int_true _ _ Href ltac:(lia)).
  change (is_int 1001 (JInt 1002)) with false.
  change (is_int 1002 (JInt 1002)) with true. cbn iota.
  rewrite bind_unfold; cbn [mret StateExn_ret]. rewrite _response_unfold.
  split_and!; [done | done | apply stack_vars_length | |].
  - rewrite stack_vars_lookup, Hw. done.
  - intros question qargs Hqargs Hexpr.
    rewrite (evaluate_spec question qargs name s d trace Hqargs Hexpr Hd Htrace).
    unfold evaluation, name.
    destruct (stack_expression (str_nat i)) as (-> & -> & ->). cbn [andb].
    unfold str_nat. rewrite int_of_str_ssize_t, Hstep, py_index_nat, Hw; [done |].
    apply lookup_lt_Some in Hw. unfold fits_ssize_t, sys_maxsize in *.
    apply andb_true_iff. split; apply Z.leb_le; lia.
Qed.

(** X20.  Of the three scopes [scopes] lists (Locals 1001, Stack 1002,
    Storage 1003), the third has no variables: for every reference other
    than 1001 and 1002, so for 1003 too, [variables] answers with a
    success whose list is empty, in a session whose tracer has the
    attribute [ethdebug_info]; and without a trace it does so for every
    reference.  With a trace and a tracer that lacks the attribute,
    [variables] answers no reference at all: it raises AttributeError
    and sends nothing. *)
Theorem storage_scope_is_empty (request args : dict) s :
  get_or "arguments" (JObj []) request = JObj args →
  let listed entries :=
    sent s ++ [JObj (response_of request true
                       (Some (JObj [("variables", JArr entries)])) None (_seq s))] in
  sent (scopes request s).2
  = sent s ++ [JObj (response_of request true
                       (Some (JObj [("scopes",
                          JArr [scope "Locals" 1001; scope "Stack" 1002;
                                scope "Storage" 1003])])) None (_seq s))]
  ∧ (∀ d trace step (t : Tracer) (info_obj : option Info),
       debugger s = Some d → EVM.current_trace d = Some trace →
       py_index (EVM.steps trace) (EVM.current_step d) = Some step →
       EVM.tracer d = Some t →
       ethdebug_info_attr t = inr info_obj →
       is_int 1001 (get "variablesReference" args) = false →
       is_int 1002 (get "variablesReference" args) = false →
       (variables request s).1 = Return ()
       ∧ sent (variables request s).2 = listed [])
  ∧ is_int 1001 (JInt 1003) = false
  ∧ is_int 1002 (JInt 1003) = false
  ∧ (no_trace s → sent (variables request s).2 = listed [])
  ∧ (∀ d trace step (t : Tracer) message,
       debugger s = Some d → EVM.current_trace d = Some trace →
       py_index (EVM.steps trace) (EVM.current_step d) = Some step →
       EVM.tracer d = Some t →
       ethdebug_info_attr t = inl message →
       variables request s = (Raise (PyExn "AttributeError" message), s)).
Proof.
  intros Hargs listed. split_and!; [done | | done | done | |].
  - intros d trace step t info_obj Hd Htrace Hstep Ht Hattr H1 H2.
    rewrite (variables_unfold request args s d trace step t Hargs Hd Htrace Hstep Ht).
    by rewrite Hattr, H1, H2, bind_unfold.
  - intros Hno. unfold variables.
    rewrite Hargs, bind_unfold; cbn [as_dict mret StateExn_ret].
    rewrite bind_unfold; cbn [get_state].
    destruct Hno as [-> | (d & -> & Htrace)]; [done |].
    cbn [mbind option_bind]. by rewrite Htrace.
  - intros d trace step t message Hd Htrace Hstep Ht Hattr.
    rewrite (variables_unfold request args s d trace step t Hargs Hd Htrace Hstep Ht).
    by rewrite Hattr.
Qed.

Local Abbreviation describes_at := (@describes Tracer Info Parser _).

(** The Locals loop over variables whose stack offsets do not reach
    below the bottom of the stack. *)
Lemma locals_describe (t : Tracer) (step : EVM.Step) (vars : list EVM.VarInfo) :
  Forall (λ var, EVM.location_type var = "stack" →
                 - Z.of_nat (List.length (EVM.stack step)) ≤ EVM.offset var) vars →
  ∀ acc s, ∃ entries,
    locals t step vars acc s = (Return (acc ++ entries), s)
    ∧ Forall2 (describes_at t step) vars entries.
Proof.
  induction 1 as [| var vars Hvar _ IH]; intros acc s.
  { exists []. by rewrite app_nil_r. }
  cbn [locals]. rewrite bind_unfold.
  set (n := Z.of_nat (List.length (EVM.stack step))) in *.
  assert (∃ value,
    (if String.eqb (EVM.location_type var) "stack" && (EVM.offset var <? n)
     then match py_index (EVM.stack step) (EVM.offset var) with
          | Some raw_value => mret (decode_value t raw_value (EVM.var_type var))
          | None => raise (index_error (EVM.offset var))
          end
     else if String.eqb (EVM.location_type var) "memory"
             && negb (String.eqb (EVM.memory step) "")
     then mret (extract_from_memory t (EVM.memory step) (EVM.offset var)
                                    (EVM.var_type var))
     else if String.eqb (EVM.location_type var) "storage"
             && match EVM.storage step with [] => false | _ => true end
     then mret (extract_from_storage t (EVM.storage step) (EVM.offset var)
                                     (EVM.var_type var))
     else mret "None") s = (Return value, s)
    ∧ describes_at t step var
        (JObj [("name", JStr (EVM.var_name var)); ("value", JStr value);
               ("type", JStr (EVM.var_type var));
               ("variablesReference", JInt 0)])) as (value & -> & Hentry).
  { unfold describes. fold n.
    destruct (String.eqb_spec (EVM.location_type var) "stack") as [Hk | Hk];
      cbn [andb].
    - destruct (Z.ltb_spec (EVM.offset var) n) as [Hlt | Hge].
      + assert (is_Some (py_index (EVM.stack step) (EVM.offset var))) as [w Hw].
        { unfold py_index. fold n. specialize (Hvar Hk).
          destruct (Z.leb_spec 0 (EVM.offset var)).
          - apply lookup_lt_is_Some. lia.
          - destruct (Z.leb_spec (- n) (EVM.offset var)); [| lia].
            apply lookup_lt_is_Some. lia. }
        rewrite Hw. eexists. split; [done |]. eexists. split; [done |].
        rewrite Hk. split_and!; try done; try lia.
        * intros _ _. by exists w.
        * intros Hin. exfalso. apply Hin. repeat constructor.
      + rewrite Hk. cbn [String.eqb Ascii.eqb Bool.eqb andb].
        eexists. split; [done |]. eexists. split; [done |].
        split_and!; try done; try lia.
    - destruct (String.eqb_spec (EVM.location_type var) "memory") as [Hm | Hm];
        cbn [andb].
      + destruct (String.eqb_spec (EVM.memory step) "") as [He | He]; cbn [negb].
        * rewrite Hm. cbn [String.eqb Ascii.eqb Bool.eqb andb].
          eexists. split; [done |]. eexists. split; [done |].
          split_and!; try done.
        * eexists. split; [done |]. eexists. split; [done |].
          rewrite Hm. split_and!; try done.
          intros Hin. exfalso. apply Hin. repeat constructor.
      + destruct (String.eqb_spec (EVM.location_type var) "storage") as [Hs | Hs];
          cbn [andb].
        * destruct (EVM.storage step) as [| kv storage] eqn:Hst.
          -- eexists. split; [done |]. eexists. split; [done |].
             rewrite Hs. split_and!; try done.
          -- eexists. split; [done |]. eexists. split; [done |].
             rewrite Hs. split_and!; try done.
             intros Hin. exfalso. apply Hin. repeat constructor.
        * eexists. split; [done |]. eexists. split; [done |].
          split_and!; try done. }
  destruct (IH (acc ++ [JObj [("name", JStr (EVM.var_name var));
                              ("value", JStr value);
                              ("type", JStr (EVM.var_type var));
                              ("variablesReference", JInt 0)]]) s)
    as (entries & -> & Hentries).
  eexists (_ :: entries). split; [by rewrite <- app_assoc |]. by constructor.
Qed.

(** X21.  The Locals scope.  For the reference 1001, in a session whose
    tracer has debug info, [variables] lists one entry per variable the
    debug info knows at the program counter of the current step, in
    their order; an entry carries the name and the type of its variable
    and, as value, what the tracer decodes at its location (stack,
    memory or storage), or the text [None] when the location holds
    nothing: a stack offset at or above the stack depth, an empty memory
    or storage, or another kind of location.  (Stack offsets are taken
    not to reach below the bottom of the stack.) *)
Theorem locals_are_listed_in_order (request args : dict) s d (trace : EVM.Trace)
        (step : EVM.Step) (t : Tracer) (info : Info) :
  debugger s = Some d →
  EVM.current_trace d = Some trace →
  py_index (EVM.steps trace) (EVM.current_step d) = Some step →
  EVM.tracer d = Some t →
  ethdebug_info t = Some info →
  get_or "arguments" (JObj []) request = JObj args →
  is_int 1001 (get "variablesReference" args) = true →
  let vars := get_variables_at_pc info (EVM.pc step) in
  Forall (λ var, EVM.location_type var = "stack" →
                 - Z.of_nat (List.length (EVM.stack step)) ≤ EVM.offset var) vars →
  ∃ entries,
    (variables request s).1 = Return ()
    ∧ sent (variables request s).2
      = sent s ++ [JObj (response_of request true
                           (Some (JObj [("variables", JArr entries)])) None (_seq s))]
    ∧ List.length entries = List.length vars
    ∧ Forall2 (describes_at t step) vars entries.
Proof.
  intros Hd Htrace Hstep Ht Hinfo Hargs Href vars Hvars.
  destruct (locals_describe t step vars Hvars [] s) as (entries & Hlocals & Hall).
  exists entries.
  rewrite (variables_unfold request args s d trace step t Hargs Hd Htrace Hstep Ht).
  unfold ethdebug_info in Hinfo.
  destruct (ethdebug_info_attr t) as [message | info_obj]; [done |]. subst info_obj.
  rewrite Href, bind_unfold. fold vars. rewrite Hlocals. cbn [app].
  rewrite _response_unfold.
  split_and!; [done | done | | done].
  symmetry. by eapply Forall2_length.
Qed.
(** *** Requests without proper arguments *)

Lemma resolve_all_nil d : resolve_all d [] = ([], d).
Proof. done. Qed.

(** X22.  The handlers disagree on a request whose [arguments] is
    present but no object.  [variables] and [evaluate] call [get] on it
    outside of any [try]: they raise AttributeError, nothing is sent and
    the exception leaves the server loop.  [setBreakpoints] replaces a
    falsy value such as [null] by an empty object: it stores the empty
    line list for the empty path and answers with a success and no
    records. *)
Theorem arguments_that_are_no_object (request : dict) (v : json) s :
  dict_get "arguments" request = Some v →
  (∀ args, v ≠ JObj args) →
  variables request s = (Raise (AttributeError v "get"), s)
  ∧ evaluate request s = (Raise (AttributeError v "get"), s)
  ∧ (truthy v = false →
     setBreakpoints request s
     = _response request true (Some (JObj [("breakpoints", JArr [])])) None
         (set_breakpoints (<[HStr "" := []]> (breakpoints s)) s)).
Proof.
  intros Hv Hobj.
  assert (get_or "arguments" (JObj []) request = v) as Hget
    by (unfold get_or; by rewrite Hv).
  split_and!.
  - unfold variables. rewrite Hget, bind_unfold.
    destruct v; try done. by destruct (Hobj d).
  - unfold evaluate. rewrite Hget, bind_unfold.
    destruct v; try done. by destruct (Hobj d).
  - intros Hfalsy.
    assert (batch_request request (JStr "") (HStr "") []) as Hbatch.
    { exists [], []. unfold py_or. rewrite Hget, Hfalsy. by split_and!. }
    rewrite (setBreakpoints_spec request (JStr "") (HStr "") [] s Hbatch).
    destruct (debugger s) as [d |] eqn:Hd; [| done].
    unfold break_args, lines_of, functions_of. cbn [omap list_omap map app].
    rewrite resolve_all_nil. cbn [fst snd take drop zip_with app List.length].
    rewrite set_debugger_same; [done | done].
Qed.

(** *** [setBreakpoints], once more *)


Lemma separate_objects (descriptors : list dict) (others : list json) lines functions s :
  separate ((JObj <$> descriptors) ++ others) lines functions s
  = separate others (lines ++ lines_of descriptors)
             (functions ++ functions_of descriptors) s.
Proof.
  revert lines functions.
  induction descriptors as [| bp descriptors IH]; intros lines functions.
  - cbn. by rewrite !app_nil_r.
  - cbn [fmap list_fmap app separate]. unfold lines_of, functions_of in *.
    cbn [omap list_omap]. unfold py_in, subscript.
    destruct (dict_get "line" bp) as [line |];
      destruct (dict_get "functionName" bp) as [func_name |];
      repeat (rewrite bind_unfold; cbn [lift_exn mret StateExn_ret]);
      rewrite IH; by rewrite <- ?app_assoc.
Qed.

(** X24.  A batch one of whose descriptors cannot be searched for a key
    (a number, a boolean or [null]) makes [setBreakpoints] raise
    TypeError while it still sorts the batch, before it stored or
    registered anything: the breakpoint table, the debugger and the
    messages sent are as they were, whatever the descriptors in front of
    the bad one. *)
Theorem malformed_descriptor_changes_nothing (request args src : dict)
        (good : list dict) (bad : json) (others : list json) (e : pyexn) s :
  py_or (get_or "arguments" (JObj []) request) (JObj []) = JObj args →
  py_or (get_or "source" (JObj []) args) (JObj []) = JObj src →
  get_or "breakpoints" (JArr []) args = JArr ((JObj <$> good) ++ bad :: others) →
  py_in "line" bad = inl e →
  setBreakpoints request s = (Raise e, s)
  ∧ ∃ text, e = PyExn "TypeError" text.
Proof.
  intros Hargs Hsrc Hbps Hbad. split.
  - unfold setBreakpoints.
    rewrite Hargs, bind_unfold; cbn [as_dict mret StateExn_ret].
    rewrite Hsrc, bind_unfold; cbn [as_dict mret StateExn_ret].
    rewrite Hbps, bind_unfold; cbn [iter_json lift_exn mret StateExn_ret].
    rewrite bind_unfold, separate_objects. cbn [separate].
    by rewrite bind_unfold, Hbad.
  - unfold py_in in Hbad. destruct bad; try done; injection Hbad as <-; by eexists.
Qed.

(** *** [continue], once more *)

(** X25.  [continue] always tells the client that the session stopped at a
    breakpoint.  Without a trace the answer is a success with an empty
    body; with a trace, from a step index that is not negative, it is a
    success with [allThreadsContinued] false; both are followed by one
    [stopped] event with reason [breakpoint] for the server's thread id,
    also when the walk ended at the last step without meeting any
    breakpoint, or did not move at all. *)
Theorem continue_reports_breakpoint (request : dict) s :
  let s' := (continue_ request s).2 in
  let stopped :=
    JObj (event_of "stopped"
            (JObj [("reason", JStr "breakpoint"); ("threadId", JInt (thread_id s))])
            (_seq s + 1)) in
  (no_trace s →
   (continue_ request s).1 = Return ()
   ∧ debugger s' = debugger s
   ∧ sent s' = sent s ++ [JObj (response_of request true (Some (JObj [])) None
                                  (_seq s)); stopped])
  ∧ (∀ d trace,
       debugger s = Some d → EVM.current_trace d = Some trace →
       0 ≤ EVM.current_step d →
       (continue_ request s).1 = Return ()
       ∧ sent s' = sent s
                   ++ [JObj (response_of request true
                               (Some (JObj [("allThreadsContinued", JBool false)]))
                               None (_seq s)); stopped]).
Proof.
  intros s' stopped. subst s' stopped.
  assert (∀ body s0,
    (_response request true body None;;
     stopped ← thread_body "breakpoint"; _event "stopped" stopped) s0
    = (Return (),
       write (frame (JObj (event_of "stopped"
                      (JObj [("reason", JStr "breakpoint");
                             ("threadId", JInt (thread_id s0))]) (_seq s0 + 1))))
             (JObj (event_of "stopped"
                      (JObj [("reason", JStr "breakpoint");
                             ("threadId", JInt (thread_id s0))]) (_seq s0 + 1)))
             (set_seq (_seq s0 + 1 + 1)
                (write (frame (JObj (response_of request true body None (_seq s0))))
                       (JObj (response_of request true body None (_seq s0)))
                       (set_seq (_seq s0 + 1) s0))))) as Hrest.
  { intros body s0. by rewrite bind_unfold, _response_unfold. }
  split.
  - intros Hno. unfold continue_. rewrite bind_unfold; cbn [get_state].
    assert (debugger s ≫= (λ d, EVM.current_trace d ≫= (λ trace, Some (d, trace)))
            = None) as ->.
    { destruct Hno as [-> | (d & -> & Htrace)]; [done |].
      cbn [mbind option_bind]. by rewrite Htrace. }
    rewrite Hrest. cbn [fst snd sent debugger write set_seq].
    by rewrite <- app_assoc.
  - intros d trace Hd Htrace Hpos.
    destruct (continue_loop_spec
                (S (Z.to_nat (Z.of_nat (List.length (EVM.steps trace)) - 1
                              - EVM.current_step d)))
                trace (default ∅ (EVM.breakpoints d)) s d Hd Hpos)
      as (j & Hrun & _); [lia |].
    unfold continue_. rewrite bind_unfold; cbn [get_state].
    rewrite Hd; cbn [mbind option_bind]. rewrite Htrace; cbn [mbind option_bind].
    rewrite bind_unfold, Hrun, Hrest.
    cbn [fst snd sent debugger write set_seq set_debugger _seq thread_id].
    by rewrite <- app_assoc.
Qed.

(** *** Requests and responses, in order *)

Lemma request_seqs_app a b : request_seqs (a ++ b) = request_seqs a ++ request_seqs b.
Proof. apply omap_app. Qed.

Lemma request_seqs_events evs :
  Forall (λ m, is_event m = true) evs → request_seqs evs = [].
Proof.
  unfold request_seqs.
  induction 1 as [| m evs Hm _ IH]; [done |]. cbn [omap list_omap]. rewrite IH.
  destruct m as [| | | | | d]; try done. unfold is_event in Hm.
  destruct (get "type" d) as [| | | ty | |]; try done. unfold is_str in *.
  apply String.eqb_eq in Hm as ->. done.
Qed.

Lemma request_seqs_replied (request : dict) s s' :
  replied request s s' →
  ∃ msgs, sent s' = sent s ++ msgs ∧ request_seqs msgs = [get "seq" request].
Proof.
  intros (before & resp & after & Hs & Hb & Ha & Ht & Hr & Hc).
  exists (before ++ JObj resp :: after). split; [done |].
  rewrite request_seqs_app, (request_seqs_events _ Hb). cbn [app].
  unfold request_seqs at 1. cbn [omap list_omap]. rewrite Ht.
  change (is_str "response" (JStr "response")) with true. cbn iota.
  fold (request_seqs after). by rewrite (request_seqs_events _ Ha), Hr.
Qed.

Lemma then_true_returns_true (m : M Tracer ()) (b : bool) s s' :
  (m;; mret true) s = (Return b, s') → b = true.
Proof.
  rewrite bind_unfold. destruct (m s) as [[[] | e |] s1]; [| done | done].
  by intros [= <- <-].
Qed.

(** Only [disconnect] and [terminate] end the loop. *)
Lemma dispatch_stops (msg : dict) s s' :
  dispatch msg s = (Return false, s') →
  get "command" msg = JStr "disconnect" ∨ get "command" msg = JStr "terminate".
Proof.
  unfold dispatch.
  repeat lazymatch goal with
         | |- (if is_str ?c ?v || _ then _ else _) _ = _ → _ =>
             destruct (is_str c v) eqn:?; cbn [orb]
         | |- (if is_str ?c ?v then _ else _) _ = _ → _ =>
             destruct (is_str c v) eqn:?
         end;
    try (by intros ?%then_true_returns_true).
  - intros _. left. destruct (get "command" msg) as [| | | x | |]; try done.
    cbn in *. f_equal. by apply String.eqb_eq.
  - intros _. right. destruct (get "command" msg) as [| | | x | |]; try done.
    cbn in *. f_equal. by apply String.eqb_eq.
Qed.

Lemma _read_at_end s : stdin s = [] → _read s = (Return JNull, s).
Proof.
  intros Hin. unfold _read. rewrite bind_unfold; cbn [get_state]. rewrite bind_unfold.
  rewrite (read_headers_block [] [] [] header_block_eof s None _ Hin);
    [| done | cbn; lia].
  cbn. rewrite <- Hin. by destruct s.
Qed.

(** X26.  Responses follow the requests.  On an input that consists of
    framed requests, each of which the JSON library reads back, the
    responses the server loop sends answer the requests in input order,
    one response per request and none twice: the [request_seq] values of
    the responses sent are the [seq] values of the first [k] requests.
    When the loop returns and no request was a [disconnect] or
    [terminate], every request was answered. *)
Theorem responses_follow_the_requests (requests : list dict) (fuel : nat) s :
  Forall (λ m, json_loads (json_dumps (JObj m)) = inr (JObj m)
               ∧ get "type" m = JStr "request") requests →
  stdin s = List.concat (frame <$> (JObj <$> requests)) →
  ∃ k msgs,
    sent (run fuel s).2 = sent s ++ msgs
    ∧ request_seqs msgs = get "seq" <$> take k requests
    ∧ ((run fuel s).1 = Return () →
       Forall (λ m, get "command" m ≠ JStr "disconnect"
                    ∧ get "command" m ≠ JStr "terminate") requests →
       k = List.length requests).
Proof.
  intros Hall. revert fuel s.
  induction Hall as [| m requests [Hjson Htype] _ IH]; intros fuel s Hin.
  { exists 0%nat, []. rewrite app_nil_r. destruct fuel as [| fuel]; [done |].
    rewrite run_unfold, (_read_at_end s Hin). done. }
  destruct fuel as [| fuel].
  { exists 0%nat, []. rewrite app_nil_r. done. }
  cbn [fmap list_fmap List.concat] in Hin.
  rewrite run_unfold, (_read_frame (JObj m) _ s Hin), Hjson, Htype.
  cbn [is_str]. change (String.eqb "request" "request") with true. cbn [negb].
  set (s1 := set_stdin _ s).
  pose proof (answers_dispatch m s1) as Hanswer.
  pose proof (kept_dispatch (unchanged stdin)) as Hstdin.
  assert (stdin (dispatch m s1).2 = stdin s1) as Hkeep.
  { apply Hstdin; try apply _; try done;
      intros; intros s0; rewrite ?_response_unfold, ?_event_unfold; by split. }
  pose proof (dispatch_stops m s1) as Hstop.
  destruct (dispatch m s1) as [[[] | e |] s2]; cbn [fst snd] in *.
  - destruct (request_seqs_replied m s1 s2 Hanswer) as (msgs & Hs2 & Hseqs).
    destruct (IH fuel s2) as (k & msgs' & Hs3 & Hseqs' & Hfull); [by rewrite Hkeep |].
    exists (S k), (msgs ++ msgs'). split_and!.
    + by rewrite Hs3, Hs2, app_assoc.
    + by rewrite request_seqs_app, Hseqs, Hseqs'.
    + intros Hret [_ Hrest]%Forall_cons. cbn [List.length]. f_equal. by apply Hfull.
  - destruct (request_seqs_replied m s1 s2 Hanswer) as (msgs & Hs2 & Hseqs).
    exists 1%nat, msgs. split_and!; [done | by rewrite Hseqs |].
    intros _ [[Hd Ht] _]%Forall_cons.
    by destruct (Hstop s2 eq_refl).
  - exists 0%nat, []. rewrite app_nil_r. split_and!; [by rewrite Hanswer | done | done].
  - done.
Qed.
End Properties.

(** ** The scenarios of the specification, on the sample session *)

(** 50 steps, a breakpoint at program counter 200, which step 30 has; from
    step 10, [continue] lands on 30. *)
Example continue_scenario :
  EVM.current_step
    <$> debugger (continue_ (Demo.request 4 "continue" [])
                            (Demo.session (Demo.debugger_at 10 [200]))).2
  = Some 30.
Proof. vm_compute. reflexivity. Qed.

(** Launch with [contractAddress], [ethdebugDir] and the function
    transfer: a success response, [thread] and [stopped] events, and the
    session at step 12 in transfer. *)
Example launch_scenario :
  let s := (launch Demo.launch_request (Demo.fresh [])).2 in
  debugger s = Some Demo.launched_debugger
  ∧ EVM.current_step <$> debugger s = Some 12
  ∧ EVM.name <$> (debugger s ≫= EVM.current_function) = Some "transfer"
  ∧ is_success_response <$> sent s = [true; false; false]
  ∧ is_event <$> sent s = [false; true; true].
Proof. vm_compute. by split_and!. Qed.

(** [frobnicate] is answered with a failure that names the command. *)
Example unknown_command_scenario :
  let s := (dispatch (Demo.request 6 "frobnicate" []) (Demo.fresh [])).2 in
  sent s = [JObj (response_of (Demo.request 6 "frobnicate" []) false None
                    (Some "Unsupported command: frobnicate") 1)].
Proof. vm_compute. reflexivity. Qed.

(** ** Witnesses and counterexamples *)

Lemma continue_stops_at_next_breakpoint_witness :
  ∃ j, debugger (continue_ (Demo.request 4 "continue" [])
                           (Demo.session (Demo.debugger_at 10 [200]))).2
       = Some (EVM.set_current_step j (Demo.debugger_at 10 [200]))
       ∧ 10 < j ≤ 49.
Proof.
  destruct (continue_stops_at_next_breakpoint
              (Demo.request 4 "continue" [])
              (Demo.session (Demo.debugger_at 10 [200]))
              (Demo.debugger_at 10 [200]) Demo.trace eq_refl eq_refl)
    as (j & _ & Hd & _ & _ & Hmove).
  { vm_compute. split; discriminate. }
  exists j. split; [exact Hd |]. apply Hmove. reflexivity.
Defined.

Lemma launch_stops_at_entry_step_witness :
  ∃ d trace,
    debugger (launch Demo.launch_request (Demo.fresh [])).2 = Some d
    ∧ EVM.current_trace d = Some trace
    ∧ entry_resolved d.
Proof.
  destruct (launch_stops_at_entry_step Demo.launch_request (Demo.fresh []))
    as (d & trace & Hd & Htrace & Hres & _).
  { vm_compute. left. reflexivity. }
  exists d, trace. split; [exact Hd |]. split; [exact Htrace | exact Hres].
Defined.

Lemma mixed_batch_request :
  batch_request (Demo.setBreakpoints_request Demo.mixed_batch)
                (JStr "/src/Token.sol") (HStr "/src/Token.sol") Demo.mixed_batch.
Proof.
  exists [("source", Demo.source); ("breakpoints", JArr (JObj <$> Demo.mixed_batch))],
         [("path", JStr "/src/Token.sol")].
  repeat split; reflexivity.
Defined.



(** The claim C5 as stated fails: without a debugger a descriptor of the
    request has no record in the response at all. *)
Lemma setBreakpoints_unverified_counterexample :
  let s := (setBreakpoints (Demo.setBreakpoints_request Demo.mixed_batch)
                           (Demo.fresh [])).2 in
  ∃ records,
    last (sent s) ≫= records_of = Some records
    ∧ ¬ Forall (λ descriptor, ∃ record, record ∈ records
                                         ∧ answers record descriptor)
               (JObj <$> Demo.mixed_batch).
Proof.
  exists []. split; [vm_compute; reflexivity |].
  intros Hall. inversion Hall as [| d ds (record & Hin & _) _]; subst.
  by apply elem_of_nil in Hin.
Qed.

Lemma setBreakpoints_without_session_witness :
  breakpoints (setBreakpoints (Demo.setBreakpoints_request Demo.mixed_batch)
                              (Demo.fresh [])).2 !! HStr "/src/Token.sol"
  = Some [JInt 7; JInt 9]
  ∧ records_of (JObj (response_of (Demo.setBreakpoints_request Demo.mixed_batch) true
                        (Some (JObj [("breakpoints", JArr [])])) None 1))
    = Some [].
Proof.
  destruct (setBreakpoints_without_session
              (Demo.setBreakpoints_request Demo.mixed_batch)
              (JStr "/src/Token.sol") (HStr "/src/Token.sol") Demo.mixed_batch
              (Demo.fresh []) mixed_batch_request eq_refl)
    as (_ & Hstored & _ & _ & _ & Hrecords & _).
  split; [exact Hstored | exact Hrecords].
Defined.

Lemma framing_round_trip_witness :
  let msg := JObj (Demo.request 7 "threads" []) in
  _read (Demo.fresh (frame msg ++ frame msg))
  = (Return msg, set_stdin (frame msg) (Demo.fresh (frame msg ++ frame msg))).
Proof.
  intros msg.
  apply (framing_round_trip msg (frame msg) (Demo.fresh (frame msg ++ frame msg)));
    [vm_compute; reflexivity | reflexivity].
Defined.

(** The scenario of the specification; an index after the separator
    U+001C, which [int] does not take for white space; and an index that
    does not fit [Py_ssize_t]. *)
Lemma evaluate_stack_expression_witness :
  let separated := "stack[" +:+ String (ascii_of_nat 28) "1" +:+ "]" in
  let huge := "stack[99999999999999999999]" in
  evaluate (Demo.evaluate_request "stack[2]") Demo.launched
  = _response (Demo.evaluate_request "stack[2]") true
      (Some (JObj [("result", JStr "0x12c"); ("variablesReference", JInt 0)])) None
      Demo.launched
  ∧ evaluate (Demo.evaluate_request separated) Demo.launched
    = _response (Demo.evaluate_request separated) false None
        (Some "invalid literal for int() with base 10: '\x1c1'") Demo.launched
  ∧ evaluate (Demo.evaluate_request huge) Demo.launched
    = _response (Demo.evaluate_request huge) false None
        (Some "cannot fit 'int' into an index-sized integer") Demo.launched.
Proof.
  intros separated huge. split_and!.
  - destruct (evaluate_stack_expression
                (Demo.evaluate_request "stack[2]") [("expression", JStr "stack[2]")]
                "stack[2]" Demo.launched Demo.launched_debugger Demo.trace
                eq_refl eq_refl eq_refl eq_refl) as (Hstack & _).
    destruct (Hstack "2" 2 (Demo.step 12) (EVM.WInt 300)
                     eq_refl eq_refl eq_refl eq_refl) as [_ Hhex].
    exact (Hhex 300 eq_refl).
  - destruct (evaluate_stack_expression
                (Demo.evaluate_request separated) [("expression", JStr separated)]
                separated Demo.launched Demo.launched_debugger Demo.trace
                eq_refl eq_refl eq_refl eq_refl) as (_ & _ & _ & _ & Hvalue & _).
    exact (proj1 (Hvalue (String (ascii_of_nat 28) "1") _ eq_refl eq_refl)).
  - destruct (evaluate_stack_expression
                (Demo.evaluate_request huge) [("expression", JStr huge)]
                huge Demo.launched Demo.launched_debugger Demo.trace
                eq_refl eq_refl eq_refl eq_refl) as (_ & _ & _ & _ & _ & _ & Hindex & _).
    exact (Hindex "99999999999999999999" 99999999999999999999 (Demo.step 12)
                  eq_refl eq_refl eq_refl eq_refl).
Defined.

(** The claim C8 as stated fails: when the input ends mid-body after a
    valid Content-Length header, the reader does not yield "no message" and
    the loop does not end cleanly; the exception of the JSON library leaves
    both. *)
Lemma end_mid_body_counterexample :
  cut_off_request
  = list_ascii_of_string ("Content-Length: " +:+ str_nat 68)
    ++ CRLF ++ CRLF ++ cut_off_body
  ∧ List.length cut_off_body = 63%nat
  ∧ (_read (Demo.fresh cut_off_request)).1
    = Raise (PyExn "JSONDecodeError" "Expecting ':' delimiter")
  ∧ (run 2 (Demo.fresh cut_off_request)).1
    = Raise (PyExn "JSONDecodeError" "Expecting ':' delimiter").
Proof.
  split_and!; vm_compute; reflexivity.
Qed.

Lemma end_of_input_witness :
  let headers_only := list_ascii_of_string "User-Agent: editor" ++ CRLF
                      ++ CRLF ++ list_ascii_of_string "{}" in
  let oversized := list_ascii_of_string "Content-Length: 99999999999999999999"
                   ++ CRLF ++ CRLF ++ list_ascii_of_string "{}" in
  let too_much := list_ascii_of_string "Content-Length: 10000000000"
                  ++ CRLF ++ CRLF ++ list_ascii_of_string "{}" in
  (∀ fuel, run (S fuel) (Demo.fresh headers_only)
           = (Return (), set_stdin (list_ascii_of_string "{}")
                                   (Demo.fresh headers_only)))
  ∧ (∀ fuel, run (S fuel) (Demo.fresh cut_off_request)
             = (Raise (PyExn "JSONDecodeError" "Expecting ':' delimiter"),
                set_stdin [] (Demo.fresh cut_off_request)))
  ∧ (∀ fuel, run (S fuel) (Demo.fresh oversized)
             = (Raise (PyExn "OverflowError"
                         "cannot fit 'int' into an index-sized integer"),
                set_stdin (list_ascii_of_string "{}") (Demo.fresh oversized)))
  ∧ (∀ fuel, run (S fuel) (Demo.fresh too_much)
             = (Raise (PyExn "MemoryError" ""),
                set_stdin (list_ascii_of_string "{}") (Demo.fresh too_much))).
Proof.
  intros headers_only oversized too_much. split_and!.
  - apply (proj1 (end_of_input (Demo.fresh headers_only))
                 [list_ascii_of_string "User-Agent: editor" ++ CRLF]
                 (list_ascii_of_string "{}")).
    + apply header_block_line; [reflexivity | discriminate | discriminate |].
      exact (header_block_blank (list_ascii_of_string "{}")).
    + constructor; [reflexivity | constructor].
  - intros fuel.
    apply (proj2 (end_of_input (Demo.fresh cut_off_request)) 68 cut_off_body);
      [vm_compute; reflexivity | vm_compute; reflexivity | vm_compute; lia
       | vm_compute; discriminate | vm_compute; reflexivity | vm_compute; reflexivity].
  - intros fuel.
    apply (proj2 (end_of_input (Demo.fresh oversized)) 99999999999999999999
                 (list_ascii_of_string "{}"));
      [vm_compute; reflexivity | vm_compute; reflexivity | vm_compute; lia |].
    left. split; [vm_compute; reflexivity | reflexivity].
  - intros fuel.
    apply (proj2 (end_of_input (Demo.fresh too_much)) 10000000000
                 (list_ascii_of_string "{}"));
      [vm_compute; reflexivity | vm_compute; reflexivity | vm_compute; lia |].
    right. right. split_and!; [vm_compute; discriminate | reflexivity | reflexivity].
Defined.

(** The claim C9 as stated fails: the body of the response has no
    [totalFrames] entry. *)
Lemma stackTrace_totalFrames_counterexample :
  let s := (stackTrace (Demo.request 6 "stackTrace" []) (Demo.fresh [])).2 in
  ∃ body,
    last (sent s) ≫= body_of = Some body
    ∧ dict_get "stackFrames" body = Some (JArr [])
    ∧ dict_get "totalFrames" body ≠ Some (JInt 0).
Proof.
  exists [("stackFrames", JArr [])].
  split; [vm_compute; reflexivity |]. split; [reflexivity | discriminate].
Qed.

Lemma stackTrace_without_trace_witness :
  sent (stackTrace (Demo.request 6 "stackTrace" []) (Demo.fresh [])).2
  = [JObj (response_of (Demo.request 6 "stackTrace" []) true
             (Some (JObj [("stackFrames", JArr [])])) None 1)].
Proof.
  destruct (stackTrace_without_trace (Demo.request 6 "stackTrace" []) (Demo.fresh []))
    as (_ & Hsent & _); [left; reflexivity |].
  exact Hsent.
Defined.

Lemma non_request_is_skipped_witness :
  let input := frame (JObj Demo.stray_event)
               ++ frame (JObj (Demo.request 7 "threads" [])) in
  run 3 (Demo.fresh input)
  = run 2 (set_stdin (frame (JObj (Demo.request 7 "threads" [])))
                     (Demo.fresh input)).
Proof.
  intros input.
  refine (proj1 (non_request_is_skipped Demo.stray_event (Demo.fresh input)
                   (set_stdin (frame (JObj (Demo.request 7 "threads" [])))
                              (Demo.fresh input)) _ _) 2%nat);
    [vm_compute; reflexivity | discriminate].
Defined.

(** ** Witnesses of the further properties *)

(** Two Content-Length lines in mixed case among other headers: the last
    one decides, and the two bytes of the body are read. *)
Lemma last_content_length_decides_witness :
  let input := list_ascii_of_string "content-length: 99" ++ CRLF
               ++ list_ascii_of_string "Content-Type: json" ++ CRLF
               ++ list_ascii_of_string "CONTENT-LENGTH:  2 " ++ CRLF
               ++ list_ascii_of_string "X-Trace: on" ++ CRLF
               ++ CRLF ++ list_ascii_of_string "{}[]" in
  _read (Demo.fresh input)
  = (Return (JObj []), set_stdin (list_ascii_of_string "[]") (Demo.fresh input)).
Proof.
  intros input.
  refine (last_content_length_decides
            [list_ascii_of_string "content-length: 99" ++ CRLF;
             list_ascii_of_string "Content-Type: json" ++ CRLF]
            [list_ascii_of_string "X-Trace: on" ++ CRLF]
            (list_ascii_of_string "CONTENT-LENGTH:  2 " ++ CRLF)
            (list_ascii_of_string "{}[]") 2 (Demo.fresh input) _ _ _ _ _ _ _).
  - apply header_block_line; [reflexivity | discriminate | discriminate |].
    apply header_block_line; [reflexivity | discriminate | discriminate |].
    apply header_block_line; [reflexivity | discriminate | discriminate |].
    apply header_block_line; [reflexivity | discriminate | discriminate |].
    exact (header_block_blank (list_ascii_of_string "{}[]")).
  - constructor; [intros _; exists 99; vm_compute; reflexivity |].
    constructor; [intros Hcl; discriminate Hcl | constructor].
  - reflexivity.
  - vm_compute. reflexivity.
  - lia.
  - left. vm_compute. discriminate.
  - constructor; [reflexivity | constructor].
Defined.

(** A value that is no literal, with a byte above 127 in it. *)
Lemma malformed_content_length_raises_witness :
  let line := list_ascii_of_string "Content-Length: n" ++ [ascii_of_nat 233] ++ CRLF in
  let input := line ++ list_ascii_of_string "Content-Length: 2" ++ CRLF
               ++ CRLF ++ list_ascii_of_string "{}" in
  (run 1 (Demo.fresh input)).1
  = Raise (PyExn "ValueError" "invalid literal for int() with base 10: b'n\xe9'").
Proof.
  intros line input.
  refine (proj1 (proj2 (malformed_content_length_raises
                          [] [list_ascii_of_string "Content-Length: 2" ++ CRLF]
                          line (list_ascii_of_string "{}") (Demo.fresh input) _ _ _ _)
                       0%nat)).
  - apply header_block_line; [reflexivity | discriminate | discriminate |].
    apply header_block_line; [reflexivity | discriminate | discriminate |].
    exact (header_block_blank (list_ascii_of_string "{}")).
  - constructor.
  - reflexivity.
  - vm_compute. reflexivity.
Defined.

Lemma run_ends_on_every_input_witness :
  let input := frame (JObj (Demo.request 7 "threads" [])) in
  (run 200 (Demo.fresh input)).1 ≠ OutOfFuel.
Proof.
  intros input.
  refine (proj1 (run_ends_on_every_input 200 (Demo.fresh input) _)).
  vm_compute. lia.
Defined.

Lemma disconnect_ends_the_loop_witness :
  let rest := frame (JObj (Demo.request 7 "threads" [])) in
  let input := frame (JObj (Demo.request 9 "disconnect" [])) ++ rest in
  (run 1 (Demo.fresh input)).1 = Return ()
  ∧ stdin (run 1 (Demo.fresh input)).2 = rest.
Proof.
  intros rest input.
  destruct (disconnect_ends_the_loop (Demo.request 9 "disconnect" [])
              (Demo.fresh input) (set_stdin rest (Demo.fresh input)) 0)
    as (Hret & Hin & _).
  - vm_compute. reflexivity.
  - reflexivity.
  - left. reflexivity.
  - split; [exact Hret | exact Hin].
Defined.

Lemma unsupported_command_is_refused_witness :
  dispatch (Demo.request 6 "frobnicate" []) (Demo.fresh [])
  = (Return true,
     (_response (Demo.request 6 "frobnicate" []) false None
        (Some "Unsupported command: frobnicate") (Demo.fresh [])).2).
Proof.
  refine (proj1 (unsupported_command_is_refused
                   (Demo.request 6 "frobnicate" []) (Demo.fresh []) _)).
  unfold known_commands. rewrite !fmap_cons, !not_elem_of_cons.
  split_and!; try discriminate. apply not_elem_of_nil.
Defined.

Lemma message_must_be_an_object_witness :
  run 1 (Demo.fresh (frame (JArr [JInt 1])))
  = (Raise (AttributeError (JArr [JInt 1]) "get"),
     set_stdin [] (Demo.fresh (frame (JArr [JInt 1])))).
Proof.
  refine (message_must_be_an_object (JArr [JInt 1]) []
            (Demo.fresh (frame (JArr [JInt 1]))) 0 _ _).
  - vm_compute. reflexivity.
  - vm_compute. reflexivity.
Defined.

Lemma launch_needs_a_target_witness :
  launch (Demo.request 2 "launch" [("function", JStr "transfer")]) (Demo.fresh [])
  = _response (Demo.request 2 "launch" [("function", JStr "transfer")]) false None
      (Some "Provide contractFile or contractAddress + ethdebugDir") (Demo.fresh []).
Proof.
  refine (proj1 (launch_needs_a_target
                   (Demo.request 2 "launch" [("function", JStr "transfer")])
                   [("function", JStr "transfer")] 8545 (Demo.fresh []) _ _ _ _));
    reflexivity.
Defined.

(** A port that starts with the separator U+001C, which [int] does not
    take for white space. *)
Lemma launch_numeric_arguments_witness :
  let port := JStr (String (ascii_of_nat 28) "1") in
  launch (Demo.request 2 "launch" [("forkPort", port)]) (Demo.fresh [])
  = (Raise (PyExn "ValueError" "invalid literal for int() with base 10: '\x1c1'"),
     Demo.fresh []).
Proof.
  intros port.
  refine (proj1 (launch_numeric_arguments
                   (Demo.request 2 "launch" [("forkPort", port)])
                   [("forkPort", port)] (Demo.fresh []) _) _ _);
    reflexivity.
Defined.


Lemma stackTrace_reports_one_frame_witness :
  ∃ frame line column,
    get "line" frame = JInt line ∧ line ≠ 0
    ∧ get "column" frame = JInt column ∧ column ≠ 0
    ∧ sent (stackTrace (Demo.request 6 "stackTrace" []) (Annotated.session 10)).2
      = [JObj (response_of (Demo.request 6 "stackTrace" []) true
                 (Some (JObj [("stackFrames", JArr [JObj frame]);
                              ("totalFrames", JInt 1)])) None 1)].
Proof.
  destruct (stackTrace_reports_one_frame
              (Demo.request 6 "stackTrace" []) (Annotated.session 10)
              (Annotated.debugger_at 10) Demo.trace (Demo.step 10) Annotated.symbols
              eq_refl eq_refl eq_refl eq_refl)
    as (frame & name & line & column & _ & Hsent & _ & _ & _ & _ & _ & _
        & Hline & Hl & Hcolumn & Hc & _).
  exists frame, line, column.
  split; [exact Hline |]. split; [exact Hl |]. split; [exact Hcolumn |].
  split; [exact Hc | exact Hsent].
Defined.

Lemma step_out_of_range_raises_witness :
  stackTrace (Demo.request 6 "stackTrace" []) (Demo.session (Demo.debugger_at 50 []))
  = (Raise IndexError, Demo.session (Demo.debugger_at 50 [])).
Proof.
  refine (proj1 (step_out_of_range_raises
                   (Demo.request 6 "stackTrace" [])
                   (Demo.session (Demo.debugger_at 50 []))
                   (Demo.debugger_at 50 []) Demo.trace _ _ _)); reflexivity.
Defined.

Lemma stack_scope_agrees_with_evaluate_witness :
  ∃ entries,
    sent (variables (Annotated.variables_request 1002) Demo.launched).2
    = [JObj (response_of (Annotated.variables_request 1002) true
               (Some (JObj [("variables", JArr entries)])) None 1)]
    ∧ entries !! 2%nat = Some (JObj [("name", JStr "stack[2]");
                                     ("value", JStr "0x12c");
                                     ("variablesReference", JInt 0)]).
Proof.
  destruct (stack_scope_agrees_with_evaluate
              (Annotated.variables_request 1002) [("variablesReference", JInt 1002)]
              Demo.launched Demo.launched_debugger Demo.trace (Demo.step 12) tt None
              2 (EVM.WInt 300))
    as (entries & _ & Hsent & _ & Hentry & _);
    [reflexivity | reflexivity | reflexivity | reflexivity | reflexivity
     | reflexivity | reflexivity | vm_compute; discriminate | reflexivity |].
  exists entries. split; [exact Hsent | exact Hentry].
Defined.

(** The Storage scope in the first sample session, and with a tracer
    that has no [ethdebug_info] attribute. *)
Lemma storage_scope_is_empty_witness :
  sent (variables (Annotated.variables_request 1003) Demo.launched).2
  = [JObj (response_of (Annotated.variables_request 1003) true
             (Some (JObj [("variables", JArr [])])) None 1)]
  ∧ variables (Annotated.variables_request 1003) Legacy.session
    = (Raise (PyExn "AttributeError"
                "'TransactionTracer' object has no attribute 'ethdebug_info'"),
       Legacy.session).
Proof.
  split.
  - refine (proj2 (proj1 (proj2 (storage_scope_is_empty
                                   (Annotated.variables_request 1003)
                                   [("variablesReference", JInt 1003)] Demo.launched _))
                         Demo.launched_debugger Demo.trace (Demo.step 12) tt None
                         _ _ _ _ _ _ _));
      reflexivity.
  - destruct (storage_scope_is_empty
                (Annotated.variables_request 1003)
                [("variablesReference", JInt 1003)] Legacy.session eq_refl)
      as (_ & _ & _ & _ & _ & Hmissing).
    exact (Hmissing Legacy.debugger Demo.trace (Demo.step 12) Legacy.tracer _
                    eq_refl eq_refl eq_refl eq_refl eq_refl).
Defined.

Lemma locals_are_listed_in_order_witness :
  ∃ entries,
    sent (variables (Annotated.variables_request 1001) (Annotated.session 12)).2
    = [JObj (response_of (Annotated.variables_request 1001) true
               (Some (JObj [("variables", JArr entries)])) None 1)]
    ∧ List.length entries = 3%nat.
Proof.
  destruct (locals_are_listed_in_order
              (Annotated.variables_request 1001) [("variablesReference", JInt 1001)]
              (Annotated.session 12) (Annotated.debugger_at 12) Demo.trace
              (Demo.step 12) Annotated.symbols tt)
    as (entries & _ & Hsent & Hlen & _);
    [reflexivity | reflexivity | reflexivity | reflexivity | reflexivity
     | reflexivity | reflexivity | |].
  - constructor; [intros _; vm_compute; discriminate |].
    constructor; [intros Hkind; discriminate Hkind |].
    constructor; [intros Hkind; discriminate Hkind | constructor].
  - exists entries. split; [exact Hsent | exact Hlen].
Defined.

Lemma arguments_that_are_no_object_witness :
  let request := [("seq", JInt 8); ("type", JStr "request");
                  ("command", JStr "variables"); ("arguments", JNull)] in
  variables request (Demo.fresh [])
  = (Raise (AttributeError JNull "get"), Demo.fresh []).
Proof.
  intros request.
  refine (proj1 (arguments_that_are_no_object request JNull (Demo.fresh []) _ _));
    [reflexivity | discriminate].
Defined.


Lemma malformed_descriptor_changes_nothing_witness :
  let request :=
    Demo.request 3 "setBreakpoints"
      [("source", Demo.source);
       ("breakpoints", JArr [JObj [("line", JInt 7)]; JInt 9])] in
  setBreakpoints request Demo.launched
  = (Raise (PyExn "TypeError" "argument of type 'int' is not iterable"),
     Demo.launched).
Proof.
  intros request.
  refine (proj1 (malformed_descriptor_changes_nothing request
                   [("source", Demo.source);
                    ("breakpoints", JArr [JObj [("line", JInt 7)]; JInt 9])]
                   [("path", JStr "/src/Token.sol")]
                   [[("line", JInt 7)]] (JInt 9) [] _ Demo.launched _ _ _ _));
    reflexivity.
Defined.

Lemma responses_follow_the_requests_witness :
  let requests := [Demo.request 1 "initialize" []; Demo.request 2 "threads" []] in
  let input := List.concat (frame <$> (JObj <$> requests)) in
  ∃ k msgs,
    sent (run 3 (Demo.fresh input)).2 = msgs
    ∧ request_seqs msgs = get "seq" <$> take k requests.
Proof.
  intros requests input.
  destruct (responses_follow_the_requests requests 3 (Demo.fresh input))
    as (k & msgs & Hsent & Hseqs & _).
  - constructor; [split; [vm_compute; reflexivity | reflexivity] |].
    constructor; [split; [vm_compute; reflexivity | reflexivity] |].
    constructor.
  - reflexivity.
  - exists k, msgs. split; [exact Hsent | exact Hseqs].
Defined.
